(** * SPiD interpreter (Main-Parser-1.0.py): a shallow embedding

    The interpreter of [class SPiDInterpreter] is embedded as Rocq functions
    over explicit state.  Python strings are [string]s; the string methods
    and character classes are Python's on ASCII text, and a character above
    127 is to them a letter without case that is neither blank nor part of
    a word.  Python floats are the binary64 floats of [PrimFloat], Python
    dicts are insertion-ordered association lists, [print] appends to a
    trace, and a raised exception is a result of its own.  What the
    interpreter obtains from the Python runtime and from its collaborators
    ([float()] on text, [str()] of a float, [exec], [input], the file
    system, the network) is the interface [Host]. *)

From Stdlib Require Import String Ascii List ZArith Lia Bool Floats.
From Stdlib Require Import DecimalString.
Import ListNotations.
Open Scope string_scope.

(** ** Python string methods *)

Module PyStr.

(** [c.isspace()] of an ASCII character. *)
Definition is_space (c : ascii) : bool :=
  let n := nat_of_ascii c in
  (((9 <=? n) && (n <=? 13)) || ((28 <=? n) && (n <=? 32)))%nat.

(** [\w] of [re] on an ASCII character. *)
Definition is_word (c : ascii) : bool :=
  let n := nat_of_ascii c in
  (((48 <=? n) && (n <=? 57)) || ((65 <=? n) && (n <=? 90))
   || ((97 <=? n) && (n <=? 122)) || (n =? 95))%nat.

Definition upper_char (c : ascii) : ascii :=
  let n := nat_of_ascii c in
  if ((97 <=? n) && (n <=? 122))%nat then ascii_of_nat (n - 32) else c.

Fixpoint upper (s : string) : string :=
  match s with
  | EmptyString => EmptyString
  | String c r => String (upper_char c) (upper r)
  end.

Fixpoint lstrip (s : string) : string :=
  match s with
  | EmptyString => EmptyString
  | String c r => if is_space c then lstrip r else s
  end.

Fixpoint rstrip (s : string) : string :=
  match s with
  | EmptyString => EmptyString
  | String c r =>
      match rstrip r with
      | EmptyString => if is_space c then EmptyString else String c EmptyString
      | r' => String c r'
      end
  end.

Definition strip (s : string) : string := rstrip (lstrip s).

Definition startswith (s p : string) : bool := String.prefix p s.

Definition endswith (s p : string) : bool :=
  let n := String.length s in
  let m := String.length p in
  (m <=? n)%nat && String.eqb (substring (n - m) m s) p.

(** [c in s] for a one-character [c]. *)
Fixpoint contains (c : ascii) (s : string) : bool :=
  match s with
  | EmptyString => false
  | String d r => Ascii.eqb d c || contains c r
  end.

(** [s.split(c, 1)]: [None] stands for the one-element list [[s]],
    [Some (a, b)] for [[a, b]]. *)
Fixpoint split_once (c : ascii) (s : string) : option (string * string) :=
  match s with
  | EmptyString => None
  | String d r =>
      if Ascii.eqb d c then Some (EmptyString, r)
      else match split_once c r with
           | Some (a, b) => Some (String d a, b)
           | None => None
           end
  end.

(** [s.split(c, 1)[0]]. *)
Definition split_head (c : ascii) (s : string) : string :=
  match split_once c s with
  | Some (a, _) => a
  | None => s
  end.

(** [s.split(c)], every piece, empty ones too. *)
Fixpoint split (c : ascii) (s : string) : list string :=
  match s with
  | EmptyString => [EmptyString]
  | String d r =>
      if Ascii.eqb d c then EmptyString :: split c r
      else match split c r with
           | p :: ps => String d p :: ps
           | [] => [String d EmptyString]
           end
  end.

(** [s[1:-1]]. *)
Definition slice_1_m1 (s : string) : string :=
  substring 1 (String.length s - 2) s.

Definition join (sep : string) (l : list string) : string :=
  String.concat sep l.

Definition str_of_nat (n : nat) : string :=
  NilZero.string_of_uint (Nat.to_uint n).

Definition str_of_Z (z : Z) : string :=
  NilZero.string_of_int (Z.to_int z).

End PyStr.
Import PyStr.

(** The double quote and the backslash. *)
Definition dquote : ascii := ascii_of_nat 34.
Definition backslash : ascii := ascii_of_nat 92.
Definition hash : ascii := "#"%char.
Definition DQ : string := String dquote EmptyString.

(** ** Values and the variable store *)

(** What [parse_value] returns and what the handlers store: a float or a
    text.  The null marker of the language is the text [NULL]. *)
Inductive value : Type :=
| VNum (f : float)
| VStr (s : string).

Definition NullMarker : value := VStr "NULL".

(** Key equality of a Python dict on these values: [==]. *)
Definition key_eqb (a b : value) : bool :=
  match a, b with
  | VNum x, VNum y => PrimFloat.eqb x y
  | VStr x, VStr y => String.eqb x y
  | _, _ => false
  end.

(** [self.variables]: keys are whatever a handler was given as the name to
    bind, a text or (after the generic argument shaping resolved it) a
    float.  Keys are compared with [==]; that a dict finds a NaN key again
    through the identity of the object is not modelled. *)
Definition store : Type := list (value * value).

Fixpoint dict_get (k : value) (d : store) : option value :=
  match d with
  | [] => None
  | (k', v) :: r => if key_eqb k' k then Some v else dict_get k r
  end.

Fixpoint dict_set (k v : value) (d : store) : store :=
  match d with
  | [] => [(k, v)]
  | (k', v') :: r =>
      if key_eqb k' k then (k', v) :: r else (k', v') :: dict_set k v r
  end.

(** ** tokenize *)

Record tok_state : Type := TokState {
  tokens : list string;
  current : string;
  in_quotes : bool;
  escape : bool
}.

Definition tok_init : tok_state := TokState [] "" false false.

Definition push (s : string) (c : ascii) : string := s ++ String c EmptyString.

(** One iteration of [for char in line]. *)
Definition tok_step (st : tok_state) (char : ascii) : tok_state :=
  if escape st then
    TokState (tokens st) (push (current st) char) (in_quotes st) false
  else if Ascii.eqb char backslash then
    TokState (tokens st) (current st) (in_quotes st) true
  else if Ascii.eqb char dquote then
    TokState (tokens st) (push (current st) char) (negb (in_quotes st)) false
  else if Ascii.eqb char " " && negb (in_quotes st) then
    match current st with
    | EmptyString => st
    | cur => TokState (tokens st ++ [cur]) "" (in_quotes st) false
    end
  else
    TokState (tokens st) (push (current st) char) (in_quotes st) false.

Fixpoint tok_loop (line : string) (st : tok_state) : tok_state :=
  match line with
  | EmptyString => st
  | String char rest => tok_loop rest (tok_step st char)
  end.

Definition tok_flush (st : tok_state) : list string :=
  match current st with
  | EmptyString => tokens st
  | cur => tokens st ++ [cur]
  end.

Definition tokenize (line : string) : list string :=
  tok_flush (tok_loop line tok_init).

(** ** The host: Python built-ins and collaborators *)

Class Host : Type := {
  (** [float(s)] on a text: [None] is [ValueError]. *)
  py_float : string -> option float;
  (** [int(s)] on a text: [None] is [ValueError]. *)
  py_int_str : string -> option Z;
  (** [str(f)] of a float. *)
  float_str : float -> string;
  (** [repr(s)] of a text, as it appears in the message of [int(s)]. *)
  str_repr : string -> string;
  (** The message of the [TypeError] of a call of the named handler on
      that many arguments, when the method does not take that many. *)
  arity_msg : string -> nat -> string;
  (** State of the collaborators: [self.ram], the working directory, the
      pending input lines, the network. *)
  world : Type;
  (** [exec(code, env)] inside [handle_python]'s [try]: the store and the
      world after it, and the lines it printed (the message of a caught
      exception included). *)
  host_exec : string -> store -> world -> store * world * list string;
  (** [input(prompt)]: [None] is [EOFError]. *)
  host_input : string -> world -> option string * world;
  (** The body of [handle_cd] after the quotes are removed. *)
  host_cd : string -> world -> world * list string;
  (** The body of [handle_ls] after [int(flag)] and the quote removal. *)
  host_ls : Z -> string -> world -> list string;
  (** [handle_network_fetch] on its seven arguments. *)
  host_fetch : list value -> store -> world -> store * world * list string
}.

(** ** parse_value *)

Section Resolver.
Context `{Host}.

Definition parse_value (variables : store) (token : string) : value :=
  if startswith token DQ && endswith token DQ then VStr (slice_1_m1 token)
  else match py_float token with
       | Some f => VNum f
       | None =>
           if String.eqb token "0" then VNum 0%float
           else if String.eqb token "1" then VNum 1%float
           else if String.eqb (upper token) "NULL" then VStr "NULL"
           else match dict_get (VStr token) variables with
                | Some v => v
                | None => VStr token
                end
       end.

End Resolver.

(** ** parse_SPiD_definition *)

Record command_def : Type := CommandDef {
  pattern : string;
  handler : option string;
  arg_count : nat
}.

(** [self.commands]: a dict keyed by the upper-cased command name. *)
Definition registry : Type := list (string * command_def).

Fixpoint cmd_get (k : string) (d : registry) : option command_def :=
  match d with
  | [] => None
  | (k', v) :: r => if String.eqb k' k then Some v else cmd_get k r
  end.

Fixpoint cmd_set (k : string) (v : command_def) (d : registry) : registry :=
  match d with
  | [] => [(k, v)]
  | (k', v') :: r =>
      if String.eqb k' k then (k', v) :: r else (k', v') :: cmd_set k v r
  end.

Module Regex.

(** The longest prefix of [s] whose characters satisfy [p], and the rest:
    a greedy [\w+] or [\s*] that is followed by a character outside its
    class. *)
Fixpoint span (p : ascii -> bool) (s : string) : string * string :=
  match s with
  | EmptyString => (EmptyString, EmptyString)
  | String c r =>
      if p c then let (a, b) := span p r in (String c a, b)
      else (EmptyString, s)
  end.

Fixpoint strip_prefix (p s : string) : option string :=
  match p, s with
  | EmptyString, _ => Some s
  | String a p', String b s' =>
      if Ascii.eqb a b then strip_prefix p' s' else None
  | String _ _, EmptyString => None
  end.

(** [\s*\[CMD=(\w+)\]$] matched against the whole of [r]: the handler
    name when it matches. *)
Definition match_tag (r : string) : option string :=
  let (_, r1) := span is_space r in
  match strip_prefix "[CMD=" r1 with
  | Some r2 =>
      let (w, r3) := span is_word r2 in
      match w with
      | EmptyString => None
      | _ => if String.eqb r3 "]" then Some w else None
      end
  | None => None
  end.

(** [(.+?)(?:\s*\[CMD=(\w+)\])?$] with the lazy group holding [g2] so
    far (at least one character) and [r] left: the optional tag is tried
    first, then the end of the line, then the lazy group takes one more
    character. *)
Fixpoint lazy_tail (g2 r : string) : string * option string :=
  match match_tag r with
  | Some h => (g2, Some h)
  | None =>
      match r with
      | EmptyString => (g2, None)
      | String c r' => lazy_tail (push g2 c) r'
      end
  end.

(** [re.match(r'^(\w+)\s+(.+?)(?:\s*\[CMD=(\w+)\])?$', line)] on a
    stripped line without a line break, which is what both call sites
    pass: the groups 1, 2 and 3.  On such a line the text after the
    blanks is not empty and starts with a non-blank, so the greedy [\w+]
    and [\s+] never give a character back. *)
Definition match_clause (line : string)
  : option (string * string * option string) :=
  let (g1, r0) := span is_word line in
  match g1 with
  | EmptyString => None
  | _ =>
      let (ws, r1) := span is_space r0 in
      match ws, r1 with
      | EmptyString, _ => None
      | _, EmptyString => None
      | _, String c r2 =>
          let (g2, g3) := lazy_tail (String c EmptyString) r2 in
          Some (g1, g2, g3)
      end
  end.

(** [len(re.findall(r'\(([^)]+)\)', s))] as a scanner.  [Out]: looking
    for an opening parenthesis; [Open]: just after one; [In]: after one
    and at least one character that is not a closing parenthesis.  A
    match that fails at an opening parenthesis fails either on [()],
    after which the scan goes on behind it, or for want of any closing
    parenthesis in the rest, after which nothing matches any more. *)
Inductive scan_state : Type := Out | Open | In.

Fixpoint scan_groups (q : scan_state) (s : string) : nat :=
  match s with
  | EmptyString => 0
  | String c r =>
      match q with
      | Out => if Ascii.eqb c "(" then scan_groups Open r
               else scan_groups Out r
      | Open => if Ascii.eqb c ")" then scan_groups Out r
                else scan_groups In r
      | In => if Ascii.eqb c ")" then S (scan_groups Out r)
              else scan_groups In r
      end
  end.

Definition count_groups (s : string) : nat := scan_groups Out s.

End Regex.

Definition newline : ascii := ascii_of_nat 10.

(** The body of the [for line in SPiD_definition.split('\n')] loop:
    [None] is [break]. *)
Definition parse_SPiD_line (line0 : string) (commands : registry)
  (in_commands : bool) : option (registry * bool) :=
  let line := strip line0 in
  if startswith line "main.spid<" then Some (commands, true)
  else if startswith line "END" then None
  else if negb in_commands || String.eqb line "" then
    Some (commands, in_commands)
  else
    let line1 := if contains hash line then strip (split_head hash line)
                 else line in
    if String.eqb line1 "" then Some (commands, in_commands)
    else match Regex.match_clause line1 with
         | Some (g1, g2, g3) =>
             let cmd := upper g1 in
             let pat := strip g2 in
             Some (cmd_set cmd
                     (CommandDef pat g3 (Regex.count_groups pat)) commands,
                   in_commands)
         | None => Some (commands, in_commands)
         end.

Fixpoint parse_SPiD_lines (lines : list string) (commands : registry)
  (in_commands : bool) : registry :=
  match lines with
  | [] => commands
  | line :: rest =>
      match parse_SPiD_line line commands in_commands with
      | Some (commands', in_commands') =>
          parse_SPiD_lines rest commands' in_commands'
      | None => commands
      end
  end.

(** The loop of [parse_SPiD_definition] on a grammar text. *)
Definition parse_SPiD_text (text : string) : registry :=
  parse_SPiD_lines (split newline text) [] false.

Definition SPiD_definition : string := "
        main.spid<
        TYPE=SPiD

        # ARITHMETIC
        ADD (VAR,VAL) (VAR,VAL) (VAR) [CMD=ARITH_ADD]
        SUB (VAR,VAL) (VAR,VAL) (VAR) [CMD=ARITH_SUB]
        MULT (VAR,VAL) (VAR,VAL) (VAR) [CMD=ARITH_MULT]
        DIVS (VAR,VAL) (VAR,VAL) (VAR) [CMD=ARITH_DIV]

        # LOGIC
        IF (VAR,VAL) (VAR,VAL) (HIGH,LOW,EQUAL) (THEN,ELSE) (SCRIPT) [CMD=CMP]
        BOOL (BIN) (VAR) [CMD=BOOL_SET]
        AND (VAR) (VAR) (VAR) [CMD=LOGIC_AND]
        OR (VAR) (VAR) (VAR) [CMD=LOGIC_OR]
        NOR (VAR) (VAR) (VAR) [CMD=LOGIC_NOR]
        XNOR (VAR) (VAR) (VAR) [CMD=LOGIC_XNOR]
        XOR (VAR) (VAR) (VAR) [CMD=LOGIC_XOR]

        # PRINT
        PRINT (1,0) (VAR,TXT) [CMD=PRINT_CMD]

        # INPUT
        INPUT (VAR) [CMD=INPUT_CMD]

        # PYTHON
        PYTHON (TXT) [CMD=PYTHON_CMD]

        # CONTROL FLOW
        JUMP (VAR,VAL) [CMD=JUMP_CMD]

        # FILE SYSTEM
        ET (TXT) [CMD=CD_CMD]
        LI (BIN) (TXT) [CMD=LS_CMD]

        # NETWORK (New commands)
        # UPDATED: Added (VAR,TXT) for language_val as the 5th argument
        #           The last two arguments shifted position.
        # FCH (url) (raw_response_var) (client_agent) (format_val) (language_val) (decode_type) (decoded_output_var)
        FCH (VAR,TXT) (VAR) (VAR,TXT) (VAR,TXT) (VAR,TXT) (TXT) (VAR) [CMD=NETWORK_FETCH]
        FETCH (VAR,TXT) (VAR) (VAR,TXT) (VAR,TXT) (VAR,TXT) (TXT) (VAR) [CMD=NETWORK_FETCH] # Alias for FCH

        END
        ".

Definition parse_SPiD_definition : registry :=
  Eval vm_compute in parse_SPiD_text SPiD_definition.

(** ** The interpreter state *)

Inductive exn_kind : Type :=
| IndexError | ValueError | OverflowError | AttributeError | EOFError
| TypeError.

(** A raised exception: its class and [str(e)]. *)
Record exn : Type := Exn { exn_class : exn_kind; exn_str : string }.

(** What a run leaves behind: each [print], and, as a record kept beside
    the program, each call of a handler through
    [self.handlers[handler_name]] with the command it was made for and the
    arguments it was given. *)
Inductive event : Type :=
| Out (s : string)
| Call (cmd handler_name : string) (args : list value).

Definition printed (t : list event) : list string :=
  flat_map (fun e => match e with Out s => [s] | Call _ _ _ => [] end) t.

Section Interpreter.
Context `{Host}.

Record interp : Type := Interp {
  variables : store;
  host : world;
  commands : registry;
  script_lines : option (list string);
  program_counter : Z;
  trace : list event
}.

Inductive result : Type :=
| Done (st : interp)
| Raised (e : exn) (st : interp)
| OutOfFuel.

Definition log (e : event) (st : interp) : interp :=
  Interp (variables st) (host st) (commands st) (script_lines st)
    (program_counter st) (trace st ++ [e]).

Definition print (s : string) (st : interp) : interp := log (Out s) st.

Definition print_all (l : list string) (st : interp) : interp :=
  fold_left (fun st s => print s st) l st.

Definition set_variables (d : store) (st : interp) : interp :=
  Interp d (host st) (commands st) (script_lines st)
    (program_counter st) (trace st).

Definition set_host (w : world) (st : interp) : interp :=
  Interp (variables st) w (commands st) (script_lines st)
    (program_counter st) (trace st).

Definition set_program_counter (pc : Z) (st : interp) : interp :=
  Interp (variables st) (host st) (commands st) (script_lines st)
    pc (trace st).

(** [self.variables[k] = v]. *)
Definition assign (k v : value) (st : interp) : interp :=
  set_variables (dict_set k v (variables st)) st.

(** [__init__]. *)
Definition init (w : world) (script : option (list string)) : interp :=
  Interp [] w parse_SPiD_definition script 0 [].

(** *** Conversions *)

(** [str(v)]. *)
Definition str (v : value) : string :=
  match v with
  | VNum f => float_str f
  | VStr s => s
  end.

(** [float(v)]: [None] is [ValueError]. *)
Definition to_float (v : value) : option float :=
  match v with
  | VNum f => Some f
  | VStr s => py_float s
  end.

(** [int(v)]: a float is truncated towards zero. *)
Definition to_int (v : value) : exn + Z :=
  match v with
  | VNum f =>
      match Prim2SF f with
      | S754_zero _ => inr 0%Z
      | S754_finite sign m e =>
          let a := Z.shiftl (Zpos m) e in
          inr (if sign then (- a)%Z else a)
      | S754_infinity _ =>
          inl (Exn OverflowError "cannot convert float infinity to integer")
      | S754_nan =>
          inl (Exn ValueError "cannot convert float NaN to integer")
      end
  | VStr s =>
      match py_int_str s with
      | Some z => inr z
      | None =>
          inl (Exn ValueError
                 ("invalid literal for int() with base 10: " ++ str_repr s))
      end
  end.

Definition no_attribute (name : string) : exn :=
  Exn AttributeError ("'float' object has no attribute '" ++ name ++ "'").

(** [s[1:-1] if s.startswith('"') and s.endswith('"') else s]. *)
Definition unquote (s : string) : string :=
  if startswith s DQ && endswith s DQ then slice_1_m1 s else s.

(** *** Handlers *)

Definition handle_cmp (execute_line : string -> interp -> result)
  (val1 val2 condition branch script : value) (st : interp) : result :=
  match to_float val1, to_float val2 with
  | Some v1, Some v2 =>
      match condition with
      | VNum _ => Raised (no_attribute "upper") st
      | VStr c =>
          let condition := upper c in
          match branch with
          | VNum _ => Raised (no_attribute "upper") st
          | VStr b =>
              let branch := upper b in
              let condition_met : option bool :=
                if String.eqb condition "HIGH" && PrimFloat.ltb v2 v1
                then Some true
                else if String.eqb condition "LOW" && PrimFloat.ltb v1 v2
                then Some true
                else if String.eqb condition "EQUAL" && PrimFloat.eqb v1 v2
                then Some true
                else None in
              match condition_met with
              | None => Done (print ("Invalid condition: " ++ condition) st)
              | Some condition_met =>
                  if (String.eqb branch "THEN" && condition_met)
                     || (String.eqb branch "ELSE" && negb condition_met)
                  then match script with
                       | VStr s => execute_line s st
                       | VNum _ => Raised (no_attribute "strip") st
                       end
                  else Done st
              end
          end
      end
  | _, _ => Done (print "IF command requires numeric values" st)
  end.

Definition float_of_bool (b : bool) : float :=
  if b then 1%float else 0%float.

(** [bool(f)]. *)
Definition truthy (f : float) : bool := negb (PrimFloat.eqb f 0%float).

Definition handle_logic_gate (in1 in2 out : value) (gate_type : string)
  (st : interp) : result :=
  match to_float in1, to_float in2 with
  | Some f1, Some f2 =>
      let val1 := truthy f1 in
      let val2 := truthy f2 in
      let result : option bool :=
        if String.eqb gate_type "AND" then Some (val1 && val2)
        else if String.eqb gate_type "OR" then Some (val1 || val2)
        else if String.eqb gate_type "NOR" then Some (negb (val1 || val2))
        else if String.eqb gate_type "XNOR" then Some (Bool.eqb val1 val2)
        else if String.eqb gate_type "XOR" then Some (xorb val1 val2)
        else None in
      match result with
      | Some r => Done (assign out (VNum (float_of_bool r)) st)
      | None => Done (print ("Unknown gate type: " ++ gate_type) st)
      end
  | _, _ => Done (print "Logic gates require numeric values (0 or 1)" st)
  end.

Definition handle_arith (a b out : value) (op : string) (st : interp)
  : result :=
  match to_float a, to_float b with
  | Some a_val, Some b_val =>
      if String.eqb op "ADD" then
        Done (assign out (VNum (PrimFloat.add a_val b_val)) st)
      else if String.eqb op "SUB" then
        Done (assign out (VNum (PrimFloat.sub a_val b_val)) st)
      else if String.eqb op "MULT" then
        Done (assign out (VNum (PrimFloat.mul a_val b_val)) st)
      else if String.eqb op "DIV" then
        if PrimFloat.eqb b_val 0%float then
          Done (print "Division by zero" st)
        else Done (assign out (VNum (PrimFloat.div a_val b_val)) st)
      else Done (print ("Unknown operation: " ++ op) st)
  | _, _ => Done (print "Arithmetic operations require numeric values" st)
  end.

Definition handle_print (flag content_raw : value) (st : interp) : result :=
  match to_int flag with
  | inr flag_int =>
      if (flag_int =? 0)%Z then
        match dict_get content_raw (variables st) with
        | Some v => Done (print (str v) st)
        | None => Done (print ("Undefined variable: " ++ str content_raw) st)
        end
      else if (flag_int =? 1)%Z then
        match content_raw with
        | VStr s => Done (print (unquote s) st)
        | VNum f => Done (print (float_str f) st)
        end
      else
        Done (print ("Invalid PRINT flag: " ++ str flag
                     ++ ". Use 0 for variables or 1 for text.") st)
  | inl e => Done (print ("Print error: " ++ exn_str e) st)
  end.

Definition handle_bool_set (value0 var : value) (st : interp) : result :=
  match to_float value0 with
  | Some val =>
      if PrimFloat.eqb val 0%float || PrimFloat.eqb val 1%float then
        Done (assign var (VNum val) st)
      else
        Done (print ("Invalid BOOL value: " ++ str value0
                     ++ ". Must be 0 or 1 (or 0.0 or 1.0).") st)
  | None =>
      Done (print ("Invalid BOOL value: " ++ str value0
                   ++ ". Must be 0 or 1 (or 0.0 or 1.0).") st)
  end.

Definition handle_python (code : value) (st : interp) : result :=
  match code with
  | VStr s =>
      let '(vars, w, lines) :=
        host_exec (unquote s) (variables st) (host st) in
      Done (print_all lines (set_host w (set_variables vars st)))
  | VNum _ =>
      Done (print ("Python execution error: "
                   ++ exn_str (no_attribute "startswith")) st)
  end.

Definition handle_jump (target_line : value) (st : interp) : result :=
  match to_int target_line with
  | inr target_line_int =>
      match script_lines st with
      | None =>
          Done (print
            "JUMP command is only valid when running a script from a file."
            st)
      | Some lines =>
          let jump_to_index := (target_line_int - 1)%Z in
          if (0 <=? jump_to_index)%Z
             && (jump_to_index <? Z.of_nat (List.length lines))%Z
          then Done (set_program_counter jump_to_index st)
          else Done (print ("JUMP error: Target line "
                            ++ str_of_Z target_line_int
                            ++ " is out of bounds.") st)
      end
  | inl e =>
      match exn_class e with
      | ValueError =>
          Done (print ("JUMP error: Invalid line number '"
                       ++ str target_line
                       ++ "'. Must be a numeric value.") st)
      | _ => Done (print ("JUMP error: " ++ exn_str e) st)
      end
  end.

Definition handle_input (var_name : value) (st : interp) : result :=
  let prompt := "Enter value for " ++ str var_name ++ ": " in
  match host_input prompt (host st) with
  | (Some user_input, w) =>
      let v := match py_float user_input with
               | Some f => VNum f
               | None => VStr user_input
               end in
      Done (print ("'" ++ user_input ++ "' stored in '" ++ str var_name
                   ++ "'.")
              (assign var_name v (set_host w st)))
  | (None, w) => Raised (Exn EOFError "EOF when reading a line")
                   (set_host w st)
  end.

Definition handle_cd (directory_path : value) (st : interp) : result :=
  match directory_path with
  | VStr s =>
      let (w, lines) := host_cd (unquote s) (host st) in
      Done (print_all lines (set_host w st))
  | VNum _ =>
      Done (print ("ET error: " ++ exn_str (no_attribute "startswith")) st)
  end.

Definition handle_ls (flag directory_path : value) (st : interp) : result :=
  match to_int flag with
  | inr flag_int =>
      match directory_path with
      | VStr s => Done (print_all (host_ls flag_int (unquote s) (host st)) st)
      | VNum _ =>
          Done (print ("LI error: " ++ exn_str (no_attribute "startswith"))
                  st)
      end
  | inl e =>
      match exn_class e with
      | ValueError =>
          Done (print ("LI error: Invalid flag '" ++ str flag
                       ++ "'. Use 0 or 1.") st)
      | _ => Done (print ("LI error: " ++ exn_str e) st)
      end
  end.

Definition handle_network_fetch (args : list value) (st : interp) : result :=
  let '(vars, w, lines) := host_fetch args (variables st) (host st) in
  Done (print_all lines (set_host w (set_variables vars st))).

(** *** execute_line *)

(** The keys of [self.handlers]. *)
Inductive handler_id : Type :=
| H_CMP | H_LOGIC_AND | H_LOGIC_OR | H_LOGIC_NOR | H_LOGIC_XNOR
| H_LOGIC_XOR | H_ARITH_ADD | H_ARITH_SUB | H_ARITH_MULT | H_ARITH_DIV
| H_PRINT_CMD | H_BOOL_SET | H_PYTHON_CMD | H_JUMP_CMD | H_INPUT_CMD
| H_CD_CMD | H_LS_CMD | H_NETWORK_FETCH.

Definition handlers : list (string * handler_id) :=
  [("CMP", H_CMP); ("LOGIC_AND", H_LOGIC_AND); ("LOGIC_OR", H_LOGIC_OR);
   ("LOGIC_NOR", H_LOGIC_NOR); ("LOGIC_XNOR", H_LOGIC_XNOR);
   ("LOGIC_XOR", H_LOGIC_XOR); ("ARITH_ADD", H_ARITH_ADD);
   ("ARITH_SUB", H_ARITH_SUB); ("ARITH_MULT", H_ARITH_MULT);
   ("ARITH_DIV", H_ARITH_DIV); ("PRINT_CMD", H_PRINT_CMD);
   ("BOOL_SET", H_BOOL_SET); ("PYTHON_CMD", H_PYTHON_CMD);
   ("JUMP_CMD", H_JUMP_CMD); ("INPUT_CMD", H_INPUT_CMD);
   ("CD_CMD", H_CD_CMD); ("LS_CMD", H_LS_CMD);
   ("NETWORK_FETCH", H_NETWORK_FETCH)].

Fixpoint handlers_get (k : string) (d : list (string * handler_id))
  : option handler_id :=
  match d with
  | [] => None
  | (k', v) :: r => if String.eqb k' k then Some v else handlers_get k r
  end.

(** The call of the bound method on the unpacked argument list: a
    [TypeError] when the method does not take that many arguments. *)
Definition call_handler (execute_line : string -> interp -> result)
  (handler_name : string) (h : handler_id) (args : list value)
  (st : interp) : result :=
  match h, args with
  | H_CMP, [val1; val2; condition; branch; script] =>
      handle_cmp execute_line val1 val2 condition branch script st
  | H_LOGIC_AND, [in1; in2; out] => handle_logic_gate in1 in2 out "AND" st
  | H_LOGIC_OR, [in1; in2; out] => handle_logic_gate in1 in2 out "OR" st
  | H_LOGIC_NOR, [in1; in2; out] => handle_logic_gate in1 in2 out "NOR" st
  | H_LOGIC_XNOR, [in1; in2; out] => handle_logic_gate in1 in2 out "XNOR" st
  | H_LOGIC_XOR, [in1; in2; out] => handle_logic_gate in1 in2 out "XOR" st
  | H_ARITH_ADD, [a; b; out] => handle_arith a b out "ADD" st
  | H_ARITH_SUB, [a; b; out] => handle_arith a b out "SUB" st
  | H_ARITH_MULT, [a; b; out] => handle_arith a b out "MULT" st
  | H_ARITH_DIV, [a; b; out] => handle_arith a b out "DIV" st
  | H_PRINT_CMD, [flag; content_raw] => handle_print flag content_raw st
  | H_BOOL_SET, [value0; var] => handle_bool_set value0 var st
  | H_PYTHON_CMD, [code] => handle_python code st
  | H_JUMP_CMD, [target_line] => handle_jump target_line st
  | H_INPUT_CMD, [var_name] => handle_input var_name st
  | H_CD_CMD, [directory_path] => handle_cd directory_path st
  | H_LS_CMD, [flag] => handle_ls flag (VStr "") st
  | H_LS_CMD, [flag; directory_path] => handle_ls flag directory_path st
  | H_NETWORK_FETCH, [_; _; _; _; _; _; _] => handle_network_fetch args st
  | _, _ =>
      Raised (Exn TypeError (arity_msg handler_name (List.length args))) st
  end.

Definition index_error : exn := Exn IndexError "list index out of range".

(** [l[i:]] for a Python index [i]. *)
Definition slice_from {A : Type} (i : Z) (l : list A) : list A :=
  if (0 <=? i)%Z then skipn (Z.to_nat i) l
  else skipn (Z.to_nat (Z.of_nat (List.length l) + i)) l.

(** The argument shaping of [execute_line], from [parsed_args = []] to
    the [try]: what it prints, and the argument list or the exception
    that leaves [execute_line]. *)
Definition shape (cmd : string) (arg_count : nat) (raw_args : list string)
  (vars : store) : list string * (exn + list value) :=
  if String.eqb cmd "PRINT" then
    match raw_args with
    | [] => ([], inl index_error)
    | flag :: [] =>
        (["Warning: PRINT command with flag " ++ flag ++ " has no content."],
         inr [parse_value vars flag; VStr ""])
    | flag :: (name :: _) as rest =>
        let content_to_parse := join " " rest in
        match to_int (parse_value vars flag) with
        | inl e => ([], inl e)
        | inr n =>
            if (n =? 0)%Z then ([], inr [parse_value vars flag; VStr name])
            else ([], inr [parse_value vars flag; VStr content_to_parse])
        end
    end
  else if String.eqb cmd "IF" then
    if (List.length raw_args <? arg_count - 1)%nat then ([], inl index_error)
    else
      ([], inr (map (parse_value vars) (firstn (arg_count - 1) raw_args)
                ++ [VStr (join " "
                       (slice_from (Z.of_nat arg_count - 1) raw_args))])%list)
  else if String.eqb cmd "PYTHON" then ([], inr [VStr (join " " raw_args)])
  else if String.eqb cmd "INPUT" then
    match raw_args with
    | [] => ([], inl index_error)
    | name :: _ => ([], inr [VStr name])
    end
  else if String.eqb cmd "ET" then ([], inr [VStr (join " " raw_args)])
  else if String.eqb cmd "LI" then
    match raw_args with
    | [] => ([], inl index_error)
    | flag :: [] => ([], inr [parse_value vars flag; VStr ""])
    | flag :: rest => ([], inr [parse_value vars flag; VStr (join " " rest)])
    end
  else if String.eqb cmd "FCH" || String.eqb cmd "FETCH" then
    match raw_args with
    | r0 :: r1 :: r2 :: r3 :: r4 :: r5 :: r6 :: _ =>
        ([], inr ([parse_value vars r0; VStr r1; parse_value vars r2;
                   parse_value vars r3; parse_value vars r4;
                   parse_value vars r5; VStr r6]
                  ++ repeat (VStr "NULL") (arg_count - 7))%list)
    | _ => ([], inl index_error)
    end
  else ([], inr (map (parse_value vars) raw_args)).

(** The two [except] clauses around the call of the handler. *)
Definition try_except (cmd : string) (r : result) : result :=
  match r with
  | Done st2 => Done st2
  | Raised e st2 =>
      match exn_class e with
      | TypeError =>
          Done (print ("Argument error in " ++ cmd ++ ": " ++ exn_str e
                       ++ ". Check command definition and arguments.") st2)
      | _ => Done (print ("Error executing " ++ cmd ++ ": " ++ exn_str e) st2)
      end
  | OutOfFuel => OutOfFuel
  end.

(** [execute_line]; the recursion through [handle_cmp] is on [fuel]. *)
Fixpoint execute_line_fuel (fuel : nat) (line0 : string) (st : interp)
  : result :=
  match fuel with
  | O => OutOfFuel
  | S fuel' =>
      let line := strip line0 in
      if String.eqb line "" then Done st
      else if startswith line "<" && endswith line ">" then
        let clean_line := strip (split_head hash line) in
        if negb (endswith clean_line ">") then
          Done (print ("Invalid variable declaration format: " ++ line
                       ++ " (missing closing '>')") st)
        else
          match split_once "=" (slice_1_m1 clean_line) with
          | Some (var, val) =>
              let parsed_val := parse_value (variables st) (strip val) in
              Done (assign (VStr (strip var)) parsed_val st)
          | None =>
              Done (print ("Invalid variable declaration: " ++ line) st)
          end
      else
        match tokenize line with
        | [] => Done st
        | tok0 :: raw_args =>
            let cmd := upper tok0 in
            match cmd_get cmd (commands st) with
            | None => Done (print ("Unknown command: " ++ cmd) st)
            | Some command_def =>
                let arg_count := arg_count command_def in
                match handler command_def with
                | None => Done (print ("No handler for command: " ++ cmd) st)
                | Some handler_name =>
                    match handlers_get handler_name handlers with
                    | None =>
                        Done (print ("No handler for command: " ++ cmd) st)
                    | Some h =>
                        let (warnings, shaped) :=
                          shape cmd arg_count raw_args (variables st) in
                        let st1 := print_all warnings st in
                        match shaped with
                        | inl e => Raised e st1
                        | inr parsed_args =>
                            if negb (List.length parsed_args =? arg_count)%nat
                            then
                              Done (print
                                ("Argument error in " ++ cmd ++ ": Expected "
                                 ++ str_of_nat arg_count
                                 ++ " arguments, but got "
                                 ++ str_of_nat (List.length parsed_args)
                                 ++ ".") st1)
                            else
                              try_except cmd
                                (call_handler (execute_line_fuel fuel')
                                   handler_name h parsed_args
                                   (log (Call cmd handler_name parsed_args)
                                      st1))
                        end
                    end
                end
            end
        end
  end.

(** A sub-script is shorter than the line it comes from, so this much
    fuel is never used up ([execute_line_total] below). *)
Definition execute_line (line : string) (st : interp) : result :=
  execute_line_fuel (S (String.length line)) line st.

(** *** run, script mode *)

(** [l[i]] for a Python index [i]: [None] is [IndexError]. *)
Definition py_index {A : Type} (l : list A) (i : Z) : option A :=
  if (0 <=? i)%Z then nth_error l (Z.to_nat i)
  else if (0 <=? Z.of_nat (List.length l) + i)%Z
       then nth_error l (Z.to_nat (Z.of_nat (List.length l) + i))
       else None.

Inductive step_result : Type :=
| Halted
| Stepped (st : interp)
| Aborted (e : exn) (st : interp)
| Stuck.

(** The test of the [while] and one run of its body; [Halted] is the
    test failing, [Aborted] an exception leaving [run]. *)
Definition run_step (lines : list string) (st : interp) : step_result :=
  if (program_counter st <? Z.of_nat (List.length lines))%Z then
    let original_program_counter := program_counter st in
    match py_index lines (program_counter st) with
    | None => Aborted index_error st
    | Some line =>
        let st1 := print ("[" ++ str_of_Z (program_counter st + 1)
                          ++ "] SPiD> " ++ line) st in
        match execute_line line st1 with
        | Done st2 =>
            if (program_counter st2 =? original_program_counter)%Z
            then Stepped (set_program_counter (program_counter st2 + 1) st2)
            else Stepped st2
        | Raised e st2 => Aborted e st2
        | OutOfFuel => Stuck
        end
    end
  else Halted.

(** The [while] loop, for at most [n] iterations. *)
Fixpoint run_loop (n : nat) (lines : list string) (st : interp)
  : step_result :=
  match n with
  | O => Stepped st
  | S n' =>
      match run_step lines st with
      | Stepped st' => run_loop n' lines st'
      | r => r
      end
  end.

(** [run] when [self.script_lines] is a non-empty list; the interactive
    loop of the other branch is [run_shell] below. *)
Definition run (n : nat) (st : interp) : option step_result :=
  match script_lines st with
  | Some (l :: ls) => Some (run_loop n (l :: ls) (set_program_counter 0 st))
  | _ => None
  end.

End Interpreter.

(** ** A host to run examples on

    The theorems below hold for every [Host].  Examples and witnesses are
    evaluated on this one: [float()] and [int()] of plain decimal literals,
    no input pending, [exec] without effect, an empty file system and no
    [requests] library.  [float_of_text] reads a sign, digits and a
    point: on a literal with a mantissa below [2^53] and at most 18
    digits after the point it returns the float CPython returns (one
    correctly rounded division of two exactly represented integers, both
    within the 63 bits of [float_of_Z]).  Every other text is to it no
    number, also those CPython reads ([1e3], [inf], [nan], [1_000], longer
    literals), and [text_of_float] writes only integral floats below
    [10^16] as CPython does: no example uses such a literal or prints such
    a float. *)

Module SampleHost.

Definition digit_of (c : ascii) : option Z :=
  let n := nat_of_ascii c in
  if ((48 <=? n) && (n <=? 57))%nat then Some (Z.of_nat (n - 48)) else None.

(** Value and number of the leading decimal digits, and the rest. *)
Fixpoint digits (acc : Z) (count : nat) (s : string) : Z * nat * string :=
  match s with
  | EmptyString => (acc, count, s)
  | String c r =>
      match digit_of c with
      | Some d => digits (10 * acc + d) (S count) r
      | None => (acc, count, s)
      end
  end.

Definition signed (s : string) : bool * string :=
  match s with
  | String "-" r => (true, r)
  | String "+" r => (false, r)
  | _ => (false, s)
  end.

Definition float_of_Z (z : Z) : float := PrimFloat.of_uint63 (Uint63.of_Z z).

Definition float_of_text (s0 : string) : option float :=
  let (neg, s) := signed (strip s0) in
  let '(m1, n1, r1) := digits 0 0 s in
  let '(m, k, r2) :=
    match r1 with
    | String "." r => digits m1 0 r
    | _ => (m1, O, r1)
    end in
  if negb (n1 + k =? 0)%nat && String.eqb r2 "" && (m <? 2 ^ 53)%Z
     && (k <=? 18)%nat then
    let q := PrimFloat.div (float_of_Z m) (float_of_Z (10 ^ Z.of_nat k)) in
    Some (if neg then PrimFloat.opp q else q)
  else None.

Definition int_of_text (s0 : string) : option Z :=
  let (neg, s) := signed (strip s0) in
  let '(m, n, r) := digits 0 0 s in
  match n with
  | O => None
  | _ => if String.eqb r "" then Some (if neg then (- m)%Z else m) else None
  end.

Definition text_of_float (f : float) : string :=
  match Prim2SF f with
  | S754_zero sign => if sign then "-0.0" else "0.0"
  | S754_infinity sign => if sign then "-inf" else "inf"
  | S754_nan => "nan"
  | S754_finite sign m e =>
      let a := Z.shiftl (Zpos m) e in
      if ((Z.shiftl a (- e) =? Zpos m) && (a <? 10 ^ 16))%Z then
        (if sign then "-" else "") ++ str_of_Z a ++ ".0"
      else "<float>"
  end.

Definition requests_missing (args : list value) (vars : store)
  : store * list string :=
  match args with
  | [_; raw_response_var; _; _; _; _; decoded_output_var] =>
      let vars1 :=
        dict_set raw_response_var (VStr "ERROR: requests lib missing") vars in
      (if key_eqb decoded_output_var (VStr "NULL") then vars1
       else dict_set decoded_output_var
              (VStr "ERROR: requests lib missing") vars1,
       ["NETWORK_FETCH error: 'requests' library is not installed. Cannot perform network operations."])
  | _ => (vars, [])
  end.

#[export] Instance sample : Host := {|
  py_float := float_of_text;
  py_int_str := int_of_text;
  float_str := text_of_float;
  str_repr := fun s => "'" ++ s ++ "'";
  arity_msg := fun name n =>
    name ++ "() called with " ++ str_of_nat n ++ " arguments";
  world := unit;
  host_exec := fun _ vars w => (vars, w, []);
  host_input := fun _ w => (None, w);
  host_cd := fun path w => (w, ["Error: Directory '" ++ path ++ "' not found."]);
  host_ls := fun _ path _ =>
    ["Error: Directory '" ++ (if String.eqb path "" then "/" else path)
     ++ "' not found."];
  host_fetch := fun args vars w =>
    let (vars', lines) := requests_missing args vars in (vars', w, lines)
|}.

(** A fresh interpreter on a script. *)
Definition fresh (script : option (list string)) : interp := init tt script.

(** Executes the lines one after the other, as long as none raises. *)
Fixpoint exec_all (lines : list string) (st : interp) : result :=
  match lines with
  | [] => Done st
  | l :: ls =>
      match execute_line l st with
      | Done st' => exec_all ls st'
      | r => r
      end
  end.

End SampleHost.


(** ** The main program and the interactive loop *)

(** The condition of the comprehension that loads a script: the stripped
    line is not empty and is not a whole-line comment. *)
Definition is_script_line (line : string) : bool :=
  negb (String.eqb (strip line) "") && negb (startswith (strip line) "#").

(** [[line.strip() for line in f if line.strip() and not
    line.strip().startswith('#')]]. *)
Definition load_script (lines : list string) : list string :=
  map strip (filter is_script_line lines).

Definition lower_char (c : ascii) : ascii :=
  let n := nat_of_ascii c in
  if ((65 <=? n) && (n <=? 90))%nat then ascii_of_nat (n + 32) else c.

Fixpoint lower (s : string) : string :=
  match s with
  | EmptyString => EmptyString
  | String c r => String (lower_char c) (lower r)
  end.

Section Shell.
Context `{Host}.

Inductive shell_result : Type :=
| Exit (st : interp)
| Continue (st : interp)
| ShellStuck.

(** One iteration of the [while True] of [run] when no script is loaded:
    [Exit] is the [break] of [exit]; an exception of [input] or of
    [execute_line] is caught and printed.  An interrupt from the keyboard
    is not part of the model. *)
Definition shell_step (st : interp) : shell_result :=
  match host_input "SPiD> " (host st) with
  | (None, w) =>
      Continue (print ("Error: " ++ "EOF when reading a line") (set_host w st))
  | (Some line, w) =>
      let st1 := set_host w st in
      if String.eqb (lower line) "whoami" then
        Continue (print "--System Main SPiD--" st1)
      else if String.eqb (lower line) "ls" then
        Continue (print
          "[ WARNING ] Use the 'LI' command with flags for listing files." st1)
      else if String.eqb (lower line) "dir" then
        Continue (print
          "[ WARNING ] Use the 'LI' command with flags for listing files." st1)
      else if String.eqb (lower line) "cd" then
        Continue (print
          "[ WARNING ] Use the 'ET' command for changing directories." st1)
      else if String.eqb (lower line) "run" then
        Continue (print
          "[     W.I.P     ] Run is not implemented yet, try running your code directly on boot."
          st1)
      else if String.eqb (lower line) "exit" then Exit st1
      else
        match execute_line line st1 with
        | Done st2 => Continue st2
        | Raised e st2 => Continue (print ("Error: " ++ exn_str e) st2)
        | OutOfFuel => ShellStuck
        end
  end.

(** The loop, for at most [n] iterations. *)
Fixpoint shell_loop (n : nat) (st : interp) : shell_result :=
  match n with
  | O => Continue st
  | S n' =>
      match shell_step st with
      | Continue st' => shell_loop n' st'
      | r => r
      end
  end.

(** The [else] branch of [run]: the two banners, then the loop. *)
Definition run_shell (n : nat) (st : interp) : shell_result :=
  shell_loop n
    (print "SPiD OS - Type 'exit' to quit"
       (print "[ FATAL ] All methods failed, fallbacking to shell." st)).

End Shell.

(** A second host for examples: the one of [SampleHost] with lines of
    input pending. *)
Module ScriptedHost.

#[export] Instance scripted : Host := {|
  py_float := SampleHost.float_of_text;
  py_int_str := SampleHost.int_of_text;
  float_str := SampleHost.text_of_float;
  str_repr := fun s => "'" ++ s ++ "'";
  arity_msg := fun name n =>
    name ++ "() called with " ++ str_of_nat n ++ " arguments";
  world := list string;
  host_exec := fun _ vars w => (vars, w, []);
  host_input := fun _ w =>
    match w with
    | [] => (None, [])
    | l :: ls => (Some l, ls)
    end;
  host_cd := fun path w => (w, ["Error: Directory '" ++ path ++ "' not found."]);
  host_ls := fun _ path _ =>
    ["Error: Directory '" ++ (if String.eqb path "" then "/" else path)
     ++ "' not found."];
  host_fetch := fun args vars w =>
    let (vars', lines) := SampleHost.requests_missing args vars in
    (vars', w, lines)
|}.

End ScriptedHost.
Import SampleHost.

(** * Vocabulary of the properties *)

Definition BS : string := String backslash EmptyString.

(** The line [PRINT 1 "a b \"c\""]: the third field holds two backslashes,
    each before a double quote. *)
Definition print_line : string :=
  "PRINT 1 " ++ DQ ++ "a b " ++ BS ++ DQ ++ "c" ++ BS ++ DQ ++ DQ.

(** The third field of [print_line] as it stands in the line, backslashes
    included. *)
Definition third_field : string :=
  DQ ++ "a b " ++ BS ++ DQ ++ "c" ++ BS ++ DQ ++ DQ.

(** The third field without its two backslashes. *)
Definition third_token : string := DQ ++ "a b " ++ DQ ++ "c" ++ DQ ++ DQ.

(** ** The resolver in the words of the specification *)

(** The text before the last character, and the last character. *)
Fixpoint unsnoc (s : string) : option (string * ascii) :=
  match s with
  | EmptyString => None
  | String c r =>
      match unsnoc r with
      | None => Some (EmptyString, c)
      | Some (i, d) => Some (String c i, d)
      end
  end.

(** The inner text of a token wrapped in a pair of double quotes: an
    opening quote, the inner text, a closing quote. *)
Definition wrapped (token : string) : option string :=
  match token with
  | EmptyString => None
  | String c r =>
      if Ascii.eqb c dquote then
        match unsnoc r with
        | Some (inner, d) => if Ascii.eqb d dquote then Some inner else None
        | None => None
        end
      else None
  end.

(** The priority order as the specification words it: quoted text, then
    numeric literal, then the null keyword, then a bound variable, then
    the token itself. *)
Definition resolve_in_order `{Host} (variables : store) (token : string)
  : value :=
  match wrapped token with
  | Some inner => VStr inner
  | None =>
      match py_float token with
      | Some f => VNum f
      | None =>
          if String.eqb (upper token) "NULL" then NullMarker
          else match dict_get (VStr token) variables with
               | Some v => v
               | None => VStr token
               end
      end
  end.

(** ** The arithmetic commands *)

Inductive arith_cmd : Type := OpAdd | OpSub | OpMult | OpDivs.

(** The handler the grammar wires each arithmetic command to. *)
Definition arith_handler `{Host} (c : arith_cmd) : handler_id :=
  match c with
  | OpAdd => H_ARITH_ADD
  | OpSub => H_ARITH_SUB
  | OpMult => H_ARITH_MULT
  | OpDivs => H_ARITH_DIV
  end.

Definition arith_result (c : arith_cmd) (x y : float) : float :=
  match c with
  | OpAdd => PrimFloat.add x y
  | OpSub => PrimFloat.sub x y
  | OpMult => PrimFloat.mul x y
  | OpDivs => PrimFloat.div x y
  end.

(** A division whose divisor compares equal to zero. *)
Definition divides_by_zero (c : arith_cmd) (y : float) : bool :=
  match c with
  | OpDivs => PrimFloat.eqb y 0%float
  | _ => false
  end.

(** ** The branch command *)

(** The declarations [X = 5] and [Y = 3] executed on a fresh interpreter. *)
Definition five_three : result :=
  exec_all ["<X = 5>"; "<Y = 3>"] (fresh None).

Definition after (r : result) (line : string) : result :=
  match r with
  | Done st => execute_line line st
  | _ => r
  end.

Definition printed_by (r : result) : option (list string) :=
  match r with
  | Done st => Some (printed (trace st))
  | _ => None
  end.

Definition variables_of (r : result) : option store :=
  match r with
  | Done st => Some (variables st)
  | _ => None
  end.

(** ** Clauses of the grammar *)

Definition NL : string := String newline EmptyString.

(** A parenthesized group listing [g]. *)
Definition group (g : string) : string := "(" ++ g ++ ")".

(** The handler tag of a clause, or nothing. *)
Definition tag_text (tag : option string) : string :=
  match tag with
  | Some h => " [CMD=" ++ h ++ "]"
  | None => ""
  end.

(** A clause: a name, parenthesized groups separated by one blank, and
    an optional handler tag. *)
Definition clause (name : string) (groups : list string)
  (tag : option string) : string :=
  name ++ " " ++ join " " (map group groups) ++ tag_text tag.

Fixpoint all_chars (p : ascii -> bool) (s : string) : bool :=
  match s with
  | EmptyString => true
  | String c r => p c && all_chars p r
  end.

Definition word (s : string) : bool :=
  negb (String.eqb s "") && all_chars is_word s.

(** What a group may list: at least one character, no closing
    parenthesis. *)
Definition group_body (g : string) : bool :=
  negb (String.eqb g "") && negb (contains ")" g).

(** A grammar with a clause that declares no handler. *)
Definition untagged_grammar : string :=
  "main.spid<" ++ NL
  ++ "  FOO (VAR) (VAR,VAL)" ++ NL
  ++ "  BAR (TXT) [CMD=PRINT_CMD]" ++ NL
  ++ "END" ++ NL.

(** ** Comments *)

(** Whether a token list or the token under construction holds the
    comment marker. *)
Definition holds_hash (st : tok_state) : bool :=
  existsb (contains hash) (tokens st) || contains hash (current st).

(** A line that the interpreter reads as a declaration: bracketed by [<]
    and [>] once stripped. *)
Definition is_declaration (line : string) : bool :=
  startswith (strip line) "<" && endswith (strip line) ">".

(** The declaration with the text from the comment marker on removed. *)
Definition clean_line (line : string) : string :=
  strip (split_head hash (strip line)).

(** ** The dispatcher and the engine *)

(** A recorded call agrees with the table: the command is known, the
    handler is the one the command declares, and the arguments are as
    many as the command expects. *)
Definition call_ok (table : registry) (e : event) : Prop :=
  match e with
  | Out _ => True
  | Call cmd handler_name args =>
      exists def, cmd_get cmd table = Some def
                  /\ handler def = Some handler_name
                  /\ List.length args = arg_count def
  end.

Section EngineVocabulary.
Context `{Host}.

(** What executing lines can do to the interpreter: the table and the
    script stay, the program counter stays or moves to a line of the
    script, and the trace grows by prints and by calls that agree with the
    table. *)
Record extends (st st' : interp) : Prop := Extends {
  ext_commands : commands st' = commands st;
  ext_script : script_lines st' = script_lines st;
  ext_pc : program_counter st' = program_counter st
           \/ exists lines, script_lines st = Some lines
                /\ (0 <= program_counter st' < Z.of_nat (List.length lines))%Z;
  ext_trace : exists t, trace st' = (trace st ++ t)%list
                        /\ Forall (call_ok (commands st)) t
}.

Definition result_ok (st : interp) (r : result) : Prop :=
  match r with
  | Done st' => extends st st'
  | Raised _ st' => extends st st'
  | OutOfFuel => True
  end.

(** [execute_line] up to the call of the handler: either the line is
    settled without a handler, or a handler is about to be called. *)
Inductive dispatch : Type :=
| Leaf (r : result)
| Invoke (cmd handler_name : string) (h : handler_id) (args : list value)
    (st1 : interp).

Definition classify (line0 : string) (st : interp) : dispatch :=
  let line := strip line0 in
  if String.eqb line "" then Leaf (Done st)
  else if startswith line "<" && endswith line ">" then
    let clean_line := strip (split_head hash line) in
    if negb (endswith clean_line ">") then
      Leaf (Done (print ("Invalid variable declaration format: " ++ line
                         ++ " (missing closing '>')") st))
    else
      match split_once "=" (slice_1_m1 clean_line) with
      | Some (var, val) =>
          Leaf (Done (assign (VStr (strip var))
                        (parse_value (variables st) (strip val)) st))
      | None => Leaf (Done (print ("Invalid variable declaration: " ++ line) st))
      end
  else
    match tokenize line with
    | [] => Leaf (Done st)
    | tok0 :: raw_args =>
        let cmd := upper tok0 in
        match cmd_get cmd (commands st) with
        | None => Leaf (Done (print ("Unknown command: " ++ cmd) st))
        | Some command_def =>
            match handler command_def with
            | None => Leaf (Done (print ("No handler for command: " ++ cmd) st))
            | Some handler_name =>
                match handlers_get handler_name handlers with
                | None =>
                    Leaf (Done (print ("No handler for command: " ++ cmd) st))
                | Some h =>
                    let (warnings, shaped) :=
                      shape cmd (arg_count command_def) raw_args
                        (variables st) in
                    let st1 := print_all warnings st in
                    match shaped with
                    | inl e => Leaf (Raised e st1)
                    | inr parsed_args =>
                        if negb (List.length parsed_args
                                 =? arg_count command_def)%nat
                        then
                          Leaf (Done (print
                            ("Argument error in " ++ cmd ++ ": Expected "
                             ++ str_of_nat (arg_count command_def)
                             ++ " arguments, but got "
                             ++ str_of_nat (List.length parsed_args)
                             ++ ".") st1))
                        else Invoke cmd handler_name h parsed_args st1
                    end
                end
            end
        end
    end.

(** The states the loop of [run] goes through from a state on. *)
Inductive reachable (lines : list string) (st0 : interp) : interp -> Prop :=
| reach_start : reachable lines st0 st0
| reach_step (st st' : interp) :
    reachable lines st0 st ->
    run_step lines st = Stepped st' ->
    reachable lines st0 st'.

(** The echo of the line that the step at [st] executes. *)
Definition echo_text (line : string) (st : interp) : string :=
  "[" ++ str_of_Z (program_counter st + 1) ++ "] SPiD> " ++ line.

Definition echo (line : string) (st : interp) : interp :=
  print (echo_text line st) st.

End EngineVocabulary.

(** The characters of the tokens, one more for each token. *)
Fixpoint weight (tokens : list string) : nat :=
  match tokens with
  | [] => 0
  | t :: ts => S (String.length t) + weight ts
  end.

(** The message of a wrong argument count. *)
Definition argument_error (cmd : string) (expected got : nat) : string :=
  "Argument error in " ++ cmd ++ ": Expected " ++ str_of_nat expected
  ++ " arguments, but got " ++ str_of_nat got ++ ".".

(** A script whose first line jumps to line 1. *)
Definition jump_script : list string := ["JUMP 1"; "PRINT 1 a"; "JUMP 1"].

(** Program counter and prints after [n] iterations of the loop of [run]
    on [jump_script], when none of them halts or raises. *)
Definition jump_run (n : nat) : option (Z * list string) :=
  match run_loop n jump_script (fresh (Some jump_script)) with
  | Stepped st => Some (program_counter st, printed (trace st))
  | _ => None
  end.


(** ** Vocabulary of the further properties *)

(** A character that [tokenize] copies into the token under construction
    whatever its state: no blank, no quote, no backslash. *)
Definition plain_char (c : ascii) : bool :=
  negb (Ascii.eqb c " ") && negb (Ascii.eqb c dquote)
  && negb (Ascii.eqb c backslash).

(** A word: at least one character, all plain. *)
Definition plain_word (w : string) : bool :=
  negb (String.eqb w "") && all_chars plain_char w.

(** A character that may stand between two quotes: anything but a quote
    and a backslash. *)
Definition quotable_char (c : ascii) : bool :=
  negb (Ascii.eqb c dquote) && negb (Ascii.eqb c backslash).

Definition blank_char (c : ascii) : bool := Ascii.eqb c " ".

(** The line that prints the text [s] given between quotes. *)
Definition print_text_line (s : string) : string :=
  "PRINT 1 " ++ DQ ++ s ++ DQ.

(** The comparison a condition keyword stands for. *)
Definition condition_holds (keyword : string) (x y : float) : bool :=
  (String.eqb keyword "HIGH" && PrimFloat.ltb y x)
  || (String.eqb keyword "LOW" && PrimFloat.ltb x y)
  || (String.eqb keyword "EQUAL" && PrimFloat.eqb x y).

(** The logic gates and their truth tables. *)
Inductive gate : Type := GAnd | GOr | GNor | GXnor | GXor.

Definition gate_handler `{Host} (g : gate) : handler_id :=
  match g with
  | GAnd => H_LOGIC_AND
  | GOr => H_LOGIC_OR
  | GNor => H_LOGIC_NOR
  | GXnor => H_LOGIC_XNOR
  | GXor => H_LOGIC_XOR
  end.

Definition gate_table (g : gate) (p q : bool) : bool :=
  match g, p, q with
  | GAnd, true, true => true
  | GAnd, _, _ => false
  | GOr, false, false => false
  | GOr, _, _ => true
  | GNor, false, false => true
  | GNor, _, _ => false
  | GXnor, true, true => true
  | GXnor, false, false => true
  | GXnor, _, _ => false
  | GXor, true, false => true
  | GXor, false, true => true
  | GXor, _, _ => false
  end.

(** The report of [BOOL] on a value that is not 0 or 1. *)
Definition invalid_bool `{Host} (v : value) : string :=
  "Invalid BOOL value: " ++ str v ++ ". Must be 0 or 1 (or 0.0 or 1.0).".

Section FurtherVocabulary.
Context `{Host}.

(** What executing lines does to the program counter: it stays, unless
    the jump handler was called in between. *)
Definition quiet (st st' : interp) : Prop :=
  exists t, trace st' = (trace st ++ t)%list
            /\ (program_counter st' = program_counter st
                \/ exists cmd args, In (Call cmd "JUMP_CMD" args) t).

Definition result_quiet (st : interp) (r : result) : Prop :=
  match r with
  | Done st' => quiet st st'
  | Raised _ st' => quiet st st'
  | OutOfFuel => True
  end.

End FurtherVocabulary.

(** The commands whose argument shaping reads its first argument without
    looking at how many there are. *)
Definition needs_first_argument (cmd : string) : bool :=
  String.eqb cmd "PRINT" || String.eqb cmd "INPUT" || String.eqb cmd "LI".

(** The words the interactive loop answers itself. *)
Definition shell_word (line : string) : bool :=
  String.eqb (lower line) "whoami" || String.eqb (lower line) "ls"
  || String.eqb (lower line) "dir" || String.eqb (lower line) "cd"
  || String.eqb (lower line) "run" || String.eqb (lower line) "exit".

(** The names of the arithmetic commands and of their handlers. *)
Definition arith_name (c : arith_cmd) : string :=
  match c with
  | OpAdd => "ADD"
  | OpSub => "SUB"
  | OpMult => "MULT"
  | OpDivs => "DIVS"
  end.

Definition arith_handler_name (c : arith_cmd) : string :=
  match c with
  | OpAdd => "ARITH_ADD"
  | OpSub => "ARITH_SUB"
  | OpMult => "ARITH_MULT"
  | OpDivs => "ARITH_DIV"
  end.

(** No call of the jump handler is recorded in a trace. *)
Definition no_jump (t : list event) : Prop :=
  forall cmd args, ~ In (Call cmd "JUMP_CMD" args) t.

(** The prompt of [INPUT] for a name. *)
Definition input_prompt (name : string) : string :=
  "Enter value for " ++ name ++ ": ".

(** A script without jumps, and the states of its run. *)
Definition two_lines : list string := ["ADD 1 2 X"; "PRINT 0 X"].

Definition two_lines_1 : interp :=
  set_program_counter 1
    (assign (VStr "X") (VNum 3%float)
       (log (Call "ADD" "ARITH_ADD" [VNum 1%float; VNum 2%float; VStr "X"])
          (echo "ADD 1 2 X" (fresh (Some two_lines))))).

Definition two_lines_2 : interp :=
  set_program_counter 2
    (print "3.0"
       (log (Call "PRINT" "PRINT_CMD" [VNum 0%float; VStr "X"])
          (echo "PRINT 0 X" two_lines_1))).


(** A script whose second line is [PRINT] without arguments, and the
    state of its run after the first line. *)
Definition abort_script : list string :=
  ["PRINT 1 go"; "PRINT"; "PRINT 1 never"].

Definition abort_run_1 : interp :=
  set_program_counter 1
    (print "go"
       (log (Call "PRINT" "PRINT_CMD" [VNum 1%float; VStr "go"])
          (echo "PRINT 1 go" (fresh (Some abort_script))))).

(** ** The grammar text *)

(** The lines of the grammar text as the loop of [parse_SPiD_definition]
    reads them: stripped, and without their comment. *)
Definition grammar_lines : list string :=
  map (fun l => strip (split_head hash (strip l)))
    (split newline SPiD_definition).

(** The groups of a pattern whose groups hold no blank. *)
Definition groups_of (pat : string) : list string :=
  map slice_1_m1 (split " " pat).

(** An entry of the table is the entry of a clause of the grammar text
    that declares a handler. *)
Definition entry_from_clause (kv : string * command_def) : bool :=
  match handler (snd kv) with
  | Some tag =>
      let groups := groups_of (pattern (snd kv)) in
      existsb (String.eqb (clause (fst kv) groups (Some tag))) grammar_lines
      && forallb group_body groups
      && String.eqb (pattern (snd kv)) (join " " (map group groups))
      && (arg_count (snd kv) =? List.length groups)%nat
  | None => false
  end.
(** * Properties *)

(** ** Strings *)

Lemma length_append (a b : string) :
  String.length (a ++ b) = String.length a + String.length b.
Proof.
  induction a as [|c a IH]; simpl; [reflexivity | now rewrite IH].
Qed.

Lemma unsnoc_none (s : string) : unsnoc s = None -> s = EmptyString.
Proof.
  destruct s as [|c r]; [reflexivity | simpl].
  destruct (unsnoc r) as [[i d]|]; discriminate.
Qed.

Lemma unsnoc_some (s i : string) (d : ascii) :
  unsnoc s = Some (i, d) -> s = i ++ String d EmptyString.
Proof.
  revert i d. induction s as [|c r IH]; intros i d; simpl; [discriminate|].
  destruct (unsnoc r) as [[i' d']|] eqn:E.
  - intros [= <- <-]. simpl. f_equal. now apply IH.
  - intros [= <- <-]. apply unsnoc_none in E. now subst.
Qed.

Lemma unsnoc_append (i : string) (d : ascii) :
  unsnoc (i ++ String d EmptyString) = Some (i, d).
Proof.
  induction i as [|c i IH]; simpl; [reflexivity | now rewrite IH].
Qed.

Lemma substring_prefix_append (a b : string) :
  substring 0 (String.length a) (a ++ b) = a.
Proof.
  induction a as [|c a IH]; simpl.
  - destruct b; reflexivity.
  - now rewrite IH.
Qed.

Lemma substring_skip_append (a b : string) (m : nat) :
  substring (String.length a) m (a ++ b) = substring 0 m b.
Proof.
  induction a as [|c a IH]; simpl; [reflexivity | exact IH].
Qed.

Lemma substring_all (m : nat) (s : string) :
  String.length s <= m -> substring 0 m s = s.
Proof.
  revert m. induction s as [|c s IH]; intros m Hm; simpl in *.
  - destruct m; reflexivity.
  - destruct m; [lia|]. f_equal. apply IH. lia.
Qed.

Lemma startswith_char (c d : ascii) (r : string) :
  startswith (String c r) (String d EmptyString) = Ascii.eqb c d.
Proof.
  unfold startswith. simpl.
  destruct (ascii_dec d c) as [->|Hn].
  - rewrite Ascii.eqb_refl. destruct r; reflexivity.
  - symmetry. apply Ascii.eqb_neq. congruence.
Qed.

Lemma endswith_char (i : string) (d e : ascii) :
  endswith (i ++ String d EmptyString) (String e EmptyString) = Ascii.eqb d e.
Proof.
  unfold endswith. rewrite length_append. simpl String.length.
  replace (String.length i + 1 - 1) with (String.length i) by lia.
  replace (1 <=? String.length i + 1)%nat with true
    by (symmetry; apply Nat.leb_le; lia).
  rewrite substring_skip_append. simpl.
  destruct (Ascii.eqb d e); reflexivity.
Qed.

Lemma slice_1_m1_wrapped (c d : ascii) (i : string) :
  slice_1_m1 (String c (i ++ String d EmptyString)) = i.
Proof.
  unfold slice_1_m1. simpl String.length. rewrite length_append. simpl.
  replace (String.length i + 1 - 1) with (String.length i) by lia.
  apply substring_prefix_append.
Qed.

(** ** Tokenizer *)

(** C7, as stated: the tokens of [print_line] are not [PRINT], [1] and
    the third field as written in the line; no token that [tokenize]
    returns holds a backslash. *)
Lemma tokenize_print_line_drops_backslashes :
  tokenize print_line <> ["PRINT"; "1"; third_field]
  /\ (forall t, In t (tokenize print_line) -> contains backslash t = false).
Proof.
  split.
  - vm_compute. discriminate.
  - vm_compute. intros t [<- | [<- | [<- | []]]]; reflexivity.
Qed.

(** C7, amended: tokenizing [PRINT 1 "a b \"c\""] yields exactly three
    tokens, [PRINT], [1] and the nine characters ["a b "c""]: the
    surrounding quotes are retained, each escaped quote is kept as a plain
    character and does not end the quoted region (the blanks stay inside
    the token), and the two escape characters are consumed. *)
Theorem tokenize_print_line :
  tokenize print_line = ["PRINT"; "1"; third_token]
  /\ String.length third_token = 9
  /\ startswith third_token DQ = true
  /\ endswith third_token DQ = true
  /\ contains backslash third_token = false.
Proof.
  repeat split; vm_compute; reflexivity.
Qed.

(** ** Value resolver *)

Section ResolverFacts.
Context `{Host}.

(** The quote test of [parse_value] and the wrapped tokens of the
    specification differ on one token only. *)
Lemma quote_test_wrapped (token : string) :
  token <> DQ ->
  match wrapped token with
  | Some inner =>
      startswith token DQ && endswith token DQ = true
      /\ slice_1_m1 token = inner
      /\ token = DQ ++ inner ++ DQ
  | None => startswith token DQ && endswith token DQ = false
  end.
Proof.
  intros Hne. destruct token as [|c r]; [reflexivity|].
  unfold wrapped, DQ in *.
  destruct (Ascii.eqb c dquote) eqn:Ec;
    [|rewrite startswith_char, Ec; reflexivity].
  apply Ascii.eqb_eq in Ec. subst c.
  destruct (unsnoc r) as [[i d]|] eqn:E.
  - apply unsnoc_some in E. subst r.
    pose proof (endswith_char (String dquote i) d dquote) as He.
    simpl in He.
    destruct (Ascii.eqb d dquote) eqn:Ed.
    + rewrite startswith_char, He, Ascii.eqb_refl.
      apply Ascii.eqb_eq in Ed. subst d.
      split; [reflexivity|]. split; [|reflexivity].
      apply slice_1_m1_wrapped.
    + rewrite startswith_char, He, Ascii.eqb_refl. reflexivity.
  - apply unsnoc_none in E. subst r. now elim Hne.
Qed.

End ResolverFacts.

Lemma parse_value_quote_char `{Host} (variables : store) :
  parse_value variables DQ = VStr "".
Proof. reflexivity. Qed.

(** C10: on the one-character token made of a double quote, which passes
    both the leading-quote and the trailing-quote test, [parse_value]
    returns the empty text, whatever the store holds and whatever the host
    parses as a number; it neither looks the token up nor returns it as a
    bare identifier. *)
Theorem parse_value_lone_quote :
  forall (H : Host) (variables : store),
    startswith DQ DQ = true
    /\ endswith DQ DQ = true
    /\ parse_value variables DQ = VStr ""
    /\ parse_value variables DQ <> VStr DQ.
Proof.
  intros H variables. repeat split; try reflexivity.
  rewrite parse_value_quote_char. discriminate.
Qed.

(** C8, as stated: a store that binds the one-character name made of a
    double quote.  That token is not wrapped in a pair of quotes and is no
    number, so the stated order yields the value bound to it; [parse_value]
    yields the empty text. *)
Lemma parse_value_not_in_order :
  let variables := [(VStr DQ, VNum 5%float)] in
  wrapped DQ = None
  /\ py_float DQ = None
  /\ resolve_in_order variables DQ = VNum 5%float
  /\ parse_value variables DQ = VStr ""
  /\ parse_value variables DQ <> resolve_in_order variables DQ.
Proof.
  vm_compute. repeat split; discriminate.
Qed.

(** C8, amended: on every token except the one-character token made of a
    double quote, [parse_value] follows the stated order: a token wrapped
    in a pair of double quotes yields its inner text; otherwise a token
    that parses as a number yields that number, bound or not; otherwise
    the null keyword in any case yields the null marker; otherwise a bound
    name yields its value; otherwise the token itself is the result.  On
    the lone double quote the result is the empty text.  No case raises.
    The host is one on which [float] accepts [0] and [1], as Python's
    does. *)
Theorem parse_value_priority :
  forall (H : Host),
    py_float "0" <> None ->
    py_float "1" <> None ->
    forall (variables : store) (token : string),
      parse_value variables token =
        if String.eqb token DQ then VStr ""
        else resolve_in_order variables token.
Proof.
  intros H H0 H1 variables token.
  destruct (String.eqb_spec token DQ) as [->|Hne].
  - apply parse_value_quote_char.
  - pose proof (quote_test_wrapped token Hne) as Hw.
    unfold parse_value, resolve_in_order.
    destruct (wrapped token) as [inner|].
    + destruct Hw as (-> & -> & _). reflexivity.
    + rewrite Hw.
      destruct (py_float token) as [f|] eqn:Ef; [reflexivity|].
      destruct (String.eqb_spec token "0") as [->|_]; [congruence|].
      destruct (String.eqb_spec token "1") as [->|_]; [congruence|].
      reflexivity.
Qed.

Lemma parse_value_priority_witness :
  py_float "0" <> None /\ py_float "1" <> None
  /\ parse_value [(VStr "X", VNum 5%float); (VStr "7", VStr "seven")] "X"
     = resolve_in_order
         [(VStr "X", VNum 5%float); (VStr "7", VStr "seven")] "X"
  /\ parse_value [(VStr "X", VNum 5%float); (VStr "7", VStr "seven")] "7"
     = resolve_in_order
         [(VStr "X", VNum 5%float); (VStr "7", VStr "seven")] "7".
Proof.
  assert (H0 : py_float "0" <> None) by (vm_compute; discriminate).
  assert (H1 : py_float "1" <> None) by (vm_compute; discriminate).
  split; [exact H0|]. split; [exact H1|]. split.
  - exact (parse_value_priority sample H0 H1
             [(VStr "X", VNum 5%float); (VStr "7", VStr "seven")] "X").
  - exact (parse_value_priority sample H0 H1
             [(VStr "X", VNum 5%float); (VStr "7", VStr "seven")] "7").
Defined.

(** ** Store *)

Lemma key_eqb_text_refl (name : string) : key_eqb (VStr name) (VStr name) = true.
Proof. apply String.eqb_refl. Qed.

Lemma dict_get_set_same (k v : value) (d : store) :
  key_eqb k k = true -> dict_get k (dict_set k v d) = Some v.
Proof.
  intros Hk. induction d as [|[k' v'] d IH]; simpl.
  - now rewrite Hk.
  - destruct (key_eqb k' k) eqn:E; simpl; rewrite E; [reflexivity | exact IH].
Qed.

(** ** Arithmetic *)

(** What an arithmetic handler does with the arguments it is called
    with: two numeric inputs store the result, a float, under the third
    argument; a divisor equal to zero prints [Division by zero] and an
    input that is not numeric prints the type error, both leaving the
    store as it was. *)
Lemma handle_arith_outcomes :
  forall (H : Host) (execute_line : string -> interp -> result)
         (handler_name : string) (st : interp) (a b out : value),
    let run c := call_handler execute_line handler_name (arith_handler c)
                   [a; b; out] st in
    (forall c x y,
        to_float a = Some x -> to_float b = Some y ->
        divides_by_zero c y = false ->
        run c = Done (assign out (VNum (arith_result c x y)) st)
        /\ (key_eqb out out = true ->
            dict_get out (variables (assign out (VNum (arith_result c x y)) st))
            = Some (VNum (arith_result c x y))))
    /\ (forall x y,
           to_float a = Some x -> to_float b = Some y ->
           PrimFloat.eqb y 0%float = true ->
           run OpDivs = Done (print "Division by zero" st)
           /\ variables (print "Division by zero" st) = variables st
           /\ (dict_get out (variables st) = None ->
               dict_get out (variables (print "Division by zero" st)) = None))
    /\ (forall c,
           to_float a = None \/ to_float b = None ->
           run c = Done (print "Arithmetic operations require numeric values" st)
           /\ variables
                (print "Arithmetic operations require numeric values" st)
              = variables st).
Proof.
  intros H execute_line handler_name st a b out run. subst run.
  split; [|split].
  - intros c x y Ha Hb Hz. split.
    + destruct c; simpl in *; unfold handle_arith; rewrite Ha, Hb; simpl;
        try reflexivity.
      now rewrite Hz.
    + intros Hk. simpl. now apply dict_get_set_same.
  - intros x y Ha Hb Hz. split; [|split].
    + simpl. unfold handle_arith. rewrite Ha, Hb. simpl. now rewrite Hz.
    + reflexivity.
    + intros Hn. exact Hn.
  - intros c Hab. split; [|reflexivity].
    destruct c; simpl; unfold handle_arith;
      destruct Hab as [Hn|Hn]; rewrite Hn; try reflexivity;
      destruct (to_float a); reflexivity.
Qed.

(** The two examples of the specification, run as command lines on a
    fresh interpreter: [ADD 2 3 X] binds [X] to [5.0]; [DIVS 4 0 X] prints
    the report and binds nothing.  The name a handler receives is the
    third token resolved like any other: once [X] is bound to [1.0],
    [ADD 2 3 X] stores its result under the key [1.0]. *)
Example arithmetic_lines :
  variables_of (execute_line "ADD 2 3 X" (fresh None))
  = Some [(VStr "X", VNum 5%float)]
  /\ variables_of (execute_line "DIVS 4 0 X" (fresh None)) = Some []
  /\ printed_by (execute_line "DIVS 4 0 X" (fresh None))
     = Some ["Division by zero"]
  /\ variables_of (exec_all ["<X = 1>"; "ADD 2 3 X"] (fresh None))
     = Some [(VStr "X", VNum 1%float); (VNum 1%float, VNum 5%float)].
Proof. vm_compute. repeat split; reflexivity. Qed.

(** ** Branch *)

Section BranchFacts.
Context `{Host}.

(** Under the branch keyword [ELSE], [handle_cmp] never reaches the call
    of the sub-script: its result does not depend on what executing a
    line does. *)
Lemma handle_cmp_else_never_executes
  (exec1 exec2 : string -> interp -> result)
  (val1 val2 condition script : value) (b : string) (st : interp) :
  upper b = "ELSE" ->
  handle_cmp exec1 val1 val2 condition (VStr b) script st
  = handle_cmp exec2 val1 val2 condition (VStr b) script st.
Proof.
  intros Hb. unfold handle_cmp. rewrite Hb.
  destruct (to_float val1), (to_float val2); try reflexivity.
  destruct condition as [|c]; [reflexivity|].
  destruct (String.eqb (upper c) "HIGH" && PrimFloat.ltb f0 f);
    [reflexivity|].
  destruct (String.eqb (upper c) "LOW" && PrimFloat.ltb f f0);
    [reflexivity|].
  destruct (String.eqb (upper c) "EQUAL" && PrimFloat.eqb f f0);
    reflexivity.
Qed.

(** A valid condition keyword whose comparison does not hold ends in the
    report of an invalid condition, whatever the branch keyword. *)
Lemma handle_cmp_unmet_is_reported
  (exec : string -> interp -> result)
  (val1 val2 script : value) (c b : string) (v1 v2 : float) (st : interp) :
  to_float val1 = Some v1 -> to_float val2 = Some v2 ->
  (upper c = "HIGH" /\ PrimFloat.ltb v2 v1 = false)
  \/ (upper c = "LOW" /\ PrimFloat.ltb v1 v2 = false)
  \/ (upper c = "EQUAL" /\ PrimFloat.eqb v1 v2 = false) ->
  handle_cmp exec val1 val2 (VStr c) (VStr b) script st
  = Done (print ("Invalid condition: " ++ upper c) st).
Proof.
  intros E1 E2 Hc. unfold handle_cmp. rewrite E1, E2.
  destruct Hc as [[-> Hf]|[[-> Hf]|[-> Hf]]]; simpl; rewrite Hf; reflexivity.
Qed.

End BranchFacts.

(** C1, the code at the failing inputs: with [X = 5] and [Y = 3],
    [IF X Y LOW ELSE PRINT 1 "no"] does not run its sub-script and prints
    [Invalid condition: LOW]; [IF X Y LOW THEN PRINT 1 "yes"] prints the
    same report where the claim has none; [IF X Y HIGH THEN PRINT 1 "yes"]
    prints [yes]. *)
Theorem branch_unmet_condition :
  printed_by (after five_three ("IF X Y LOW ELSE PRINT 1 " ++ DQ ++ "no" ++ DQ))
  = Some ["Invalid condition: LOW"]
  /\ printed_by
       (after five_three ("IF X Y LOW THEN PRINT 1 " ++ DQ ++ "yes" ++ DQ))
     = Some ["Invalid condition: LOW"]
  /\ printed_by
       (after five_three ("IF X Y HIGH THEN PRINT 1 " ++ DQ ++ "yes" ++ DQ))
     = Some ["yes"]
  /\ printed_by
       (after five_three ("IF X Y HIGH ELSE PRINT 1 " ++ DQ ++ "no" ++ DQ))
     = Some [].
Proof. vm_compute. repeat split; reflexivity. Qed.

(** ** Command registry *)

Lemma append_assoc_s (a b c : string) : (a ++ b) ++ c = a ++ (b ++ c).
Proof.
  induction a as [|x a IH]; simpl; [reflexivity | now rewrite IH].
Qed.

Lemma lstrip_id (c : ascii) (r : string) :
  is_space c = false -> lstrip (String c r) = String c r.
Proof. intros Hc. simpl. now rewrite Hc. Qed.

Lemma rstrip_id (s i : string) (d : ascii) :
  unsnoc s = Some (i, d) -> is_space d = false -> rstrip s = s.
Proof.
  revert i d. induction s as [|c r IH]; intros i d; simpl; [discriminate|].
  destruct (unsnoc r) as [[i' d']|] eqn:E.
  - intros [= <- <-] Hd. rewrite (IH _ _ eq_refl Hd).
    destruct r; [discriminate | reflexivity].
  - intros [= <- <-] Hd. apply unsnoc_none in E. subst r. simpl.
    now rewrite Hd.
Qed.

Lemma strip_id (c d : ascii) (r i : string) :
  is_space c = false -> unsnoc (String c r) = Some (i, d) ->
  is_space d = false -> strip (String c r) = String c r.
Proof.
  intros Hc Hu Hd. unfold strip. rewrite (lstrip_id _ _ Hc).
  exact (rstrip_id _ _ _ Hu Hd).
Qed.

Lemma contains_append (c : ascii) (a b : string) :
  contains c (a ++ b) = contains c a || contains c b.
Proof.
  induction a as [|x a IH]; simpl; [reflexivity|].
  rewrite IH. now rewrite orb_assoc.
Qed.

Lemma all_chars_excludes (p : ascii -> bool) (c : ascii) (s : string) :
  p c = false -> all_chars p s = true -> contains c s = false.
Proof.
  intros Hc. induction s as [|x s IH]; simpl; [reflexivity|].
  intros Hs. apply andb_true_iff in Hs as [Hx Hs].
  rewrite (IH Hs), orb_false_r.
  apply Ascii.eqb_neq. intros ->. congruence.
Qed.

Lemma span_spec (p : ascii -> bool) (s a b : string) :
  Regex.span p s = (a, b) -> s = a ++ b /\ all_chars p a = true.
Proof.
  revert a b. induction s as [|c r IH]; intros a b; simpl.
  - intros [= <- <-]. now split.
  - destruct (p c) eqn:Ec.
    + destruct (Regex.span p r) as [a' b'] eqn:E. intros [= <- <-].
      destruct (IH _ _ eq_refl) as [-> Ha]. simpl. now rewrite Ec, Ha.
    + intros [= <- <-]. now split.
Qed.

Lemma span_stop (p : ascii -> bool) (a : string) (c : ascii) (r : string) :
  all_chars p a = true -> p c = false ->
  Regex.span p (a ++ String c r) = (a, String c r).
Proof.
  intros Ha Hc. induction a as [|x a IH]; simpl in *.
  - now rewrite Hc.
  - apply andb_true_iff in Ha as [Hx Ha]. now rewrite Hx, (IH Ha).
Qed.

Lemma strip_prefix_spec (p s r : string) :
  Regex.strip_prefix p s = Some r -> s = p ++ r.
Proof.
  revert s. induction p as [|a p IH]; intros s; simpl.
  - now intros [= ->].
  - destruct s as [|b s]; [discriminate|].
    destruct (Ascii.eqb_spec a b) as [->|]; [|discriminate].
    intros E. now rewrite (IH _ E).
Qed.

(** A text that the tag pattern matches holds no closing parenthesis. *)
Lemma match_tag_no_close (r h : string) :
  Regex.match_tag r = Some h -> contains ")" r = false.
Proof.
  unfold Regex.match_tag.
  destruct (Regex.span is_space r) as [ws r1] eqn:E1.
  destruct (Regex.strip_prefix "[CMD=" r1) as [r2|] eqn:E2; [|discriminate].
  destruct (Regex.span is_word r2) as [w r3] eqn:E3.
  destruct w as [|w0 w']; [discriminate|].
  destruct (String.eqb_spec r3 "]") as [->|]; [|discriminate].
  intros _.
  apply span_spec in E1 as [-> Hws]. apply span_spec in E3 as [-> Hw].
  apply strip_prefix_spec in E2 as ->.
  rewrite !contains_append.
  rewrite (all_chars_excludes is_space ")" ws eq_refl Hws).
  rewrite (all_chars_excludes is_word ")" _ eq_refl Hw).
  reflexivity.
Qed.

Lemma match_tag_tag_text (tag : option string) :
  match tag with Some h => word h = true | None => True end ->
  Regex.match_tag (tag_text tag) = tag.
Proof.
  destruct tag as [h|]; [|reflexivity].
  intros Hw. apply andb_true_iff in Hw as [Hne Hw].
  unfold tag_text, Regex.match_tag. simpl.
  rewrite (span_stop is_word h "]" "" Hw eq_refl).
  destruct h; [discriminate | reflexivity].
Qed.

Lemma lazy_tail_stop (g2 r h : string) :
  Regex.match_tag r = Some h -> Regex.lazy_tail g2 r = (g2, Some h).
Proof.
  intros E. destruct r; [discriminate E|].
  cbn [Regex.lazy_tail]. rewrite E. reflexivity.
Qed.

Lemma lazy_tail_next (g2 r : string) (c : ascii) :
  Regex.match_tag (String c r) = None ->
  Regex.lazy_tail g2 (String c r) = Regex.lazy_tail (push g2 c) r.
Proof.
  intros E. cbn [Regex.lazy_tail]. rewrite E. reflexivity.
Qed.

(** The lazy group walks over a text that ends in a closing parenthesis
    and stops before the tag, or at the end of the line. *)
Lemma lazy_tail_walk (m g2 : string) (tag : option string) :
  match tag with Some h => word h = true | None => True end ->
  Regex.lazy_tail g2 ((m ++ ")") ++ tag_text tag) = (g2 ++ m ++ ")", tag).
Proof.
  intros Ht. revert g2. induction m as [|c m IH]; intros g2.
  - change (Regex.lazy_tail g2 (String ")" (tag_text tag))
            = (g2 ++ ")", tag)).
    rewrite lazy_tail_next by reflexivity.
    pose proof (match_tag_tag_text tag Ht) as E.
    destruct tag as [h|].
    + now apply lazy_tail_stop.
    + reflexivity.
  - change (Regex.lazy_tail g2 (String c ((m ++ ")") ++ tag_text tag))
            = (g2 ++ String c (m ++ ")"), tag)).
    destruct (Regex.match_tag (String c ((m ++ ")") ++ tag_text tag)))
      as [h|] eqn:E.
    + apply match_tag_no_close in E. simpl in E.
      rewrite !contains_append in E. simpl in E.
      rewrite orb_true_r in E. simpl in E.
      rewrite orb_true_r in E. discriminate.
    + rewrite (lazy_tail_next _ _ _ E), IH. unfold push.
      rewrite append_assoc_s. reflexivity.
Qed.

Lemma append_empty_r (s : string) : s ++ "" = s.
Proof. induction s as [|c s IH]; simpl; [reflexivity | now rewrite IH]. Qed.

Lemma strip_same (s i r : string) (c d : ascii) :
  s = String c r -> is_space c = false ->
  s = i ++ String d EmptyString -> is_space d = false ->
  strip s = s.
Proof.
  intros Hs Hc Hi Hd. subst s.
  apply (strip_id c d r i Hc); [|exact Hd].
  rewrite Hi. apply unsnoc_append.
Qed.

Lemma word_char_not_space (c : ascii) : is_word c = true -> is_space c = false.
Proof.
  destruct c as [[] [] [] [] [] [] [] []]; vm_compute; congruence.
Qed.

Lemma scan_in_close (g rest : string) :
  contains ")" g = false ->
  Regex.scan_groups Regex.In (g ++ String ")" rest)
  = S (Regex.scan_groups Regex.Out rest).
Proof.
  induction g as [|c g IH]; simpl; [reflexivity|].
  intros Hc. apply orb_false_iff in Hc as [Hc Hg].
  rewrite Hc. exact (IH Hg).
Qed.

Lemma scan_group (g rest : string) :
  group_body g = true ->
  Regex.scan_groups Regex.Out (group g ++ rest)
  = S (Regex.scan_groups Regex.Out rest).
Proof.
  unfold group_body, group. intros Hg.
  apply andb_true_iff in Hg as [Hne Hc]. apply negb_true_iff in Hc.
  destruct g as [|c g]; [discriminate|].
  simpl in Hc. apply orb_false_iff in Hc as [Hc Hg].
  simpl. rewrite Hc, append_assoc_s. simpl. exact (scan_in_close g rest Hg).
Qed.

(** The scanner counts one match for each group of a pattern, whatever
    the group lists. *)
Lemma count_groups_join (groups : list string) :
  forallb group_body groups = true ->
  Regex.count_groups (join " " (map group groups)) = List.length groups.
Proof.
  unfold Regex.count_groups, join.
  induction groups as [|g gs IH]; [reflexivity|].
  intros Hall. simpl in Hall. apply andb_true_iff in Hall as [Hg Hgs].
  destruct gs as [|g' gs'].
  - change (Regex.scan_groups Regex.Out (group g) = 1).
    rewrite <- (append_empty_r (group g)).
    now rewrite (scan_group g "" Hg).
  - change (Regex.scan_groups Regex.Out
              (group g ++ String " " (String.concat " " (map group (g' :: gs'))))
            = S (List.length (g' :: gs'))).
    rewrite (scan_group _ _ Hg). cbn [Regex.scan_groups]. simpl Ascii.eqb.
    cbv iota. f_equal. exact (IH Hgs).
Qed.

(** A pattern of at least one group starts with an opening and ends with
    a closing parenthesis. *)
Lemma join_groups_shape (groups : list string) :
  groups <> [] ->
  exists m, join " " (map group groups) = String "(" (m ++ ")").
Proof.
  unfold join. induction groups as [|g gs IH]; [congruence|]. intros _.
  destruct gs as [|g' gs'].
  - exists g. reflexivity.
  - destruct IH as [m Hm]; [discriminate|].
    exists (g ++ ") (" ++ m).
    change (group g ++ " " ++ String.concat " " (map group (g' :: gs'))
            = String "(" ((g ++ ") (" ++ m) ++ ")")).
    rewrite Hm. unfold group. simpl. f_equal.
    rewrite !append_assoc_s. reflexivity.
Qed.

Lemma cmd_get_set_same (k : string) (v : command_def) (d : registry) :
  cmd_get k (cmd_set k v d) = Some v.
Proof.
  induction d as [|[k' v'] d IH]; simpl.
  - now rewrite String.eqb_refl.
  - destruct (String.eqb k' k) eqn:E; simpl; rewrite E; [reflexivity | exact IH].
Qed.

Lemma span_blank_paren (r : string) :
  Regex.span is_space (String " " (String "(" r)) = (" ", String "(" r).
Proof. reflexivity. Qed.

(** What the clause pattern captures on a clause. *)
Lemma match_clause_clause (name : string) (groups : list string)
  (tag : option string) :
  word name = true -> groups <> [] ->
  match tag with Some h => word h = true | None => True end ->
  Regex.match_clause (clause name groups tag)
  = Some (name, join " " (map group groups), tag).
Proof.
  intros Hn Hg Ht. apply andb_true_iff in Hn as [Hne Hw].
  destruct (join_groups_shape groups Hg) as [m Hm].
  unfold clause, Regex.match_clause. rewrite Hm.
  change (name ++ " " ++ String "(" (m ++ ")") ++ tag_text tag)
    with (name ++ String " " (String "(" ((m ++ ")") ++ tag_text tag))).
  rewrite (span_stop is_word name " " _ Hw eq_refl).
  destruct name as [|n0 name']; [discriminate|].
  rewrite span_blank_paren.
  rewrite (lazy_tail_walk m "(" tag Ht). reflexivity.
Qed.

(** On a grammar text with a clause that declares no handler, the loop
    stores the clause all the same, with no handler in it. *)
Example untagged_clause_entry :
  cmd_get "FOO" (parse_SPiD_text untagged_grammar)
  = Some (CommandDef "(VAR) (VAR,VAL)" None 2)
  /\ cmd_get "BAR" (parse_SPiD_text untagged_grammar)
     = Some (CommandDef "(TXT)" (Some "PRINT_CMD") 1).
Proof. vm_compute. split; reflexivity. Qed.

(** The body of the loop on a clause made of a name and at least one
    parenthesized group, with or without a handler tag, that is not a
    comment and does not start with a marker of the grammar: the entry
    stored under the upper-cased name holds the pattern, the handler of
    the tag or no handler, and as argument count the number of groups,
    whatever each group lists. *)
Lemma parse_SPiD_line_clause :
  forall (name : string) (groups : list string) (tag : option string)
         (commands : registry),
    word name = true ->
    groups <> [] ->
    forallb group_body groups = true ->
    match tag with Some h => word h = true | None => True end ->
    startswith (clause name groups tag) "main.spid<" = false ->
    startswith (clause name groups tag) "END" = false ->
    contains hash (clause name groups tag) = false ->
    let entry := CommandDef (join " " (map group groups)) tag
                   (List.length groups) in
    parse_SPiD_line (clause name groups tag) commands true
    = Some (cmd_set (upper name) entry commands, true)
    /\ cmd_get (upper name) (cmd_set (upper name) entry commands) = Some entry
    /\ handler entry = tag
    /\ arg_count entry = List.length groups.
Proof.
  intros name groups tag commands Hn Hg Hb Ht Hm He Hh entry.
  split; [|split; [apply cmd_get_set_same | split; reflexivity]].
  assert (Hs : strip (clause name groups tag) = clause name groups tag).
  { pose proof Hn as Hn'. apply andb_true_iff in Hn' as [Hne Hw].
    destruct (join_groups_shape groups Hg) as [m Hj].
    destruct name as [|n0 name']; [discriminate|].
    simpl in Hw. apply andb_true_iff in Hw as [Hw0 _].
    destruct tag as [h|].
    - apply (strip_same _ (String n0 name' ++ " " ++ join " " (map group groups)
                           ++ " [CMD=" ++ h)
               (name' ++ " " ++ join " " (map group groups)
                ++ tag_text (Some h)) n0 "]").
      + reflexivity.
      + now apply word_char_not_space.
      + unfold clause, tag_text. rewrite !append_assoc_s. reflexivity.
      + reflexivity.
    - apply (strip_same _ (String n0 name' ++ " " ++ String "(" m)
               (name' ++ " " ++ join " " (map group groups)
                ++ tag_text None) n0 ")").
      + reflexivity.
      + now apply word_char_not_space.
      + unfold clause, tag_text. rewrite Hj, append_empty_r.
        simpl. rewrite !append_assoc_s. reflexivity.
      + reflexivity. }
  assert (Hp : strip (join " " (map group groups)) = join " " (map group groups)).
  { destruct (join_groups_shape groups Hg) as [m Hj]. rewrite Hj.
    apply (strip_same _ (String "(" m) (m ++ ")") "(" ")"); reflexivity. }
  unfold parse_SPiD_line. rewrite Hs, Hm, He, Hh. simpl negb. cbv iota.
  destruct (String.eqb_spec (clause name groups tag) "") as [E|_].
  - rewrite E in Hm. apply andb_true_iff in Hn as [Hne _].
    unfold clause in E. destruct name; discriminate.
  - simpl orb. cbv iota.
    rewrite (match_clause_clause name groups tag Hn Hg Ht), Hp.
    rewrite (count_groups_join groups Hb). reflexivity.
Qed.

(** The table of the interpreter is the one this loop builds from the
    grammar text of the source; each of its entries names a handler and
    counts the groups of its pattern. *)
Lemma parse_SPiD_definition_built :
  parse_SPiD_definition = parse_SPiD_text SPiD_definition
  /\ forallb (fun kv =>
        match handler (snd kv) with Some _ => true | None => false end
        && (arg_count (snd kv) =? Regex.count_groups (pattern (snd kv)))%nat)
       parse_SPiD_definition = true.
Proof. split; vm_compute; reflexivity. Qed.

(** ** Comments *)

Lemma lstrip_head (s : string) :
  lstrip s = EmptyString
  \/ exists c r, lstrip s = String c r /\ is_space c = false.
Proof.
  induction s as [|c r IH]; simpl; [now left|].
  destruct (is_space c) eqn:E; [exact IH|]. right. now exists c, r.
Qed.

Lemma rstrip_keeps_head (c : ascii) (r : string) :
  is_space c = false -> exists r', rstrip (String c r) = String c r'.
Proof.
  intros Hc. simpl. destruct (rstrip r) as [|x r'].
  - rewrite Hc. now exists EmptyString.
  - now exists (String x r').
Qed.

Lemma rstrip_cons (c : ascii) (r : string) :
  rstrip (String c r)
  = match rstrip r with
    | EmptyString => if is_space c then EmptyString else String c EmptyString
    | r' => String c r'
    end.
Proof. reflexivity. Qed.

Lemma rstrip_idem (s : string) : rstrip (rstrip s) = rstrip s.
Proof.
  induction s as [|c r IH]; [reflexivity|].
  rewrite rstrip_cons.
  destruct (rstrip r) as [|x r'] eqn:E.
  - destruct (is_space c) eqn:Ec; simpl; [reflexivity | now rewrite Ec].
  - rewrite rstrip_cons, IH. reflexivity.
Qed.

Lemma strip_idem (s : string) : strip (strip s) = strip s.
Proof.
  unfold strip. destruct (lstrip_head s) as [->|(c & r & -> & Hc)];
    [reflexivity|].
  destruct (rstrip_keeps_head c r Hc) as [r' E].
  rewrite <- (rstrip_idem (String c r)) at 2. rewrite E.
  now rewrite (lstrip_id c r' Hc).
Qed.

Lemma contains_lstrip (c : ascii) (s : string) :
  contains c s = false -> contains c (lstrip s) = false.
Proof.
  induction s as [|x r IH]; simpl; [reflexivity|].
  intros Hc. destruct (is_space x); [|exact Hc].
  apply orb_false_iff in Hc as [_ Hr]. exact (IH Hr).
Qed.

Lemma contains_rstrip (c : ascii) (s : string) :
  contains c s = false -> contains c (rstrip s) = false.
Proof.
  induction s as [|x r IH]; simpl; [reflexivity|].
  intros Hc. apply orb_false_iff in Hc as [Hx Hr]. specialize (IH Hr).
  destruct (rstrip r) as [|y r'].
  - destruct (is_space x); [reflexivity|]. simpl. now rewrite Hx.
  - cbn [contains]. rewrite Hx. exact IH.
Qed.

Lemma contains_strip (c : ascii) (s : string) :
  contains c s = false -> contains c (strip s) = false.
Proof.
  intros Hc. unfold strip. now apply contains_rstrip, contains_lstrip.
Qed.

Lemma split_head_no_marker (c : ascii) (s : string) :
  contains c (split_head c s) = false.
Proof.
  unfold split_head. induction s as [|x r IH]; simpl; [reflexivity|].
  destruct (Ascii.eqb x c) eqn:E; [reflexivity|].
  destruct (split_once c r) as [[a b]|]; simpl; rewrite E; exact IH.
Qed.

Lemma split_head_same (c : ascii) (s : string) :
  contains c s = false -> split_head c s = s.
Proof.
  unfold split_head. induction s as [|x r IH]; simpl; [reflexivity|].
  intros Hc. apply orb_false_iff in Hc as [Hx Hr]. rewrite Hx.
  specialize (IH Hr). destruct (split_once c r) as [[a b]|]; congruence.
Qed.

(** The cleaned declaration is stripped, free of the marker, and still
    opens with the bracket. *)
Lemma clean_line_facts (line : string) :
  startswith (strip line) "<" = true ->
  strip (clean_line line) = clean_line line
  /\ split_head hash (clean_line line) = clean_line line
  /\ startswith (clean_line line) "<" = true.
Proof.
  intros Hs. unfold clean_line. split; [apply strip_idem|]. split.
  - apply split_head_same, contains_strip, split_head_no_marker.
  - destruct (strip line) as [|c r]; [discriminate|].
    rewrite startswith_char in Hs. apply Ascii.eqb_eq in Hs. subst c.
    assert (E : exists x, split_head hash (String "<" r) = String "<" x).
    { unfold split_head. simpl.
      destruct (split_once hash r) as [[a b]|]; eexists; reflexivity. }
    destruct E as [x ->]. unfold strip. rewrite lstrip_id by reflexivity.
    destruct (rstrip_keeps_head "<" x eq_refl) as [r' ->].
    apply startswith_char.
Qed.

Lemma holds_hash_step (st : tok_state) (c : ascii) :
  holds_hash st = true \/ c = hash -> holds_hash (tok_step st c) = true.
Proof.
  unfold holds_hash, tok_step, push. intros Hc.
  assert (Hp : existsb (contains hash) (tokens st)
               || contains hash (current st ++ String c "") = true).
  { rewrite contains_append. destruct Hc as [Hc | Hc].
    - apply orb_true_iff in Hc as [Hc | Hc]; rewrite Hc; [reflexivity|].
      simpl. now rewrite orb_true_r.
    - subst c. simpl. now rewrite !orb_true_r. }
  destruct (escape st); [exact Hp|].
  destruct (Ascii.eqb_spec c backslash) as [->|_].
  { destruct Hc as [Hc|Hc]; [exact Hc | discriminate Hc]. }
  destruct (Ascii.eqb_spec c dquote) as [->|_]; [exact Hp|].
  destruct (Ascii.eqb_spec c " ") as [->|_]; [|exact Hp].
  destruct (in_quotes st); [exact Hp|]. simpl.
  destruct Hc as [Hc|Hc]; [|discriminate Hc].
  destruct (current st) as [|x cur] eqn:Ecur; simpl.
  - rewrite Ecur. exact Hc.
  - rewrite existsb_app. simpl. rewrite orb_false_r.
    simpl in Hc. rewrite orb_false_r. exact Hc.
Qed.

Lemma holds_hash_loop (line : string) (st : tok_state) :
  holds_hash st = true \/ contains hash line = true ->
  holds_hash (tok_loop line st) = true.
Proof.
  revert st. induction line as [|c r IH]; intros st Hc; simpl.
  - destruct Hc as [Hc|Hc]; [exact Hc | discriminate Hc].
  - apply IH. destruct Hc as [Hc|Hc].
    + left. apply holds_hash_step. now left.
    + simpl in Hc. apply orb_true_iff in Hc as [Hc|Hc]; [|now right].
      left. apply holds_hash_step. right. now apply Ascii.eqb_eq.
Qed.

(** [tokenize] removes no comment: a marker in the line is in a token. *)
Lemma tokenize_keeps_hash (line : string) :
  contains hash line = true ->
  existsb (contains hash) (tokenize line) = true.
Proof.
  intros Hc. unfold tokenize, tok_flush.
  pose proof (holds_hash_loop line tok_init (or_intror Hc)) as Hl.
  unfold holds_hash in Hl.
  destruct (current (tok_loop line tok_init)) as [|x cur].
  - simpl in Hl. now rewrite orb_false_r in Hl.
  - rewrite existsb_app. simpl. now rewrite orb_false_r.
Qed.

Section DeclarationFacts.
Context `{Host}.

(** What [execute_line] does on a declaration line. *)
Lemma execute_line_declaration (fuel : nat) (line : string) (st : interp) :
  is_declaration line = true ->
  execute_line_fuel (S fuel) line st
  = if negb (endswith (clean_line line) ">") then
      Done (print ("Invalid variable declaration format: " ++ strip line
                   ++ " (missing closing '>')") st)
    else
      match split_once "=" (slice_1_m1 (clean_line line)) with
      | Some (var, val) =>
          Done (assign (VStr (strip var))
                  (parse_value (variables st) (strip val)) st)
      | None => Done (print ("Invalid variable declaration: " ++ strip line) st)
      end.
Proof.
  unfold is_declaration, clean_line. intros Hd.
  unfold execute_line_fuel; fold execute_line_fuel.
  rewrite Hd.
  destruct (String.eqb_spec (strip line) "") as [E|_]; [|reflexivity].
  rewrite E in Hd. discriminate Hd.
Qed.

Lemma is_declaration_clean (line : string) :
  is_declaration line = true ->
  endswith (clean_line line) ">" = true ->
  is_declaration (clean_line line) = true
  /\ clean_line (clean_line line) = clean_line line.
Proof.
  unfold is_declaration. intros Hd He.
  apply andb_true_iff in Hd as [Hs _].
  destruct (clean_line_facts line Hs) as (E1 & E2 & E3).
  split.
  - now rewrite E1, E3, He.
  - unfold clean_line at 1. now rewrite E1, E2.
Qed.

End DeclarationFacts.

(** C6, as stated: a command line with a comment and the same line with
    the comment removed are not executed alike.  [ADD 2 3 X # sum] is
    tokenized with its comment, [#] and [sum] count as arguments, and the
    line ends in an argument error with [X] unbound; [ADD 2 3 X] binds
    [X]. *)
Lemma command_line_comment_not_stripped :
  split_head hash "ADD 2 3 X # sum" = "ADD 2 3 X "
  /\ tokenize "ADD 2 3 X # sum" = ["ADD"; "2"; "3"; "X"; "#"; "sum"]
  /\ printed_by (execute_line "ADD 2 3 X # sum" (fresh None))
     = Some ["Argument error in ADD: Expected 3 arguments, but got 5."]
  /\ variables_of (execute_line "ADD 2 3 X # sum" (fresh None)) = Some []
  /\ variables_of (execute_line "ADD 2 3 X " (fresh None))
     = Some [(VStr "X", VNum 5%float)]
  /\ execute_line "ADD 2 3 X # sum" (fresh None)
     <> execute_line (split_head hash "ADD 2 3 X # sum") (fresh None).
Proof.
  split; [vm_compute; reflexivity|].
  split; [vm_compute; reflexivity|].
  split; [vm_compute; reflexivity|].
  split; [vm_compute; reflexivity|].
  split; [vm_compute; reflexivity|].
  intros E. apply (f_equal variables_of) in E. vm_compute in E. discriminate E.
Qed.

(** ** Frame of the handlers *)

Section Frame.
Context `{Host}.

Lemma extends_refl (st : interp) : extends st st.
Proof.
  split; try reflexivity; [now left|].
  exists []. split; [now rewrite app_nil_r | constructor].
Qed.

Lemma extends_trans (st st' st'' : interp) :
  extends st st' -> extends st' st'' -> extends st st''.
Proof.
  intros [C1 S1 P1 (t1 & T1 & F1)] [C2 S2 P2 (t2 & T2 & F2)]. split.
  - congruence.
  - congruence.
  - destruct P2 as [P2|(lines & L & P2)].
    + rewrite P2. exact P1.
    + right. exists lines. split; [congruence | exact P2].
  - exists (t1 ++ t2)%list. split.
    + rewrite T2, T1. now rewrite app_assoc.
    + apply Forall_app. split; [exact F1|]. now rewrite <- C1.
Qed.

Lemma extends_log (e : event) (st : interp) :
  call_ok (commands st) e -> extends st (log e st).
Proof.
  intros He. split; try reflexivity; [now left|].
  exists [e]. split; [reflexivity | now constructor].
Qed.

Lemma extends_print (st x : interp) (s : string) :
  extends st x -> extends st (print s x).
Proof.
  intros E. apply (extends_trans _ _ _ E). now apply extends_log.
Qed.

Lemma extends_set_variables (st x : interp) (d : store) :
  extends st x -> extends st (set_variables d x).
Proof.
  intros E. apply (extends_trans _ _ _ E).
  split; try reflexivity; [now left|].
  exists []. split; [simpl; now rewrite app_nil_r | constructor].
Qed.

Lemma extends_assign (st x : interp) (k v : value) :
  extends st x -> extends st (assign k v x).
Proof. apply extends_set_variables. Qed.

Lemma extends_set_host (st x : interp) (w : world) :
  extends st x -> extends st (set_host w x).
Proof.
  intros E. apply (extends_trans _ _ _ E).
  split; try reflexivity; [now left|].
  exists []. split; [simpl; now rewrite app_nil_r | constructor].
Qed.

Lemma extends_print_all (l : list string) (st x : interp) :
  extends st x -> extends st (print_all l x).
Proof.
  revert x. induction l as [|s l IH]; intros x E; simpl; [exact E|].
  apply IH. now apply extends_print.
Qed.

Lemma extends_jump (st : interp) (lines : list string) (pc : Z) :
  script_lines st = Some lines ->
  (0 <= pc < Z.of_nat (List.length lines))%Z ->
  extends st (set_program_counter pc st).
Proof.
  intros L P. split; try reflexivity.
  - right. now exists lines.
  - exists []. split; [simpl; now rewrite app_nil_r | constructor].
Qed.

(** Logging keeps the table, whatever is logged. *)
Lemma commands_log (e : event) (st : interp) :
  commands (log e st) = commands st.
Proof. reflexivity. Qed.

Lemma result_ok_trans (st st' : interp) (r : result) :
  extends st st' -> result_ok st' r -> result_ok st r.
Proof.
  intros E. destruct r; simpl; try tauto; now apply extends_trans.
Qed.

End Frame.

Ltac frame :=
  repeat first
    [ apply extends_refl
    | apply extends_print
    | apply extends_assign
    | apply extends_set_variables
    | apply extends_set_host
    | apply extends_print_all ].

Ltac handler_cases :=
  repeat match goal with
         | |- context [match ?x with _ => _ end] => destruct x eqn:?
         end.

Section HandlerFrames.
Context `{Host}.

Lemma handle_logic_gate_ok (in1 in2 out : value) (g : string) (st : interp) :
  result_ok st (handle_logic_gate in1 in2 out g st).
Proof. unfold handle_logic_gate. handler_cases; simpl; frame. Qed.

Lemma handle_arith_ok (a b out : value) (op : string) (st : interp) :
  result_ok st (handle_arith a b out op st).
Proof. unfold handle_arith. handler_cases; simpl; frame. Qed.

Lemma handle_print_ok (flag content_raw : value) (st : interp) :
  result_ok st (handle_print flag content_raw st).
Proof. unfold handle_print. handler_cases; simpl; frame. Qed.

Lemma handle_bool_set_ok (v var : value) (st : interp) :
  result_ok st (handle_bool_set v var st).
Proof. unfold handle_bool_set. handler_cases; simpl; frame. Qed.

Lemma handle_python_ok (code : value) (st : interp) :
  result_ok st (handle_python code st).
Proof. unfold handle_python. handler_cases; simpl; frame. Qed.

Lemma handle_jump_ok (target : value) (st : interp) :
  result_ok st (handle_jump target st).
Proof.
  unfold handle_jump. handler_cases; simpl; frame.
  match goal with
  | E : (_ && _)%bool = true |- _ => apply andb_true_iff in E as [E1 E2]
  end.
  eapply extends_jump; [eassumption|]. lia.
Qed.

Lemma handle_input_ok (var_name : value) (st : interp) :
  result_ok st (handle_input var_name st).
Proof. unfold handle_input. handler_cases; simpl; frame. Qed.

Lemma handle_cd_ok (p : value) (st : interp) :
  result_ok st (handle_cd p st).
Proof. unfold handle_cd. handler_cases; simpl; frame. Qed.

Lemma handle_ls_ok (flag p : value) (st : interp) :
  result_ok st (handle_ls flag p st).
Proof. unfold handle_ls. handler_cases; simpl; frame. Qed.

Lemma handle_network_fetch_ok (args : list value) (st : interp) :
  result_ok st (handle_network_fetch args st).
Proof. unfold handle_network_fetch. handler_cases; simpl; frame. Qed.

Lemma handle_cmp_ok (exec : string -> interp -> result)
  (v1 v2 c b s : value) (st : interp) :
  (forall line x, result_ok x (exec line x)) ->
  result_ok st (handle_cmp exec v1 v2 c b s st).
Proof.
  intros Hexec. unfold handle_cmp.
  handler_cases; simpl; frame; apply Hexec.
Qed.

Lemma call_handler_ok (exec : string -> interp -> result)
  (handler_name : string) (h : handler_id) (args : list value) (st : interp) :
  (forall line x, result_ok x (exec line x)) ->
  result_ok st (call_handler exec handler_name h args st).
Proof.
  intros Hexec.
  destruct h;
    destruct args as [|a1 [|a2 [|a3 [|a4 [|a5 [|a6 [|a7 [|a8 l]]]]]]]];
    cbn [call_handler];
    first [ apply extends_refl
          | apply handle_logic_gate_ok | apply handle_arith_ok
          | apply handle_print_ok | apply handle_bool_set_ok
          | apply handle_python_ok | apply handle_jump_ok
          | apply handle_input_ok | apply handle_cd_ok | apply handle_ls_ok
          | apply handle_network_fetch_ok
          | now apply handle_cmp_ok ].
Qed.

Lemma try_except_ok (cmd : string) (st : interp) (r : result) :
  result_ok st r -> result_ok st (try_except cmd r).
Proof.
  destruct r as [st'|e st'|]; simpl; try tauto.
  intros E. destruct (exn_class e); simpl; now apply extends_print.
Qed.

End HandlerFrames.

(** ** The dispatcher *)

Section Dispatcher.
Context `{Host}.

Lemma execute_line_fuel_classify (fuel : nat) (line : string) (st : interp) :
  execute_line_fuel (S fuel) line st
  = match classify line st with
    | Leaf r => r
    | Invoke cmd handler_name h args st1 =>
        try_except cmd
          (call_handler (execute_line_fuel fuel) handler_name h args
             (log (Call cmd handler_name args) st1))
    end.
Proof.
  unfold execute_line_fuel; fold execute_line_fuel. unfold classify.
  destruct (String.eqb (strip line) ""); [reflexivity|].
  destruct (startswith (strip line) "<" && endswith (strip line) ">").
  - destruct (negb (endswith (strip (split_head hash (strip line))) ">"));
      [reflexivity|].
    destruct (split_once "=" (slice_1_m1 (strip (split_head hash (strip line)))))
      as [[var val]|]; reflexivity.
  - destruct (tokenize (strip line)) as [|tok0 raw_args]; [reflexivity|].
    destruct (cmd_get (upper tok0) (commands st)) as [def|]; [|reflexivity].
    destruct (handler def) as [hname|]; [|reflexivity].
    destruct (handlers_get hname handlers) as [h|]; [|reflexivity].
    destruct (shape (upper tok0) (arg_count def) raw_args (variables st))
      as [warnings [e|args]]; [reflexivity|].
    destruct (negb (List.length args =? arg_count def)%nat); reflexivity.
Qed.

(** A line settled without a handler returns, and adds prints only. *)
Lemma classify_leaf (line : string) (st : interp) (r : result) :
  classify line st = Leaf r ->
  r <> OutOfFuel
  /\ exists st' outs,
       (r = Done st' \/ exists e, r = Raised e st')
       /\ commands st' = commands st
       /\ script_lines st' = script_lines st
       /\ program_counter st' = program_counter st
       /\ trace st' = (trace st ++ map Out outs)%list.
Proof.
  assert (P : forall l x outs,
             commands x = commands st -> script_lines x = script_lines st ->
             program_counter x = program_counter st ->
             trace x = (trace st ++ map Out outs)%list ->
             commands (print_all l x) = commands st
             /\ script_lines (print_all l x) = script_lines st
             /\ program_counter (print_all l x) = program_counter st
             /\ trace (print_all l x) = (trace st ++ map Out (outs ++ l))%list).
  { induction l as [|s l IH]; intros x outs C S P T; simpl.
    - now rewrite app_nil_r.
    - destruct (IH (print s x) (outs ++ [s])%list C S P) as (C' & S' & P' & T').
      + simpl. rewrite T, map_app, app_assoc. reflexivity.
      + repeat split; try assumption. rewrite T', <- app_assoc. reflexivity. }
  assert (E0 : trace st = (trace st ++ map Out [])%list)
    by (simpl; now rewrite app_nil_r).
  assert (Q : forall s, trace (print s st) = (trace st ++ map Out [s])%list)
    by reflexivity.
  unfold classify.
  destruct (String.eqb (strip line) "").
  { intros [= <-]. split; [discriminate|]. exists st, []. auto 10. }
  destruct (startswith (strip line) "<" && endswith (strip line) ">").
  - destruct (negb (endswith (strip (split_head hash (strip line))) ">")).
    { intros [= <-]. split; [discriminate|].
      eexists _, [_]. split; [left; reflexivity|]. auto. }
    destruct (split_once "=" (slice_1_m1 (strip (split_head hash (strip line)))))
      as [[var val]|]; intros [= <-]; (split; [discriminate|]).
    + eexists _, []. split; [left; reflexivity|]. auto.
    + eexists _, [_]. split; [left; reflexivity|]. auto.
  - destruct (tokenize (strip line)) as [|tok0 raw_args].
    { intros [= <-]. split; [discriminate|]. exists st, []. auto 10. }
    destruct (cmd_get (upper tok0) (commands st)) as [def|].
    2:{ intros [= <-]. split; [discriminate|].
        eexists _, [_]. split; [left; reflexivity|]. auto. }
    destruct (handler def) as [hname|].
    2:{ intros [= <-]. split; [discriminate|].
        eexists _, [_]. split; [left; reflexivity|]. auto. }
    destruct (handlers_get hname handlers) as [h|].
    2:{ intros [= <-]. split; [discriminate|].
        eexists _, [_]. split; [left; reflexivity|]. auto. }
    destruct (shape (upper tok0) (arg_count def) raw_args (variables st))
      as [warnings [e|args]].
    { intros [= <-]. split; [discriminate|].
      destruct (P warnings st [] eq_refl eq_refl eq_refl E0) as (C & S & P' & T).
      eexists _, _. split; [right; eexists; reflexivity|].
      repeat split; eassumption. }
    destruct (negb (List.length args =? arg_count def)%nat); [|discriminate].
    intros [= <-]. split; [discriminate|].
    destruct (P warnings st [] eq_refl eq_refl eq_refl E0) as (C & S & P' & T).
    match goal with
    | |- exists st' outs, (Done (print ?m ?x) = _ \/ _) /\ _ =>
        exists (print m x), (warnings ++ [m])%list
    end.
    split; [left; reflexivity|].
    repeat split; try assumption.
    unfold print, log. cbn [trace].
    rewrite T. simpl. rewrite map_app, app_assoc. reflexivity.
Qed.

(** The handler is called for a known command, is the one the command
    declares, and receives as many arguments as the command expects. *)
Lemma classify_invoke (line : string) (st st1 : interp)
  (cmd handler_name : string) (h : handler_id) (args : list value) :
  classify line st = Invoke cmd handler_name h args st1 ->
  exists tok0 raw_args def warnings,
    tokenize (strip line) = tok0 :: raw_args
    /\ cmd = upper tok0
    /\ cmd_get cmd (commands st) = Some def
    /\ handler def = Some handler_name
    /\ handlers_get handler_name handlers = Some h
    /\ shape cmd (arg_count def) raw_args (variables st) = (warnings, inr args)
    /\ List.length args = arg_count def
    /\ st1 = print_all warnings st.
Proof.
  unfold classify.
  destruct (String.eqb (strip line) ""); [discriminate|].
  destruct (startswith (strip line) "<" && endswith (strip line) ">").
  - destruct (negb (endswith (strip (split_head hash (strip line))) ">"));
      [discriminate|].
    destruct (split_once "=" (slice_1_m1 (strip (split_head hash (strip line)))))
      as [[var val]|]; discriminate.
  - destruct (tokenize (strip line)) as [|tok0 raw_args]; [discriminate|].
    destruct (cmd_get (upper tok0) (commands st)) as [def|] eqn:Ec;
      [|discriminate].
    destruct (handler def) as [hname|] eqn:Eh; [|discriminate].
    destruct (handlers_get hname handlers) as [h'|] eqn:Ehh; [|discriminate].
    destruct (shape (upper tok0) (arg_count def) raw_args (variables st))
      as [warnings [e|args']] eqn:Es; [discriminate|].
    destruct (Nat.eqb_spec (List.length args') (arg_count def)) as [El|];
      [|discriminate].
    simpl. intros [= <- <- <- <- <-].
    exists tok0, raw_args, def, warnings. auto 10.
Qed.

Lemma classify_leaf_ok (line : string) (st : interp) (r : result) :
  classify line st = Leaf r -> result_ok st r.
Proof.
  intros E. destruct (classify_leaf line st r E)
    as (_ & st' & outs & Hr & C & S & P & T).
  assert (X : extends st st').
  { split; [exact C | exact S | now left |].
    exists (map Out outs). split; [exact T|].
    clear. induction outs; constructor; [exact I | assumption]. }
  destruct Hr as [->|[e ->]]; exact X.
Qed.

(** Whatever the fuel, the table and the line: what [execute_line] leaves
    behind extends the state it started from. *)
Lemma execute_line_fuel_ok (fuel : nat) :
  forall (line : string) (st : interp),
    result_ok st (execute_line_fuel fuel line st).
Proof.
  induction fuel as [|fuel IH]; intros line st; [exact I|].
  rewrite execute_line_fuel_classify.
  destruct (classify line st) as [r|cmd hname h args st1] eqn:E.
  - exact (classify_leaf_ok line st r E).
  - destruct (classify_invoke _ _ _ _ _ _ _ E)
      as (tok0 & raw_args & def & warnings & _ & _ & Ec & Eh & _ & _ & El & ->).
    apply try_except_ok.
    apply (result_ok_trans st (log (Call cmd hname args) (print_all warnings st))).
    + apply (extends_trans _ (print_all warnings st)).
      * apply extends_print_all, extends_refl.
      * apply extends_log. simpl.
        assert (C : commands (print_all warnings st) = commands st)
          by apply (ext_commands _ _ (extends_print_all warnings st st
                                        (extends_refl st))).
        rewrite C. now exists def.
    + now apply call_handler_ok.
Qed.

Lemma execute_line_ok (line : string) (st : interp) :
  result_ok st (execute_line line st).
Proof. apply execute_line_fuel_ok. Qed.

End Dispatcher.

(** ** Termination of the branch recursion *)

Lemma length_lstrip (s : string) : String.length (lstrip s) <= String.length s.
Proof.
  induction s as [|c r IH]; simpl; [lia|]. destruct (is_space c); simpl; lia.
Qed.

Lemma length_rstrip (s : string) : String.length (rstrip s) <= String.length s.
Proof.
  induction s as [|c r IH]; [simpl; lia|]. rewrite rstrip_cons.
  destruct (rstrip r) as [|x r'].
  - destruct (is_space c); simpl; lia.
  - simpl in *. lia.
Qed.

Lemma length_strip (s : string) : String.length (strip s) <= String.length s.
Proof.
  unfold strip. pose proof (length_rstrip (lstrip s)).
  pose proof (length_lstrip s). lia.
Qed.

Lemma weight_app (a b : list string) : weight (a ++ b) = weight a + weight b.
Proof. induction a as [|x a IH]; simpl; [reflexivity | rewrite IH; lia]. Qed.

Lemma weight_tok_step (st : tok_state) (c : ascii) :
  weight (tokens (tok_step st c)) + String.length (current (tok_step st c))
  <= weight (tokens st) + String.length (current st) + 1.
Proof.
  unfold tok_step, push.
  destruct (escape st); [simpl; rewrite length_append; simpl; lia|].
  destruct (Ascii.eqb c backslash); [simpl; lia|].
  destruct (Ascii.eqb c dquote); [simpl; rewrite length_append; simpl; lia|].
  destruct (Ascii.eqb c " " && negb (in_quotes st));
    [|simpl; rewrite length_append; simpl; lia].
  destruct (current st) as [|x cur] eqn:E; [rewrite E; simpl; lia|].
  simpl. rewrite weight_app. simpl. lia.
Qed.

Lemma weight_tok_loop (line : string) (st : tok_state) :
  weight (tokens (tok_loop line st)) + String.length (current (tok_loop line st))
  <= weight (tokens st) + String.length (current st) + String.length line.
Proof.
  revert st. induction line as [|c r IH]; intros st; simpl; [lia|].
  specialize (IH (tok_step st c)). pose proof (weight_tok_step st c). lia.
Qed.

(** The tokens of a line, with one separator each, fit in the line and
    one more character. *)
Lemma weight_tokenize (line : string) :
  weight (tokenize line) <= String.length line + 1.
Proof.
  unfold tokenize, tok_flush.
  pose proof (weight_tok_loop line tok_init) as W. simpl in W.
  destruct (current (tok_loop line tok_init)) as [|x cur].
  - simpl in W. lia.
  - rewrite weight_app. simpl in *. lia.
Qed.

Lemma weight_skipn (k : nat) (l : list string) : weight (skipn k l) <= weight l.
Proof.
  revert l. induction k as [|k IH]; intros l; simpl; [lia|].
  destruct l as [|x l]; simpl; [lia|]. specialize (IH l). lia.
Qed.

Lemma length_join (l : list string) :
  String.length (join " " l) <= weight l - 1.
Proof.
  unfold join. induction l as [|x l IH]; simpl; [lia|].
  destruct l as [|y l]; [simpl; lia|].
  rewrite length_append. simpl String.length.
  change (String.length x
          + S (String.length (String.concat " " (y :: l)))
          <= String.length x + weight (y :: l) - 0).
  simpl weight in *. lia.
Qed.

Lemma cmd_get_in (k : string) (d : registry) (v : command_def) :
  cmd_get k d = Some v -> In (k, v) d.
Proof.
  induction d as [|[k' v'] d IH]; simpl; [discriminate|].
  destruct (String.eqb_spec k' k) as [->|_].
  - intros [= ->]. now left.
  - intros E. right. exact (IH E).
Qed.

(** In the table of the interpreter only [IF] is wired to the comparison
    handler, and it expects five arguments. *)
Lemma cmp_only_if (cmd : string) (def : command_def) :
  cmd_get cmd parse_SPiD_definition = Some def ->
  handler def = Some "CMP" ->
  cmd = "IF" /\ arg_count def = 5.
Proof.
  intros E Hh. apply cmd_get_in in E.
  assert (F : forallb (fun kv =>
                match handler (snd kv) with
                | Some h => negb (String.eqb h "CMP")
                            || (String.eqb (fst kv) "IF"
                                && (arg_count (snd kv) =? 5)%nat)
                | None => true
                end) parse_SPiD_definition = true) by (vm_compute; reflexivity).
  rewrite forallb_forall in F. specialize (F _ E). simpl in F.
  rewrite Hh in F. simpl in F.
  apply andb_true_iff in F as [F1 F2].
  split; [now apply String.eqb_eq | now apply Nat.eqb_eq].
Qed.

Section Totality.
Context `{Host}.

Lemma handlers_get_cmp (handler_name : string) :
  handlers_get handler_name handlers = Some H_CMP -> handler_name = "CMP".
Proof.
  unfold handlers. cbn [handlers_get].
  repeat match goal with
         | |- context [String.eqb ?a handler_name] =>
             destruct (String.eqb_spec a handler_name) as [<-|_];
               [first [reflexivity | discriminate]|]
         end.
  discriminate.
Qed.

(** Only the comparison handler can run out of fuel, and only inside the
    sub-script it executes. *)
Lemma call_handler_fuel (exec : string -> interp -> result)
  (handler_name : string) (h : handler_id) (args : list value) (st : interp) :
  call_handler exec handler_name h args st = OutOfFuel ->
  h = H_CMP
  /\ exists a b c d s, args = [a; b; c; d; VStr s] /\ exec s st = OutOfFuel.
Proof.
  destruct h;
    destruct args as [|a1 [|a2 [|a3 [|a4 [|a5 [|a6 [|a7 [|a8 l]]]]]]]];
    cbn [call_handler];
    try discriminate;
    try (unfold handle_logic_gate, handle_arith, handle_print,
           handle_bool_set, handle_python, handle_jump, handle_input,
           handle_cd, handle_ls, handle_network_fetch;
         handler_cases; discriminate).
  unfold handle_cmp. handler_cases; try discriminate.
  intros E. split; [reflexivity|]. now exists a1, a2, (VStr s), (VStr s0), s1.
Qed.

(** The sub-script of an [IF] line is made of tokens of the line. *)
Lemma shape_if_script (raw_args : list string) (vars : store)
  (warnings : list string) (a b c d : value) (s : string) :
  shape "IF" 5 raw_args vars = (warnings, inr [a; b; c; d; VStr s]) ->
  s = join " " (skipn 4 raw_args).
Proof.
  unfold shape. simpl String.eqb. cbv iota.
  destruct (List.length raw_args <? 5 - 1)%nat; [discriminate|].
  intros [= _ E].
  change [a; b; c; d; VStr s] with ([a; b; c; d] ++ [VStr s])%list in E.
  apply app_inj_tail in E as [_ [= <-]]. reflexivity.
Qed.

Lemma execute_line_fuel_total (fuel : nat) :
  forall (line : string) (st : interp),
    commands st = parse_SPiD_definition ->
    String.length line <= fuel ->
    execute_line_fuel (S fuel) line st <> OutOfFuel.
Proof.
  induction fuel as [|fuel IH]; intros line st Ht Hl;
    rewrite execute_line_fuel_classify;
    destruct (classify line st) as [r|cmd hname h args st1] eqn:E;
    try exact (proj1 (classify_leaf line st r E)).
  - destruct (classify_invoke _ _ _ _ _ _ _ E)
      as (tok0 & raw_args & _ & _ & Et & _).
    destruct line; [discriminate Et | simpl in Hl; lia].
  - destruct (classify_invoke _ _ _ _ _ _ _ E)
      as (tok0 & raw_args & def & warnings & Et & -> & Ec & Eh & Ehh & Es
          & El & ->).
    intros X.
    destruct (call_handler (execute_line_fuel (S fuel)) hname h args
                (log (Call (upper tok0) hname args) (print_all warnings st)))
      as [x|e x|] eqn:Ecall.
    + discriminate X.
    + simpl in X. destruct (exn_class e); discriminate X.
    + apply call_handler_fuel in Ecall as (-> & a & b & c & d & s & -> & Ef).
      apply handlers_get_cmp in Ehh. subst hname.
      rewrite Ht in Ec. destruct (cmp_only_if _ _ Ec Eh) as [Eif E5].
      rewrite Eif, E5 in Es. apply shape_if_script in Es. subst s.
      revert Ef. apply IH.
      * rewrite commands_log, <- Ht.
        apply (ext_commands st).
        apply extends_print_all, extends_refl.
      * pose proof (length_join (skipn 4 raw_args)) as L1.
        pose proof (weight_skipn 4 raw_args) as L2.
        pose proof (weight_tokenize (strip line)) as L3.
        pose proof (length_strip line) as L4.
        rewrite Et in L3. simpl in L3. lia.
Qed.

(** The comparison handler is the only one that uses the line executor
    it is given, and only on its sub-script. *)
Lemma call_handler_ext (exec1 exec2 : string -> interp -> result)
  (handler_name : string) (h : handler_id) (args : list value) (st : interp) :
  (forall a b c d s,
      h = H_CMP -> args = [a; b; c; d; VStr s] -> exec1 s st = exec2 s st) ->
  call_handler exec1 handler_name h args st
  = call_handler exec2 handler_name h args st.
Proof.
  intros Hs.
  destruct h;
    destruct args as [|a1 [|a2 [|a3 [|a4 [|a5 [|a6 [|a7 [|a8 l]]]]]]]];
    try reflexivity.
  cbn [call_handler]. unfold handle_cmp.
  handler_cases; try reflexivity. eapply Hs; reflexivity.
Qed.

(** More fuel than the length of the line changes nothing: the executor
    that [handle_cmp] is given behaves as [execute_line] itself on the
    sub-script. *)
Lemma execute_line_fuel_stable (n : nat) :
  forall (m : nat) (line : string) (st : interp),
    commands st = parse_SPiD_definition ->
    String.length line <= n -> n <= m ->
    execute_line_fuel (S m) line st = execute_line_fuel (S n) line st.
Proof.
  induction n as [|n IH]; intros m line st Ht Hl Hm;
    rewrite !execute_line_fuel_classify;
    destruct (classify line st) as [r|cmd hname h args st1] eqn:E;
    try reflexivity.
  - destruct (classify_invoke _ _ _ _ _ _ _ E)
      as (tok0 & raw_args & _ & _ & Et & _).
    destruct line; [discriminate Et | simpl in Hl; lia].
  - destruct (classify_invoke _ _ _ _ _ _ _ E)
      as (tok0 & raw_args & def & warnings & Et & -> & Ec & Eh & Ehh & Es
          & El & ->).
    f_equal. apply call_handler_ext. intros a b c d s -> ->.
    apply handlers_get_cmp in Ehh. subst hname.
    rewrite Ht in Ec. destruct (cmp_only_if _ _ Ec Eh) as [Eif E5].
    rewrite Eif, E5 in Es. apply shape_if_script in Es. subst s.
    assert (L : String.length (join " " (skipn 4 raw_args)) <= n).
    { pose proof (length_join (skipn 4 raw_args)) as L1.
      pose proof (weight_skipn 4 raw_args) as L2.
      pose proof (weight_tokenize (strip line)) as L3.
      pose proof (length_strip line) as L4.
      rewrite Et in L3. simpl in L3. lia. }
    destruct m as [|m]; [lia|].
    apply IH; [|exact L | lia].
    rewrite commands_log, <- Ht. apply (ext_commands st).
    apply extends_print_all, extends_refl.
Qed.

Lemma execute_line_fuel_enough (fuel : nat) (line : string) (st : interp) :
  commands st = parse_SPiD_definition ->
  String.length line <= fuel ->
  execute_line_fuel (S fuel) line st = execute_line line st.
Proof.
  intros Ht Hl. unfold execute_line.
  now apply execute_line_fuel_stable.
Qed.

(** [execute_line] returns: the fuel it starts with is never used up. *)
Lemma execute_line_total (line : string) (st : interp) :
  commands st = parse_SPiD_definition ->
  execute_line line st <> OutOfFuel.
Proof.
  intros Ht. now apply execute_line_fuel_total.
Qed.

End Totality.

(** ** Engine *)

Section Engine.
Context `{Host}.

Lemma py_index_nth {A : Type} (l : list A) (i : Z) :
  (0 <= i < Z.of_nat (List.length l))%Z ->
  exists x, py_index l i = Some x /\ nth_error l (Z.to_nat i) = Some x.
Proof.
  intros Hi. unfold py_index.
  replace (0 <=? i)%Z with true by (symmetry; apply Z.leb_le; lia).
  destruct (nth_error l (Z.to_nat i)) as [x|] eqn:E; [now exists x|].
  apply nth_error_None in E. lia.
Qed.

(** One step of the loop keeps the table and the script, extends the
    trace by prints and by calls that agree with the table, and keeps the
    program counter from going below zero. *)
Lemma run_step_frame (lines : list string) (st st' : interp) :
  run_step lines st = Stepped st' ->
  commands st' = commands st
  /\ script_lines st' = script_lines st
  /\ (exists t, trace st' = (trace st ++ t)%list
                /\ Forall (call_ok (commands st)) t)
  /\ ((0 <= program_counter st)%Z -> (0 <= program_counter st')%Z).
Proof.
  unfold run_step.
  destruct (program_counter st <? Z.of_nat (List.length lines))%Z;
    [|discriminate].
  destruct (py_index lines (program_counter st)) as [line|]; [|discriminate].
  set (st1 := print _ st).
  assert (E1 : extends st st1) by (apply extends_print, extends_refl).
  pose proof (execute_line_ok line st1) as Hok.
  destruct (execute_line line st1) as [st2| |]; try discriminate.
  simpl in Hok. pose proof (extends_trans _ _ _ E1 Hok) as [C S P T].
  destruct (Z.eqb_spec (program_counter st2) (program_counter st)) as [Ep|Ep];
    intros [= <-]; (split; [exact C|]); (split; [exact S|]);
    (split; [exact T|]); intros H0.
  - simpl. lia.
  - destruct P as [P|(l & _ & P)]; lia.
Qed.

Lemma reachable_frame (lines : list string) (st0 st : interp) :
  reachable lines st0 st ->
  commands st = commands st0
  /\ script_lines st = script_lines st0
  /\ (exists t, trace st = (trace st0 ++ t)%list
                /\ Forall (call_ok (commands st0)) t)
  /\ ((0 <= program_counter st0)%Z -> (0 <= program_counter st)%Z).
Proof.
  induction 1 as [|st st' R (C & S & (t & T & F) & P) Hs].
  - repeat split; try tauto.
    exists []. split; [now rewrite app_nil_r | constructor].
  - destruct (run_step_frame _ _ _ Hs) as (C' & S' & (t' & T' & F') & P').
    split; [congruence|]. split; [congruence|]. split; [|tauto].
    exists (t ++ t')%list. split.
    + rewrite T', T. now rewrite app_assoc.
    + apply Forall_app. split; [exact F|]. now rewrite <- C.
Qed.

(** The result of a step, by what executing the line does. *)
Lemma run_step_line (lines : list string) (st : interp) (line : string) :
  (0 <= program_counter st < Z.of_nat (List.length lines))%Z ->
  nth_error lines (Z.to_nat (program_counter st)) = Some line ->
  run_step lines st
  = match execute_line line (echo line st) with
    | Done st2 =>
        if (program_counter st2 =? program_counter st)%Z
        then Stepped (set_program_counter (program_counter st + 1) st2)
        else Stepped st2
    | Raised e st2 => Aborted e st2
    | OutOfFuel => Stuck
    end.
Proof.
  intros Hp Hn. unfold run_step, echo.
  replace (program_counter st <? Z.of_nat (List.length lines))%Z with true
    by (symmetry; apply Z.ltb_lt; lia).
  destruct (py_index_nth lines _ Hp) as (x & -> & Hx).
  assert (x = line) by congruence. subst x.
  destruct (execute_line line _) as [st2| |]; try reflexivity.
  destruct (Z.eqb_spec (program_counter st2) (program_counter st)) as [->|];
    reflexivity.
Qed.

(** What [execute_line] does when the argument count is wrong. *)
Lemma classify_argument_error (line : string) (st : interp)
  (tok0 : string) (raw_args : list string) (def : command_def)
  (handler_name : string) (h : handler_id) (warnings : list string)
  (args : list value) :
  is_declaration line = false ->
  tokenize (strip line) = tok0 :: raw_args ->
  cmd_get (upper tok0) (commands st) = Some def ->
  handler def = Some handler_name ->
  handlers_get handler_name handlers = Some h ->
  shape (upper tok0) (arg_count def) raw_args (variables st)
  = (warnings, inr args) ->
  List.length args <> arg_count def ->
  classify line st
  = Leaf (Done (print (argument_error (upper tok0) (arg_count def)
                         (List.length args))
                  (print_all warnings st))).
Proof.
  unfold is_declaration. intros Hd Ht Ec Eh Ehh Es Hl. unfold classify.
  rewrite Hd, Ht, Ec, Eh, Ehh, Es.
  destruct (String.eqb_spec (strip line) "") as [E|_].
  { rewrite E in Ht. discriminate Ht. }
  destruct (Nat.eqb_spec (List.length args) (arg_count def)) as [|_];
    [contradiction | reflexivity].
Qed.

End Engine.

(** C2: when the argument list shaped for a known command with a handler
    does not have as many entries as the command declares, [execute_line]
    prints the argument-count error and returns: no handler is called,
    nothing is bound, the program counter is not moved, and in a script the
    loop goes on with the next line.  And whatever line is executed, on
    whatever table, and whatever lines the loop runs through: each call of
    a handler is for a known command, through the handler it declares,
    with exactly as many arguments as it declares. *)
Theorem argument_count_checked :
  forall (H : Host) (st : interp) (line : string),
    (forall tok0 raw_args def handler_name h warnings args,
        is_declaration line = false ->
        tokenize (strip line) = tok0 :: raw_args ->
        cmd_get (upper tok0) (commands st) = Some def ->
        handler def = Some handler_name ->
        handlers_get handler_name handlers = Some h ->
        shape (upper tok0) (arg_count def) raw_args (variables st)
        = (warnings, inr args) ->
        List.length args <> arg_count def ->
        let report := argument_error (upper tok0) (arg_count def)
                        (List.length args) in
        execute_line line st = Done (print report (print_all warnings st))
        /\ trace (print report (print_all warnings st))
           = (trace st ++ map Out (warnings ++ [report]))%list
        /\ variables (print report (print_all warnings st)) = variables st
        /\ program_counter (print report (print_all warnings st))
           = program_counter st
        /\ forall lines,
             (0 <= program_counter st < Z.of_nat (List.length lines))%Z ->
             nth_error lines (Z.to_nat (program_counter st)) = Some line ->
             run_step lines st
             = Stepped (set_program_counter (program_counter st + 1)
                          (print report (print_all warnings (echo line st)))))
    /\ (forall st',
           execute_line line st = Done st'
           \/ (exists e, execute_line line st = Raised e st') ->
           exists t, trace st' = (trace st ++ t)%list
                     /\ Forall (call_ok (commands st)) t)
    /\ (forall lines st',
           reachable lines st st' ->
           exists t, trace st' = (trace st ++ t)%list
                     /\ Forall (call_ok (commands st)) t).
Proof.
  intros H st line. split; [|split].
  - intros tok0 raw_args def hname h warnings args Hd Ht Ec Eh Ehh Es Hl report.
    assert (E : forall x, variables x = variables st ->
                commands x = commands st ->
                execute_line line x = Done (print report (print_all warnings x))).
    { intros x Vx Cx. unfold execute_line.
      rewrite execute_line_fuel_classify.
      rewrite (classify_argument_error line x tok0 raw_args def hname h
                 warnings args); try assumption; try reflexivity.
      - now rewrite Cx.
      - now rewrite Vx. }
    assert (F : forall x,
              variables (print report (print_all warnings x)) = variables x
              /\ program_counter (print report (print_all warnings x))
                 = program_counter x
              /\ trace (print report (print_all warnings x))
                 = (trace x ++ map Out (warnings ++ [report]))%list).
    { clear. intros x. revert x.
      induction warnings as [|w ws IH]; intros x; [now repeat split|].
      destruct (IH (print w x)) as (V & P & T). simpl print_all.
      rewrite V, P, T. repeat split. simpl. now rewrite <- app_assoc. }
    destruct (F st) as (V & P & T).
    split; [now apply E|]. split; [exact T|]. split; [exact V|].
    split; [exact P|].
    intros lines Hp Hn. rewrite (run_step_line lines st line Hp Hn).
    rewrite (E (echo line st) eq_refl eq_refl).
    destruct (F (echo line st)) as (_ & P' & _). rewrite P'.
    simpl program_counter. now rewrite Z.eqb_refl.
  - intros st' Hr. pose proof (execute_line_ok line st) as Hok.
    destruct Hr as [Hr|[e Hr]]; rewrite Hr in Hok; exact (ext_trace _ _ Hok).
  - intros lines st' R.
    exact (proj1 (proj2 (proj2 (reachable_frame lines st st' R)))).
Qed.

Lemma argument_count_checked_witness :
  execute_line "ADD 1 2" (fresh (Some ["ADD 1 2"; "PRINT 1 next"]))
  = Done (print (argument_error "ADD" 3 2)
            (fresh (Some ["ADD 1 2"; "PRINT 1 next"])))
  /\ run_step ["ADD 1 2"; "PRINT 1 next"]
       (fresh (Some ["ADD 1 2"; "PRINT 1 next"]))
     = Stepped (set_program_counter 1
                  (print (argument_error "ADD" 3 2)
                     (echo "ADD 1 2"
                        (fresh (Some ["ADD 1 2"; "PRINT 1 next"]))))).
Proof.
  pose (st := fresh (Some ["ADD 1 2"; "PRINT 1 next"])).
  assert (Hd : is_declaration "ADD 1 2" = false) by (vm_compute; reflexivity).
  assert (Ht : tokenize (strip "ADD 1 2") = ["ADD"; "1"; "2"])
    by (vm_compute; reflexivity).
  assert (Ec : cmd_get (upper "ADD") (commands st)
               = Some (CommandDef "(VAR,VAL) (VAR,VAL) (VAR)"
                         (Some "ARITH_ADD") 3))
    by (vm_compute; reflexivity).
  assert (Ehh : handlers_get "ARITH_ADD" handlers = Some H_ARITH_ADD)
    by (vm_compute; reflexivity).
  assert (Es : shape (upper "ADD") 3 ["1"; "2"] (variables st)
               = ([], inr [VNum 1%float; VNum 2%float]))
    by (vm_compute; reflexivity).
  assert (Hl : List.length [VNum 1%float; VNum 2%float] <> 3)
    by (simpl; lia).
  destruct (proj1 (argument_count_checked sample st "ADD 1 2")
              "ADD" ["1"; "2"] _ "ARITH_ADD" H_ARITH_ADD []
              [VNum 1%float; VNum 2%float] Hd Ht Ec eq_refl Ehh Es Hl)
    as (E & _ & _ & _ & R).
  split; [exact E|].
  apply (R ["ADD 1 2"; "PRINT 1 next"]); [simpl; lia | reflexivity].
Defined.

(** ** Jump *)

Section Jump.
Context `{Host}.

Lemma to_int_literal (f : float) (z : Z) :
  match Prim2SF f with
  | S754_finite sign m e =>
      (if sign then (- Z.shiftl (Zpos m) e)%Z else Z.shiftl (Zpos m) e) = z
  | _ => False
  end ->
  to_int (VNum f) = inr z.
Proof.
  unfold to_int. destruct (Prim2SF f); try contradiction. now intros ->.
Qed.

Lemma parse_value_literal (vars : store) (token : string) (f : float) :
  startswith token DQ = false ->
  py_float token = Some f ->
  parse_value vars token = VNum f.
Proof.
  intros Hq Hf. unfold parse_value. now rewrite Hq, Hf.
Qed.

(** A [JUMP] line with one plain token as its target reaches the jump
    handler with the value of that token. *)
Lemma classify_jump (st : interp) (line target : string) :
  commands st = parse_SPiD_definition ->
  is_declaration line = false ->
  tokenize (strip line) = ["JUMP"; target] ->
  classify line st
  = Invoke "JUMP" "JUMP_CMD" H_JUMP_CMD
      [parse_value (variables st) target] st.
Proof.
  unfold is_declaration. intros Ht Hd Hk. unfold classify.
  rewrite Hd, Hk, Ht.
  destruct (String.eqb_spec (strip line) "") as [E|_].
  { rewrite E in Hk. discriminate Hk. }
  reflexivity.
Qed.

Lemma execute_line_jump (st : interp) (line target : string) :
  commands st = parse_SPiD_definition ->
  is_declaration line = false ->
  tokenize (strip line) = ["JUMP"; target] ->
  execute_line line st
  = handle_jump (parse_value (variables st) target)
      (log (Call "JUMP" "JUMP_CMD" [parse_value (variables st) target]) st).
Proof.
  intros Ht Hd Hk. unfold execute_line.
  rewrite execute_line_fuel_classify, (classify_jump st line target Ht Hd Hk).
  cbn [call_handler].
  pose proof (handle_jump_ok (parse_value (variables st) target)
                (log (Call "JUMP" "JUMP_CMD"
                        [parse_value (variables st) target]) st)) as Hok.
  unfold handle_jump in *.
  destruct (to_int (parse_value (variables st) target)) as [e|t].
  - destruct (exn_class e); reflexivity.
  - cbn [script_lines log].
    destruct (script_lines st) as [lines|]; [|reflexivity].
    destruct ((0 <=? t - 1)%Z && (t - 1 <? Z.of_nat (List.length lines))%Z);
      reflexivity.
Qed.

End Jump.

(** C3, as stated: [JUMP 1] on the first line of a script.  The handler
    sets the program counter to 0, the value it had before the step, so
    the engine advances it: the next step executes the second line, not
    the first.  The same line as third line of the script does take the
    run back to the first line. *)
Lemma jump_to_own_line_advances :
  nth_error jump_script 0 = Some "JUMP 1"
  /\ jump_run 1 = Some (1%Z, ["[1] SPiD> JUMP 1"])
  /\ jump_run 1 <> Some (0%Z, ["[1] SPiD> JUMP 1"])
  /\ jump_run 2
     = Some (2%Z, ["[1] SPiD> JUMP 1"; "[2] SPiD> PRINT 1 a"; "a"])
  /\ jump_run 3
     = Some (0%Z, ["[1] SPiD> JUMP 1"; "[2] SPiD> PRINT 1 a"; "a";
                   "[3] SPiD> JUMP 1"]).
Proof.
  split; [reflexivity|].
  split; [vm_compute; reflexivity|].
  split; [vm_compute; discriminate|].
  split; vm_compute; reflexivity.
Qed.

(** C3, amended: the jump handler, given a target that converts to an
    integer [t] with a script loaded and [0 <= t-1 < len(Script)], sets
    the program counter to [t-1]; when the target does not convert, when
    no script is loaded, or when [t-1] is outside that range, it prints a
    report and leaves the program counter as it was, and the engine then
    advances it.  [JUMP 1] executed on any line but the first makes the
    next step execute the first line; executed on the first line it leaves
    the counter at the value it had before the step, so the engine
    advances to the second line.  The host is one on which [float] reads
    the literals [1] and [999] as Python's does. *)
Theorem jump_handler :
  forall (H : Host) (st : interp) (target : value),
    (forall t lines,
        to_int target = inr t ->
        script_lines st = Some lines ->
        (0 <= t - 1 < Z.of_nat (List.length lines))%Z ->
        handle_jump target st = Done (set_program_counter (t - 1) st)
        /\ program_counter (set_program_counter (t - 1) st) = (t - 1)%Z)
    /\ ((exists e, to_int target = inl e)
        \/ script_lines st = None
        \/ (exists t lines,
               to_int target = inr t /\ script_lines st = Some lines
               /\ ~ (0 <= t - 1 < Z.of_nat (List.length lines))%Z) ->
        exists report,
          handle_jump target st = Done (print report st)
          /\ program_counter (print report st) = program_counter st)
    /\ (forall lines,
           commands st = parse_SPiD_definition ->
           script_lines st = Some lines ->
           (0 <= program_counter st < Z.of_nat (List.length lines))%Z ->
           (py_float "1" = Some 1%float ->
            nth_error lines (Z.to_nat (program_counter st)) = Some "JUMP 1" ->
            exists st',
              run_step lines st = Stepped st'
              /\ program_counter st'
                 = (if (program_counter st =? 0)%Z then 1 else 0)%Z)
           /\ (py_float "999" = Some 999%float ->
               (List.length lines < 999)%nat ->
               nth_error lines (Z.to_nat (program_counter st))
               = Some "JUMP 999" ->
               exists st',
                 run_step lines st = Stepped st'
                 /\ program_counter st' = (program_counter st + 1)%Z
                 /\ printed (trace st')
                    = (printed (trace st)
                       ++ [echo_text "JUMP 999" st;
                           "JUMP error: Target line 999 is out of bounds."])%list)).
Proof.
  intros H st target. split; [|split].
  - intros t lines Et El Hr. split; [|reflexivity].
    unfold handle_jump. rewrite Et, El.
    replace (0 <=? t - 1)%Z with true by (symmetry; apply Z.leb_le; lia).
    replace (t - 1 <? Z.of_nat (List.length lines))%Z with true
      by (symmetry; apply Z.ltb_lt; lia).
    reflexivity.
  - intros Hc. unfold handle_jump.
    destruct (to_int target) as [e|t] eqn:Et.
    + destruct (exn_class e); eexists; split; reflexivity.
    + destruct (script_lines st) as [lines|] eqn:El;
        [|eexists; split; reflexivity].
      destruct Hc as [[e Hc]|[Hc|(t' & lines' & [= <-] & [= <-] & Hc)]];
        try discriminate.
      destruct ((0 <=? t - 1)%Z && (t - 1 <? Z.of_nat (List.length lines))%Z)
        eqn:Eb; [|eexists; split; reflexivity].
      apply andb_true_iff in Eb as [E1 E2].
      apply Z.leb_le in E1. apply Z.ltb_lt in E2. lia.
  - intros lines Ht El Hp. split.
    + intros Hf Hn.
      rewrite (run_step_line lines st "JUMP 1" Hp Hn).
      rewrite (execute_line_jump (echo "JUMP 1" st) "JUMP 1" "1" Ht
                 eq_refl eq_refl).
      rewrite (parse_value_literal _ "1" 1%float eq_refl Hf).
      unfold handle_jump.
      rewrite (to_int_literal 1%float 1%Z) by (vm_compute; reflexivity).
      cbn [script_lines log echo print]. rewrite El.
      replace (0 <=? 1 - 1)%Z with true by reflexivity.
      replace (1 - 1 <? Z.of_nat (List.length lines))%Z with true
        by (symmetry; apply Z.ltb_lt; lia).
      cbn [andb program_counter set_program_counter].
      change (1 - 1)%Z with 0%Z. rewrite (Z.eqb_sym 0).
      destruct (Z.eqb_spec (program_counter st) 0) as [E0|E0];
        eexists; (split; [reflexivity|]);
        cbn [program_counter set_program_counter];
        [rewrite E0|]; reflexivity.
    + intros Hf Hlen Hn.
      rewrite (run_step_line lines st "JUMP 999" Hp Hn).
      rewrite (execute_line_jump (echo "JUMP 999" st) "JUMP 999" "999" Ht
                 eq_refl eq_refl).
      rewrite (parse_value_literal _ "999" 999%float eq_refl Hf).
      unfold handle_jump.
      rewrite (to_int_literal 999%float 999%Z) by (vm_compute; reflexivity).
      cbn [script_lines log echo print]. rewrite El.
      replace (999 - 1 <? Z.of_nat (List.length lines))%Z with false
        by (symmetry; apply Z.ltb_ge; lia).
      rewrite andb_false_r.
      cbn [program_counter log]. rewrite Z.eqb_refl.
      eexists. split; [reflexivity|]. split; [reflexivity|].
      unfold set_program_counter, print, echo, print, log. cbn [trace].
      unfold printed. rewrite !flat_map_app. cbn [flat_map app].
      rewrite <- !app_assoc. reflexivity.
Qed.

Lemma jump_handler_witness :
  handle_jump (VNum 3%float) (fresh (Some jump_script))
  = Done (set_program_counter 2 (fresh (Some jump_script)))
  /\ (exists report,
         handle_jump (VStr "x") (fresh (Some jump_script))
         = Done (print report (fresh (Some jump_script))))
  /\ (exists st',
         run_step jump_script (set_program_counter 2 (fresh (Some jump_script)))
         = Stepped st'
         /\ program_counter st' = 0%Z).
Proof.
  split; [|split].
  - refine (proj1 (proj1 (jump_handler sample (fresh (Some jump_script))
                            (VNum 3%float)) 3%Z jump_script _ eq_refl _)).
    + vm_compute. reflexivity.
    + simpl. lia.
  - destruct (proj1 (proj2 (jump_handler sample (fresh (Some jump_script))
                              (VStr "x")))) as (report & E & _).
    + left. eexists. vm_compute. reflexivity.
    + now exists report.
  - assert (Hp : (0 <= program_counter
                        (set_program_counter 2 (fresh (Some jump_script)))
                  < Z.of_nat (List.length jump_script))%Z)
      by (simpl; lia).
    destruct (proj1 (proj2 (proj2 (jump_handler sample
                (set_program_counter 2 (fresh (Some jump_script)))
                (VNum 1%float))) jump_script eq_refl eq_refl Hp)
              eq_refl eq_refl) as (st' & E & P).
    exists st'. split; [exact E | exact P].
Defined.

(** * Further properties *)

(** ** Tokenizer *)

Lemma tok_loop_append (a b : string) (st : tok_state) :
  tok_loop (a ++ b) st = tok_loop b (tok_loop a st).
Proof.
  revert st. induction a as [|c a IH]; intros st; simpl; [reflexivity|].
  apply IH.
Qed.

Lemma tok_step_nonempty (st : tok_state) (c : ascii) :
  Forall (fun t => t <> EmptyString) (tokens st) ->
  Forall (fun t => t <> EmptyString) (tokens (tok_step st c)).
Proof.
  intros F. unfold tok_step.
  destruct (escape st); [exact F|].
  destruct (Ascii.eqb c backslash); [exact F|].
  destruct (Ascii.eqb c dquote); [exact F|].
  destruct (Ascii.eqb c " " && negb (in_quotes st)); [|exact F].
  destruct (current st) as [|x cur]; [exact F|]. simpl.
  apply Forall_app. split; [exact F|]. constructor; [discriminate|constructor].
Qed.

Lemma tok_loop_nonempty (line : string) (st : tok_state) :
  Forall (fun t => t <> EmptyString) (tokens st) ->
  Forall (fun t => t <> EmptyString) (tokens (tok_loop line st)).
Proof.
  revert st. induction line as [|c r IH]; intros st F; simpl; [exact F|].
  apply IH, tok_step_nonempty, F.
Qed.

Lemma tok_loop_blanks (s : string) (toks : list string) :
  all_chars blank_char s = true ->
  tok_loop s (TokState toks "" false false) = TokState toks "" false false.
Proof.
  induction s as [|c s IH]; simpl; [reflexivity|]. intros Hs.
  apply andb_true_iff in Hs as [Hc Hs]. unfold blank_char in Hc.
  apply Ascii.eqb_eq in Hc. subst c. exact (IH Hs).
Qed.

(** X1: no token is the empty text, so the command name of a line is
    never empty; and a line made of blanks has no tokens at all. *)
Theorem tokens_not_empty :
  forall (line : string),
    Forall (fun t => t <> EmptyString) (tokenize line)
    /\ (all_chars blank_char line = true -> tokenize line = []).
Proof.
  intros line. split.
  - unfold tokenize, tok_flush.
    pose proof (tok_loop_nonempty line tok_init (Forall_nil _)) as F.
    destruct (current (tok_loop line tok_init)) as [|x cur]; [exact F|].
    apply Forall_app. split; [exact F|].
    constructor; [discriminate|constructor].
  - intros Hb. unfold tokenize, tok_init. now rewrite tok_loop_blanks.
Qed.

Lemma tokens_not_empty_witness :
  tokenize "     " = [].
Proof.
  exact (proj2 (tokens_not_empty "     ") eq_refl).
Defined.

Lemma tok_loop_plain (w : string) (toks : list string) (cur : string)
  (q : bool) :
  all_chars plain_char w = true ->
  tok_loop w (TokState toks cur q false) = TokState toks (cur ++ w) q false.
Proof.
  revert cur. induction w as [|c w IH]; intros cur Hw; simpl.
  - now rewrite append_empty_r.
  - apply andb_true_iff in Hw as [Hc Hw]. unfold plain_char in Hc.
    apply andb_true_iff in Hc as [Hc Hb]. apply andb_true_iff in Hc as [Hs Hq].
    apply negb_true_iff in Hs, Hq, Hb.
    unfold tok_step. cbn [escape]. rewrite Hb, Hq, Hs. cbn [andb].
    cbn [tokens current in_quotes]. rewrite IH by exact Hw.
    unfold push. rewrite append_assoc_s. reflexivity.
Qed.

Lemma tokenize_words_from (ws toks : list string) :
  forallb plain_word ws = true ->
  tok_flush (tok_loop (join " " ws) (TokState toks "" false false))
  = (toks ++ ws)%list.
Proof.
  revert toks. unfold join. induction ws as [|w ws IH]; intros toks Hw.
  - simpl. now rewrite app_nil_r.
  - simpl in Hw. apply andb_true_iff in Hw as [Hp Hws].
    unfold plain_word in Hp. apply andb_true_iff in Hp as [Hne Hp].
    destruct ws as [|w' ws'].
    + cbn [String.concat]. rewrite (tok_loop_plain w toks "" false Hp).
      unfold tok_flush. simpl. destruct w; [discriminate|reflexivity].
    + change (String.concat " " (w :: w' :: ws'))
        with (w ++ String " " (String.concat " " (w' :: ws'))).
      rewrite tok_loop_append, (tok_loop_plain w toks "" false Hp).
      destruct w as [|c w]; [discriminate|].
      change (tok_loop (String " " (String.concat " " (w' :: ws')))
                (TokState toks ("" ++ String c w) false false))
        with (tok_loop (String.concat " " (w' :: ws'))
                (TokState (toks ++ [String c w]) "" false false)).
      rewrite (IH (toks ++ [String c w])%list Hws).
      now rewrite <- app_assoc.
Qed.

(** X2: words joined by single blanks are the tokens of the joined line,
    when no word is empty or holds a blank, a quote or a backslash. *)
Theorem tokenize_join_words :
  forall (ws : list string),
    forallb plain_word ws = true ->
    tokenize (join " " ws) = ws.
Proof.
  intros ws Hw. unfold tokenize, tok_init.
  now rewrite (tokenize_words_from ws [] Hw).
Qed.

Lemma tokenize_join_words_witness :
  tokenize (join " " ["ADD"; "2"; "3.5"; "X_1"]) = ["ADD"; "2"; "3.5"; "X_1"].
Proof.
  exact (tokenize_join_words ["ADD"; "2"; "3.5"; "X_1"] eq_refl).
Defined.

Lemma tok_loop_quotable (s : string) (toks : list string) (cur : string) :
  all_chars quotable_char s = true ->
  tok_loop s (TokState toks cur true false)
  = TokState toks (cur ++ s) true false.
Proof.
  revert cur. induction s as [|c s IH]; intros cur Hs; simpl.
  - now rewrite append_empty_r.
  - apply andb_true_iff in Hs as [Hc Hs]. unfold quotable_char in Hc.
    apply andb_true_iff in Hc as [Hq Hb]. apply negb_true_iff in Hq, Hb.
    unfold tok_step. cbn [escape in_quotes]. rewrite Hb, Hq.
    rewrite andb_false_r. cbn [tokens current].
    rewrite IH by exact Hs. unfold push. rewrite append_assoc_s. reflexivity.
Qed.

(** A quoted text met between tokens becomes the token under
    construction, quotes included, blanks kept. *)
Lemma tok_loop_quoted (s : string) (toks : list string) :
  all_chars quotable_char s = true ->
  tok_loop (DQ ++ s ++ DQ) (TokState toks "" false false)
  = TokState toks (DQ ++ s ++ DQ) false false.
Proof.
  intros Hs. change (DQ ++ s ++ DQ) with (String dquote (s ++ DQ)).
  cbn [tok_loop]. unfold tok_step at 1. cbn.
  rewrite tok_loop_append, (tok_loop_quotable s toks _ Hs).
  reflexivity.
Qed.

(** X3: a text between two double quotes that holds no quote and no
    backslash is one token, with its quotes and with every blank of the
    text in place. *)
Theorem tokenize_quoted :
  forall (s : string),
    all_chars quotable_char s = true ->
    tokenize (DQ ++ s ++ DQ) = [DQ ++ s ++ DQ].
Proof.
  intros s Hs. unfold tokenize, tok_init. now rewrite tok_loop_quoted.
Qed.

Lemma tokenize_quoted_witness :
  tokenize (DQ ++ "two  blanks, and a #" ++ DQ)
  = [DQ ++ "two  blanks, and a #" ++ DQ].
Proof.
  exact (tokenize_quoted "two  blanks, and a #" eq_refl).
Defined.

(** ** Lines that reach a handler *)

Section Commands.
Context `{Host}.

Lemma classify_command (line : string) (st : interp)
  (tok0 : string) (raw_args : list string) (def : command_def)
  (handler_name : string) (h : handler_id) (warnings : list string)
  (args : list value) :
  is_declaration line = false ->
  tokenize (strip line) = tok0 :: raw_args ->
  cmd_get (upper tok0) (commands st) = Some def ->
  handler def = Some handler_name ->
  handlers_get handler_name handlers = Some h ->
  shape (upper tok0) (arg_count def) raw_args (variables st)
  = (warnings, inr args) ->
  List.length args = arg_count def ->
  classify line st
  = Invoke (upper tok0) handler_name h args (print_all warnings st).
Proof.
  unfold is_declaration. intros Hd Ht Ec Eh Ehh Es Hl. unfold classify.
  rewrite Hd, Ht, Ec, Eh, Ehh, Es.
  destruct (String.eqb_spec (strip line) "") as [E|_].
  { rewrite E in Ht. discriminate Ht. }
  rewrite Hl, Nat.eqb_refl. reflexivity.
Qed.

Lemma unquote_quoted (s : string) : unquote (DQ ++ s ++ DQ) = s.
Proof.
  unfold unquote.
  change (DQ ++ s ++ DQ) with (String dquote (s ++ String dquote "")).
  assert (A : startswith (String dquote (s ++ String dquote "")) DQ = true)
    by (unfold DQ; rewrite startswith_char; apply Ascii.eqb_refl).
  assert (B : endswith (String dquote (s ++ String dquote "")) DQ = true)
    by (apply (endswith_char (String dquote s) dquote dquote)).
  rewrite A, B. apply slice_1_m1_wrapped.
Qed.

Lemma print_text_line_tokens (s : string) :
  all_chars quotable_char s = true ->
  strip (print_text_line s) = print_text_line s
  /\ is_declaration (print_text_line s) = false
  /\ tokenize (print_text_line s) = ["PRINT"; "1"; DQ ++ s ++ DQ].
Proof.
  intros Hs.
  assert (E : strip (print_text_line s) = print_text_line s).
  { apply (strip_same _ ("PRINT 1 " ++ DQ ++ s) ("RINT 1 " ++ DQ ++ s ++ DQ)
             "P" dquote); try reflexivity.
    all: unfold print_text_line; simpl; rewrite !append_assoc_s; reflexivity. }
  split; [exact E|]. split.
  - unfold is_declaration. rewrite E. reflexivity.
  - unfold print_text_line.
    change ("PRINT 1 " ++ DQ ++ s ++ DQ) with ("PRINT 1 " ++ (DQ ++ s ++ DQ)).
    unfold tokenize. rewrite tok_loop_append.
    change (tok_loop "PRINT 1 " tok_init)
      with (TokState ["PRINT"; "1"] "" false false).
    rewrite (tok_loop_quoted s _ Hs). reflexivity.
Qed.

End Commands.

(** X4: on the table of the interpreter, [PRINT 1] followed by a text
    between double quotes prints exactly that text, blanks and all, and
    changes nothing else, whatever the text holds besides quotes and
    backslashes.  The host reads the literal [1] as Python's [float]
    does. *)
Theorem print_quoted_text :
  forall (H : Host) (st : interp) (s : string),
    commands st = parse_SPiD_definition ->
    py_float "1" = Some 1%float ->
    all_chars quotable_char s = true ->
    execute_line (print_text_line s) st
    = Done (print s
              (log (Call "PRINT" "PRINT_CMD" [VNum 1%float; VStr (DQ ++ s ++ DQ)])
                 st))
    /\ printed (trace (print s
                  (log (Call "PRINT" "PRINT_CMD"
                          [VNum 1%float; VStr (DQ ++ s ++ DQ)]) st)))
       = (printed (trace st) ++ [s])%list.
Proof.
  intros H st s Ht Hf Hs.
  destruct (print_text_line_tokens s Hs) as (E & Hd & Hk).
  split.
  - unfold execute_line. rewrite execute_line_fuel_classify.
    rewrite (classify_command (print_text_line s) st "PRINT"
               ["1"; DQ ++ s ++ DQ]
               (CommandDef "(1,0) (VAR,TXT)" (Some "PRINT_CMD") 2)
               "PRINT_CMD" H_PRINT_CMD []
               [VNum 1%float; VStr (DQ ++ s ++ DQ)]); try reflexivity;
      try assumption.
    + cbn [print_all fold_left call_handler]. unfold handle_print.
      rewrite (to_int_literal 1%float 1%Z) by (vm_compute; reflexivity).
      cbn [Z.eqb Pos.eqb]. cbv iota. rewrite unquote_quoted. reflexivity.
    + now rewrite E.
    + rewrite Ht. reflexivity.
    + change (upper "PRINT") with "PRINT". unfold shape.
      change (String.eqb "PRINT" "PRINT") with true. cbv iota.
      rewrite (parse_value_literal _ "1" 1%float eq_refl Hf).
      rewrite (to_int_literal 1%float 1%Z) by (vm_compute; reflexivity).
      reflexivity.
  - unfold print, log. cbn [trace]. unfold printed.
    rewrite !flat_map_app. cbn [flat_map app]. now rewrite app_nil_r.
Qed.

Lemma print_quoted_text_witness :
  printed_by (execute_line (print_text_line "a  b # c") (fresh None))
  = Some ["a  b # c"].
Proof.
  rewrite (proj1 (print_quoted_text sample (fresh None) "a  b # c"
                    eq_refl eq_refl eq_refl)).
  reflexivity.
Defined.

(** ** Declarations *)

Lemma dict_get_set_other_text (a b : string) (v : value) (d : store) :
  a <> b -> dict_get (VStr a) (dict_set (VStr b) v d) = dict_get (VStr a) d.
Proof.
  intros Hab.
  assert (X : key_eqb (VStr b) (VStr a) = false)
    by (apply String.eqb_neq; congruence).
  induction d as [|[k' v'] d IH]; cbn [dict_get dict_set].
  - now rewrite X.
  - destruct (key_eqb k' (VStr b)) eqn:Eb; cbn [dict_get].
    + destruct k' as [f|s]; [discriminate Eb|]. simpl in Eb.
      apply String.eqb_eq in Eb. subst s. now rewrite X.
    + now rewrite IH.
Qed.

Lemma dict_set_twice (k v : value) (d : store) :
  key_eqb k k = true -> dict_set k v (dict_set k v d) = dict_set k v d.
Proof.
  intros Hk. induction d as [|[k' v'] d IH]; simpl.
  - now rewrite Hk.
  - destruct (key_eqb k' k) eqn:E; simpl; rewrite E; [reflexivity|].
    now rewrite IH.
Qed.

Section DeclarationBinding.
Context `{Host}.

(** Resolving a token again after its value was bound to a name gives
    the same value, also when the token is that very name. *)
Lemma parse_value_after_bind (d : store) (x t : string) :
  parse_value (dict_set (VStr x) (parse_value d t) d) t = parse_value d t.
Proof.
  unfold parse_value.
  destruct (startswith t DQ && endswith t DQ); [reflexivity|].
  destruct (py_float t); [reflexivity|].
  destruct (String.eqb t "0"); [reflexivity|].
  destruct (String.eqb t "1"); [reflexivity|].
  destruct (String.eqb (upper t) "NULL"); [reflexivity|].
  destruct (String.eqb_spec t x) as [->|Hn].
  - rewrite dict_get_set_same by apply key_eqb_text_refl. reflexivity.
  - rewrite dict_get_set_other_text by exact Hn.
    destruct (dict_get (VStr t) d); reflexivity.
Qed.

End DeclarationBinding.

(** X5: a well-formed declaration binds the stripped name to the resolved
    right-hand side: the name then reads as that value, every other text
    name reads as before, nothing is printed, and executing the same line
    again changes nothing, also when the right-hand side names the
    variable being declared. *)
Theorem declaration_binds_once :
  forall (H : Host) (st : interp) (line var val : string),
    is_declaration line = true ->
    endswith (clean_line line) ">" = true ->
    split_once "=" (slice_1_m1 (clean_line line)) = Some (var, val) ->
    let st' := assign (VStr (strip var))
                 (parse_value (variables st) (strip val)) st in
    execute_line line st = Done st'
    /\ dict_get (VStr (strip var)) (variables st')
       = Some (parse_value (variables st) (strip val))
    /\ (forall other,
           other <> strip var ->
           dict_get (VStr other) (variables st')
           = dict_get (VStr other) (variables st))
    /\ trace st' = trace st
    /\ execute_line line st' = Done st'.
Proof.
  intros H st line var val Hd He Hs st'.
  assert (E : forall x, execute_line line x
                = Done (assign (VStr (strip var))
                          (parse_value (variables x) (strip val)) x)).
  { intros x. unfold execute_line.
    rewrite (execute_line_declaration _ line x Hd), He, Hs. reflexivity. }
  split; [apply E|]. split.
  { apply dict_get_set_same, key_eqb_text_refl. }
  split.
  { intros other Ho. now apply dict_get_set_other_text. }
  split; [reflexivity|].
  rewrite E. f_equal. subst st'. unfold assign, set_variables.
  cbn [variables host commands script_lines program_counter trace].
  rewrite parse_value_after_bind, dict_set_twice by apply key_eqb_text_refl.
  reflexivity.
Qed.

Lemma declaration_binds_once_witness :
  execute_line "< X = X >" (fresh None)
  = Done (assign (VStr "X") (VStr "X") (fresh None))
  /\ execute_line "< X = X >" (assign (VStr "X") (VStr "X") (fresh None))
     = Done (assign (VStr "X") (VStr "X") (fresh None)).
Proof.
  assert (Hd : is_declaration "< X = X >" = true) by (vm_compute; reflexivity).
  assert (He : endswith (clean_line "< X = X >") ">" = true)
    by (vm_compute; reflexivity).
  assert (Hs : split_once "=" (slice_1_m1 (clean_line "< X = X >"))
               = Some (" X ", " X ")) by (vm_compute; reflexivity).
  destruct (declaration_binds_once sample (fresh None) "< X = X >" " X " " X "
              Hd He Hs) as (E1 & _ & _ & _ & E2).
  split; [exact E1 | exact E2].
Defined.

(** ** Commands by name *)

Section CommandNames.
Context `{Host}.

(** The sub-script that reaches the comparison handler is shorter than
    the line, and the table is the same when it is executed. *)
Lemma invoke_cmp_script (line : string) (st st1 : interp)
  (cmd handler_name : string) (a b c d : value) (s : string) :
  commands st = parse_SPiD_definition ->
  classify line st = Invoke cmd handler_name H_CMP [a; b; c; d; VStr s] st1 ->
  String.length s < String.length line
  /\ commands (log (Call cmd handler_name [a; b; c; d; VStr s]) st1)
     = parse_SPiD_definition.
Proof.
  intros Ht E.
  destruct (classify_invoke _ _ _ _ _ _ _ E)
    as (tok0 & raw_args & def & warnings & Et & -> & Ec & Eh & Ehh & Es
        & El & ->).
  apply handlers_get_cmp in Ehh. subst handler_name.
  rewrite Ht in Ec. destruct (cmp_only_if _ _ Ec Eh) as [Eif E5].
  rewrite Eif, E5 in Es. apply shape_if_script in Es. subst s. split.
  - pose proof (length_join (skipn 4 raw_args)) as L1.
    pose proof (weight_skipn 4 raw_args) as L2.
    pose proof (weight_tokenize (strip line)) as L3.
    pose proof (length_strip line) as L4.
    assert (L5 : 1 <= String.length (strip line)).
    { destruct (strip line); [discriminate Et | simpl; lia]. }
    rewrite Et in L3. simpl in L3. lia.
  - rewrite commands_log, <- Ht. apply (ext_commands st).
    apply extends_print_all, extends_refl.
Qed.

(** [execute_line] as the source has it, the handler being given
    [execute_line] itself to execute a sub-script. *)
Lemma execute_line_unfold (line : string) (st : interp) :
  commands st = parse_SPiD_definition ->
  execute_line line st
  = match classify line st with
    | Leaf r => r
    | Invoke cmd handler_name h args st1 =>
        try_except cmd
          (call_handler execute_line handler_name h args
             (log (Call cmd handler_name args) st1))
    end.
Proof.
  intros Ht. unfold execute_line at 1. rewrite execute_line_fuel_classify.
  destruct (classify line st) as [r|cmd hname h args st1] eqn:E;
    [reflexivity|].
  f_equal. apply call_handler_ext. intros a b c d s -> ->.
  destruct (invoke_cmp_script _ _ _ _ _ _ _ _ _ _ Ht E) as [L C].
  revert L. destruct (String.length line) as [|n]; intros L; [lia|].
  apply execute_line_fuel_enough; [exact C | lia].
Qed.

Lemma classify_same_tokens (l1 l2 t1 t2 : string) (raw_args : list string)
  (st : interp) :
  is_declaration l1 = false -> is_declaration l2 = false ->
  tokenize (strip l1) = t1 :: raw_args ->
  tokenize (strip l2) = t2 :: raw_args ->
  upper t1 = upper t2 ->
  classify l1 st = classify l2 st.
Proof.
  unfold is_declaration. intros D1 D2 T1 T2 U. unfold classify.
  rewrite D1, D2, T1, T2, U.
  destruct (String.eqb_spec (strip l1) "") as [E|_];
    [rewrite E in T1; discriminate T1|].
  destruct (String.eqb_spec (strip l2) "") as [E|_];
    [rewrite E in T2; discriminate T2|].
  reflexivity.
Qed.

End CommandNames.

(** X6: a line whose first token, upper-cased, is not in the table prints
    [Unknown command] with that name and does nothing else: no handler is
    called, the store and the program counter stay. *)
Theorem unknown_command_reported :
  forall (H : Host) (st : interp) (line tok0 : string)
         (raw_args : list string),
    is_declaration line = false ->
    tokenize (strip line) = tok0 :: raw_args ->
    cmd_get (upper tok0) (commands st) = None ->
    execute_line line st = Done (print ("Unknown command: " ++ upper tok0) st)
    /\ variables (print ("Unknown command: " ++ upper tok0) st) = variables st
    /\ program_counter (print ("Unknown command: " ++ upper tok0) st)
       = program_counter st
    /\ trace (print ("Unknown command: " ++ upper tok0) st)
       = (trace st ++ [Out ("Unknown command: " ++ upper tok0)])%list.
Proof.
  intros H st line tok0 raw_args Hd Ht Ec.
  split; [|repeat split].
  unfold execute_line. rewrite execute_line_fuel_classify.
  unfold is_declaration in Hd. unfold classify. rewrite Hd, Ht, Ec.
  destruct (String.eqb_spec (strip line) "") as [E|_]; [|reflexivity].
  rewrite E in Ht. discriminate Ht.
Qed.

Lemma unknown_command_reported_witness :
  execute_line "foo 1 2" (fresh None)
  = Done (print "Unknown command: FOO" (fresh None)).
Proof.
  exact (proj1 (unknown_command_reported sample (fresh None) "foo 1 2" "foo"
                  ["1"; "2"] eq_refl eq_refl eq_refl)).
Defined.

(** X7: the command name is read without regard to case: on the table of
    the interpreter two command lines with the same arguments whose first
    tokens agree once upper-cased are executed alike. *)
Theorem command_name_case :
  forall (H : Host) (st : interp) (l1 l2 t1 t2 : string)
         (raw_args : list string),
    commands st = parse_SPiD_definition ->
    is_declaration l1 = false -> is_declaration l2 = false ->
    tokenize (strip l1) = t1 :: raw_args ->
    tokenize (strip l2) = t2 :: raw_args ->
    upper t1 = upper t2 ->
    execute_line l1 st = execute_line l2 st.
Proof.
  intros H st l1 l2 t1 t2 raw_args Ht D1 D2 T1 T2 U.
  rewrite (execute_line_unfold l1 st Ht), (execute_line_unfold l2 st Ht).
  now rewrite (classify_same_tokens l1 l2 t1 t2 raw_args st D1 D2 T1 T2 U).
Qed.

Lemma command_name_case_witness :
  execute_line "add 2 3 X" (fresh None) = execute_line "  ADD 2  3 X" (fresh None).
Proof.
  apply (command_name_case sample (fresh None) "add 2 3 X" "  ADD 2  3 X"
           "add" "ADD" ["2"; "3"; "X"]); vm_compute; reflexivity.
Defined.

(** ** Logic gates, BOOL and PRINT *)

(** X8: a logic gate given two numeric inputs stores exactly [1.0] or
    [0.0] under the name it receives, following the truth table of the
    gate on "input is not zero" (so a negative number and a NaN count as
    true); an input that is not numeric prints the report and writes
    nothing. *)
Theorem logic_gates :
  forall (H : Host) (execute_line : string -> interp -> result)
         (handler_name : string) (st : interp) (in1 in2 out : value),
    (forall g x y,
        to_float in1 = Some x -> to_float in2 = Some y ->
        call_handler execute_line handler_name (gate_handler g)
          [in1; in2; out] st
        = Done (assign out
                  (VNum (if gate_table g (truthy x) (truthy y)
                         then 1%float else 0%float)) st))
    /\ (forall g,
           to_float in1 = None \/ to_float in2 = None ->
           call_handler execute_line handler_name (gate_handler g)
             [in1; in2; out] st
           = Done (print "Logic gates require numeric values (0 or 1)" st))
    /\ truthy 0%float = false /\ truthy (-0)%float = false
    /\ truthy 1%float = true /\ truthy (-3)%float = true
    /\ truthy nan = true.
Proof.
  intros H execute_line handler_name st in1 in2 out.
  split; [|split].
  - intros g x y E1 E2.
    destruct g; cbn [gate_handler call_handler]; unfold handle_logic_gate;
      rewrite E1, E2; cbn -[truthy];
      destruct (truthy x), (truthy y); reflexivity.
  - intros g Hn.
    destruct g; cbn [gate_handler call_handler]; unfold handle_logic_gate;
      destruct Hn as [Hn|Hn]; rewrite Hn; try reflexivity;
      destruct (to_float in1); reflexivity.
  - repeat split; vm_compute; reflexivity.
Qed.

Lemma logic_gates_witness :
  call_handler execute_line "LOGIC_XOR" (gate_handler GXor)
    [VNum 1%float; VStr "0"; VStr "Y"] (fresh None)
  = Done (assign (VStr "Y") (VNum 1%float) (fresh None))
  /\ call_handler execute_line "LOGIC_AND" (gate_handler GAnd)
       [VStr "zero"; VNum 1%float; VStr "Y"] (fresh None)
     = Done (print "Logic gates require numeric values (0 or 1)" (fresh None)).
Proof.
  split.
  - exact (proj1 (logic_gates sample execute_line "LOGIC_XOR" (fresh None)
                    (VNum 1%float) (VStr "0") (VStr "Y"))
             GXor 1%float 0%float eq_refl eq_refl).
  - exact (proj1 (proj2 (logic_gates sample execute_line "LOGIC_AND"
                           (fresh None) (VStr "zero") (VNum 1%float)
                           (VStr "Y")))
             GAnd (or_introl eq_refl)).
Defined.

(** X9: [BOOL] binds the name to the number given exactly when that
    number equals 0 or 1; any other number, and any value that is not
    numeric, prints the report and leaves the store as it was. *)
Theorem bool_set_binary :
  forall (H : Host) (st : interp) (v var : value),
    (forall f,
        to_float v = Some f ->
        PrimFloat.eqb f 0%float || PrimFloat.eqb f 1%float = true ->
        handle_bool_set v var st = Done (assign var (VNum f) st))
    /\ (to_float v = None
        \/ (exists f, to_float v = Some f
                      /\ PrimFloat.eqb f 0%float || PrimFloat.eqb f 1%float
                         = false) ->
        handle_bool_set v var st = Done (print (invalid_bool v) st)
        /\ variables (print (invalid_bool v) st) = variables st).
Proof.
  intros H st v var. split.
  - intros f E B. unfold handle_bool_set. now rewrite E, B.
  - intros [E|(f & E & B)]; (split; [|reflexivity]);
      unfold handle_bool_set; rewrite E; [reflexivity|]. now rewrite B.
Qed.

Lemma bool_set_binary_witness :
  handle_bool_set (VStr "1") (VStr "B") (fresh None)
  = Done (assign (VStr "B") (VNum 1%float) (fresh None))
  /\ handle_bool_set (VNum 2%float) (VStr "B") (fresh None)
     = Done (print (invalid_bool (VNum 2%float)) (fresh None)).
Proof.
  split.
  - exact (proj1 (bool_set_binary sample (fresh None) (VStr "1") (VStr "B"))
             1%float eq_refl eq_refl).
  - refine (proj1 (proj2 (bool_set_binary sample (fresh None) (VNum 2%float)
                            (VStr "B")) _)).
    right. exists 2%float. split; reflexivity.
Defined.

(** X10: the print handler never raises and never touches the store or
    the program counter: whatever its arguments it prints exactly one
    line.  With flag 0 that line is the value bound to the name, or
    [Undefined variable] with the name when nothing is bound to it. *)
Theorem print_handler_one_line :
  forall (H : Host) (st : interp) (flag content : value),
    (exists s, handle_print flag content st = Done (print s st))
    /\ (to_int flag = inr 0%Z ->
        handle_print flag content st
        = Done (print (match dict_get content (variables st) with
                       | Some v => str v
                       | None => "Undefined variable: " ++ str content
                       end) st)).
Proof.
  intros H st flag content. split.
  - unfold handle_print. handler_cases; eexists; reflexivity.
  - intros E. unfold handle_print. rewrite E. cbn [Z.eqb].
    destruct (dict_get content (variables st)); reflexivity.
Qed.

Lemma print_handler_one_line_witness :
  handle_print (VNum 0%float) (VStr "missing") (fresh None)
  = Done (print "Undefined variable: missing" (fresh None)).
Proof.
  refine (proj2 (print_handler_one_line sample (fresh None) (VNum 0%float)
                   (VStr "missing")) _).
  vm_compute. reflexivity.
Defined.

(** ** Branch and recursion *)

Section BranchComposition.
Context `{Host}.

Lemma handle_cmp_met (exec : string -> interp -> result)
  (val1 val2 script : value) (kc kb : string) (x y : float) (st : interp) :
  to_float val1 = Some x -> to_float val2 = Some y ->
  condition_holds (upper kc) x y = true ->
  handle_cmp exec val1 val2 (VStr kc) (VStr kb) script st
  = if String.eqb (upper kb) "THEN" then
      match script with
      | VStr s => exec s st
      | VNum _ => Raised (no_attribute "strip") st
      end
    else Done st.
Proof.
  intros E1 E2 Hc. unfold handle_cmp. rewrite E1, E2.
  unfold condition_holds in Hc.
  destruct (String.eqb (upper kc) "HIGH" && PrimFloat.ltb y x);
    [|destruct (String.eqb (upper kc) "LOW" && PrimFloat.ltb x y);
      [|destruct (String.eqb (upper kc) "EQUAL" && PrimFloat.eqb x y);
        [|discriminate Hc]]];
    cbn [negb andb]; rewrite !andb_true_r, !andb_false_r, orb_false_r;
    reflexivity.
Qed.

End BranchComposition.

(** X11: on the table of the interpreter, an [IF] line whose two operands
    are numeric, whose condition keyword holds of them and whose branch
    keyword is [THEN] executes the rest of the line, rejoined with single
    blanks, exactly as [execute_line] executes that text as a line of its
    own, after the call is recorded; what the sub-script raises is
    reported as an error of [IF].  With any other branch keyword the line
    does nothing.  The four leading tokens are resolved like values, the
    two keywords included. *)
Theorem branch_executes_subscript :
  forall (H : Host) (st : interp) (line tok0 a b c t : string)
         (rest : list string) (x y : float) (kc kb : string),
    commands st = parse_SPiD_definition ->
    is_declaration line = false ->
    tokenize (strip line) = tok0 :: a :: b :: c :: t :: rest ->
    upper tok0 = "IF" ->
    to_float (parse_value (variables st) a) = Some x ->
    to_float (parse_value (variables st) b) = Some y ->
    parse_value (variables st) c = VStr kc ->
    parse_value (variables st) t = VStr kb ->
    condition_holds (upper kc) x y = true ->
    let args := [parse_value (variables st) a; parse_value (variables st) b;
                 VStr kc; VStr kb; VStr (join " " rest)] in
    execute_line line st
    = if String.eqb (upper kb) "THEN" then
        try_except "IF"
          (execute_line (join " " rest) (log (Call "IF" "CMP" args) st))
      else Done (log (Call "IF" "CMP" args) st).
Proof.
  intros H st line tok0 a b c t rest x y kc kb Ht Hd Hk Hu Ea Eb Ec Et Hc args.
  rewrite (execute_line_unfold line st Ht).
  rewrite (classify_command line st tok0 (a :: b :: c :: t :: rest)
             (CommandDef
                "(VAR,VAL) (VAR,VAL) (HIGH,LOW,EQUAL) (THEN,ELSE) (SCRIPT)"
                (Some "CMP") 5)
             "CMP" H_CMP [] args Hd Hk).
  - rewrite Hu. cbn [print_all fold_left]. subst args.
    cbn [call_handler]. rewrite (handle_cmp_met _ _ _ _ kc kb x y _ Ea Eb Hc).
    destruct (String.eqb (upper kb) "THEN"); reflexivity.
  - rewrite Hu, Ht. reflexivity.
  - reflexivity.
  - reflexivity.
  - rewrite Hu. subst args. unfold shape.
    change (String.eqb "IF" "PRINT") with false.
    change (String.eqb "IF" "IF") with true. cbv iota.
    cbn [arg_count List.length Nat.sub Nat.ltb Nat.leb firstn map app].
    rewrite Ec, Et. reflexivity.
  - reflexivity.
Qed.

Lemma branch_executes_subscript_witness :
  printed_by (execute_line "if 5 3 high then PRINT 1 yes  please" (fresh None))
  = printed_by
      (try_except "IF"
         (execute_line "PRINT 1 yes please"
            (log (Call "IF" "CMP"
                    [VNum 5%float; VNum 3%float; VStr "high"; VStr "then";
                     VStr "PRINT 1 yes please"]) (fresh None)))).
Proof.
  rewrite (branch_executes_subscript sample (fresh None)
             "if 5 3 high then PRINT 1 yes  please" "if" "5" "3" "high" "then"
             ["PRINT"; "1"; "yes"; "please"] 5%float 3%float "high" "then");
    reflexivity.
Defined.

(** X12: [execute_line] terminates.  The text an [IF] line hands to
    [execute_line] again, the tokens after the fourth argument rejoined,
    is strictly shorter than the line, so on the table of the interpreter
    every line returns or raises, whatever the nesting of [IF] in it. *)
Theorem execute_line_returns :
  forall (H : Host) (st : interp) (line : string),
    (forall tok0 raw_args,
        tokenize (strip line) = tok0 :: raw_args ->
        String.length (join " " (skipn 4 raw_args)) < String.length line)
    /\ (commands st = parse_SPiD_definition ->
        exists st',
          execute_line line st = Done st'
          \/ exists e, execute_line line st = Raised e st').
Proof.
  intros H st line. split.
  - intros tok0 raw_args Et.
    pose proof (length_join (skipn 4 raw_args)) as L1.
    pose proof (weight_skipn 4 raw_args) as L2.
    pose proof (weight_tokenize (strip line)) as L3.
    pose proof (length_strip line) as L4.
    assert (L5 : 1 <= String.length (strip line)).
    { destruct (strip line); [discriminate Et | simpl; lia]. }
    rewrite Et in L3. simpl in L3. lia.
  - intros Ht. pose proof (execute_line_total line st Ht) as T.
    destruct (execute_line line st) as [st'|e st'|].
    + exists st'. now left.
    + exists st'. right. now exists e.
    + now elim T.
Qed.

Lemma execute_line_returns_witness :
  exists st',
    execute_line "IF 2 1 HIGH THEN IF 2 1 HIGH THEN IF 2 1 HIGH THEN ADD 1 1 X"
      (fresh None) = Done st'
    \/ exists e,
         execute_line
           "IF 2 1 HIGH THEN IF 2 1 HIGH THEN IF 2 1 HIGH THEN ADD 1 1 X"
           (fresh None) = Raised e st'.
Proof.
  exact (proj2 (execute_line_returns sample (fresh None)
                  "IF 2 1 HIGH THEN IF 2 1 HIGH THEN IF 2 1 HIGH THEN ADD 1 1 X")
           eq_refl).
Defined.

(** ** Loading a script *)

Lemma is_script_line_strip (l : string) :
  is_script_line (strip l) = is_script_line l.
Proof. unfold is_script_line. now rewrite strip_idem. Qed.

Lemma load_script_app (l1 l2 : list string) :
  load_script (l1 ++ l2) = (load_script l1 ++ load_script l2)%list.
Proof. unfold load_script. now rewrite filter_app, map_app. Qed.

Lemma load_script_one (l : string) :
  load_script [l] = if is_script_line l then [strip l] else [].
Proof.
  unfold load_script. cbn [filter]. destruct (is_script_line l); reflexivity.
Qed.

(** X13: the loader keeps, in the order of the file, the stripped form of
    every line that is not empty and not a whole-line comment, and drops
    the others: a line of the file that is neither contributes its
    stripped form at its place between what the lines before it and the
    lines after it contribute, and a line that is empty or a comment once
    stripped contributes nothing.  So the loaded lines are exactly the
    stripped forms of such lines of the file; each is stripped, not empty
    and no comment; loading what was loaded changes nothing, and no more
    lines come out than went in.  The line numbers of [JUMP] count these
    lines. *)
Theorem load_script_lines :
  forall (lines : list string),
    (forall pre l post,
        lines = (pre ++ l :: post)%list ->
        (strip l <> EmptyString -> startswith (strip l) "#" = false ->
         load_script lines
         = (load_script pre ++ strip l :: load_script post)%list)
        /\ (strip l = EmptyString \/ startswith (strip l) "#" = true ->
            load_script lines = (load_script pre ++ load_script post)%list))
    /\ (forall s,
           In s (load_script lines)
           <-> exists l, In l lines /\ strip l = s /\ s <> EmptyString
                         /\ startswith s "#" = false)
    /\ Forall (fun l => l <> EmptyString /\ startswith l "#" = false
                        /\ strip l = l) (load_script lines)
    /\ load_script (load_script lines) = load_script lines
    /\ List.length (load_script lines) <= List.length lines.
Proof.
  intros lines.
  assert (K : forall l, is_script_line l = true
                        <-> strip l <> EmptyString
                            /\ startswith (strip l) "#" = false).
  { intros l. unfold is_script_line. rewrite andb_true_iff, !negb_true_iff.
    now rewrite String.eqb_neq. }
  split; [|split; [|split; [|split]]].
  - intros pre l post ->.
    rewrite load_script_app.
    change (l :: post) with ([l] ++ post)%list.
    rewrite load_script_app, load_script_one. split.
    + intros H1 H2. now rewrite (proj2 (K l) (conj H1 H2)).
    + intros Hd. destruct (is_script_line l) eqn:E; [|reflexivity].
      apply K in E as [E1 E2]. destruct Hd as [Hd|Hd]; [now elim E1|].
      rewrite Hd in E2. discriminate E2.
  - intros s. unfold load_script. rewrite in_map_iff. split.
    + intros (l & <- & Hl). apply filter_In in Hl as [Hl Hk].
      apply K in Hk as [E1 E2]. now exists l.
    + intros (l & Hl & <- & E1 & E2). exists l. split; [reflexivity|].
      apply filter_In. split; [exact Hl | now apply K].
  - unfold load_script.
    induction lines as [|l ls IH]; [constructor|]. cbn [filter].
    destruct (is_script_line l) eqn:E; [|exact IH].
    cbn [map]. constructor; [|exact IH].
    apply K in E as [E1 E2].
    split; [exact E1|]. split; [exact E2 | apply strip_idem].
  - unfold load_script.
    induction lines as [|l ls IH]; [reflexivity|]. cbn [filter].
    destruct (is_script_line l) eqn:E; [|exact IH].
    cbn [map filter]. rewrite is_script_line_strip, E. cbn [map].
    now rewrite strip_idem, IH.
  - unfold load_script.
    induction lines as [|l ls IH]; [simpl; lia|]. cbn [filter].
    destruct (is_script_line l); simpl in *; lia.
Qed.

Lemma load_script_lines_witness :
  load_script ["# note"; "  ADD 1 2 X "; EmptyString; "PRINT 0 X"]
  = ["ADD 1 2 X"; "PRINT 0 X"].
Proof.
  destruct (load_script_lines
              ["# note"; "  ADD 1 2 X "; EmptyString; "PRINT 0 X"])
    as (D & _).
  destruct (D ["# note"] "  ADD 1 2 X " [EmptyString; "PRINT 0 X"] eq_refl)
    as (Keep & _).
  rewrite Keep; [reflexivity | discriminate | reflexivity].
Defined.

(** ** The grammar markers *)

(** X14: the loop that reads the grammar registers nothing before the
    opening marker, and stops at the first line that starts with [END],
    whatever follows it (a clause whose name starts with [END] ends the
    grammar). *)
Theorem grammar_markers :
  forall (commands : registry),
    (forall lines,
        forallb (fun l => negb (startswith (strip l) "main.spid<")) lines
        = true ->
        parse_SPiD_lines lines commands false = commands)
    /\ (forall pre e post in_commands,
           startswith (strip e) "END" = true ->
           parse_SPiD_lines (pre ++ e :: post) commands in_commands
           = parse_SPiD_lines pre commands in_commands).
Proof.
  intros commands. split.
  - intros lines. induction lines as [|l ls IH]; [reflexivity|].
    cbn [forallb]. intros Hl. apply andb_true_iff in Hl as [Hm Hls].
    apply negb_true_iff in Hm. cbn [parse_SPiD_lines].
    unfold parse_SPiD_line. rewrite Hm.
    destruct (startswith (strip l) "END"); [reflexivity|].
    cbn [negb orb]. exact (IH Hls).
  - intros pre e post. revert commands.
    induction pre as [|l ls IH]; intros commands in_commands He.
    + cbn [app parse_SPiD_lines]. unfold parse_SPiD_line.
      destruct (strip e) as [|c r]; [discriminate He|].
      unfold startswith in *. cbn [String.prefix] in *.
      destruct (ascii_dec "E" c) as [<-|]; [|discriminate He].
      cbn. cbn in He. rewrite He. reflexivity.
    + cbn [app parse_SPiD_lines].
      destruct (parse_SPiD_line l commands in_commands) as [[c' b']|];
        [|reflexivity].
      now apply IH.
Qed.

Lemma grammar_markers_witness :
  parse_SPiD_lines ["ADD (VAR) [CMD=ARITH_ADD]"; "main.spix<"] [] false = []
  /\ parse_SPiD_lines (["main.spid<"; "A (X) [CMD=CMP]"]
                       ++ " ENDING (X) [CMD=CMP]" :: ["B (X) [CMD=CMP]"])
       [] false
     = parse_SPiD_lines ["main.spid<"; "A (X) [CMD=CMP]"] [] false.
Proof.
  split.
  - exact (proj1 (grammar_markers [])
             ["ADD (VAR) [CMD=ARITH_ADD]"; "main.spix<"] eq_refl).
  - exact (proj2 (grammar_markers []) ["main.spid<"; "A (X) [CMD=CMP]"]
             " ENDING (X) [CMD=CMP]" ["B (X) [CMD=CMP]"] false eq_refl).
Defined.

(** ** Who moves the program counter *)

Section Quiet.
Context `{Host}.

Lemma quiet_refl (st : interp) : quiet st st.
Proof. exists []. split; [now rewrite app_nil_r | now left]. Qed.

Lemma quiet_trans (st st' st'' : interp) :
  quiet st st' -> quiet st' st'' -> quiet st st''.
Proof.
  intros (t1 & T1 & P1) (t2 & T2 & P2). exists (t1 ++ t2)%list. split.
  - rewrite T2, T1. now rewrite app_assoc.
  - destruct P2 as [P2|(cmd & args & I2)].
    + destruct P1 as [P1|(cmd & args & I1)]; [left; congruence|].
      right. exists cmd, args. apply in_or_app. now left.
    + right. exists cmd, args. apply in_or_app. now right.
Qed.

Lemma quiet_log (e : event) (st x : interp) :
  quiet st x -> quiet st (log e x).
Proof.
  intros Q. apply (quiet_trans _ _ _ Q). exists [e]. split; [reflexivity|].
  now left.
Qed.

Lemma quiet_print (st x : interp) (s : string) :
  quiet st x -> quiet st (print s x).
Proof. apply quiet_log. Qed.

Lemma quiet_set_variables (st x : interp) (d : store) :
  quiet st x -> quiet st (set_variables d x).
Proof.
  intros Q. apply (quiet_trans _ _ _ Q). exists []. split; [|now left].
  simpl. now rewrite app_nil_r.
Qed.

Lemma quiet_assign (st x : interp) (k v : value) :
  quiet st x -> quiet st (assign k v x).
Proof. apply quiet_set_variables. Qed.

Lemma quiet_set_host (st x : interp) (w : world) :
  quiet st x -> quiet st (set_host w x).
Proof.
  intros Q. apply (quiet_trans _ _ _ Q). exists []. split; [|now left].
  simpl. now rewrite app_nil_r.
Qed.

Lemma quiet_print_all (l : list string) (st x : interp) :
  quiet st x -> quiet st (print_all l x).
Proof.
  revert x. induction l as [|s l IH]; intros x Q; simpl; [exact Q|].
  apply IH. now apply quiet_print.
Qed.

Lemma result_quiet_trans (st st' : interp) (r : result) :
  quiet st st' -> result_quiet st' r -> result_quiet st r.
Proof.
  intros Q. destruct r; simpl; try tauto; now apply quiet_trans.
Qed.

(** Once a call of the jump handler is in the trace, whatever extends the
    trace is allowed to have moved the counter. *)
Lemma quiet_after_jump (st x : interp) (cmd : string) (args : list value)
  (r : result) :
  (exists t, trace x = (trace st ++ t)%list) ->
  result_ok (log (Call cmd "JUMP_CMD" args) x) r ->
  result_quiet st r.
Proof.
  intros (t & T) Hok.
  assert (Q : forall y, extends (log (Call cmd "JUMP_CMD" args) x) y ->
                        quiet st y).
  { intros y E. destruct (ext_trace _ _ E) as (t' & T' & _).
    exists ((t ++ [Call cmd "JUMP_CMD" args]) ++ t')%list. split.
    - rewrite T'. cbn [trace log]. rewrite T. now rewrite !app_assoc.
    - right. exists cmd, args. apply in_or_app. left.
      apply in_or_app. right. now left. }
  destruct r; simpl in *; auto.
Qed.

End Quiet.

Ltac quiet_frame :=
  repeat first
    [ apply quiet_refl
    | apply quiet_print
    | apply quiet_assign
    | apply quiet_set_variables
    | apply quiet_set_host
    | apply quiet_print_all ].

Section QuietHandlers.
Context `{Host}.

Lemma handlers_get_jump (handler_name : string) :
  handlers_get handler_name handlers = Some H_JUMP_CMD ->
  handler_name = "JUMP_CMD".
Proof.
  unfold handlers. cbn [handlers_get].
  repeat match goal with
         | |- context [String.eqb ?a handler_name] =>
             destruct (String.eqb_spec a handler_name) as [<-|_];
               [first [reflexivity | discriminate]|]
         end.
  discriminate.
Qed.

(** Every handler but the jump handler leaves the program counter alone,
    the comparison handler as far as the sub-script does. *)
Lemma call_handler_quiet (exec : string -> interp -> result)
  (handler_name : string) (h : handler_id) (args : list value) (st : interp) :
  h <> H_JUMP_CMD ->
  (forall line x, result_quiet x (exec line x)) ->
  result_quiet st (call_handler exec handler_name h args st).
Proof.
  intros Hj Hexec.
  destruct h; try (now elim Hj);
    destruct args as [|a1 [|a2 [|a3 [|a4 [|a5 [|a6 [|a7 [|a8 l]]]]]]]];
    cbn [call_handler];
    try apply quiet_refl;
    unfold handle_cmp, handle_logic_gate, handle_arith, handle_print,
      handle_bool_set, handle_python, handle_input, handle_cd, handle_ls,
      handle_network_fetch;
    handler_cases; simpl; quiet_frame; apply Hexec.
Qed.

Lemma try_except_quiet (cmd : string) (st : interp) (r : result) :
  result_quiet st r -> result_quiet st (try_except cmd r).
Proof.
  destruct r as [st'|e st'|]; simpl; try tauto.
  intros Q. destruct (exn_class e); simpl; now apply quiet_print.
Qed.

Lemma execute_line_fuel_quiet (fuel : nat) :
  forall (line : string) (st : interp),
    result_quiet st (execute_line_fuel fuel line st).
Proof.
  induction fuel as [|fuel IH]; intros line st; [exact I|].
  rewrite execute_line_fuel_classify.
  destruct (classify line st) as [r|cmd hname h args st1] eqn:E.
  - destruct (classify_leaf line st r E)
      as (_ & st' & outs & Hr & _ & _ & P & T).
    assert (Q : quiet st st') by (exists (map Out outs); split; [exact T|now left]).
    destruct Hr as [->|[e ->]]; exact Q.
  - destruct (classify_invoke _ _ _ _ _ _ _ E)
      as (tok0 & raw_args & def & warnings & _ & _ & _ & _ & Ehh & _ & _ & ->).
    apply try_except_quiet.
    assert (D : {h = H_JUMP_CMD} + {h <> H_JUMP_CMD})
      by (destruct h; first [now left | right; discriminate]).
    destruct D as [->|Hj].
    + apply handlers_get_jump in Ehh. subst hname.
      apply (quiet_after_jump st (print_all warnings st) cmd args).
      * destruct (quiet_print_all warnings st st (quiet_refl st)) as (t & T & _).
        now exists t.
      * apply call_handler_ok. intros l x. apply execute_line_fuel_ok.
    + apply (result_quiet_trans st
               (log (Call cmd hname args) (print_all warnings st))).
      * apply quiet_log, quiet_print_all, quiet_refl.
      * now apply call_handler_quiet.
Qed.

End QuietHandlers.

Section QuietEngine.
Context `{Host}.

Lemma execute_line_quiet (line : string) (st : interp) :
  result_quiet st (execute_line line st).
Proof. apply execute_line_fuel_quiet. Qed.

(** A step of the loop advances the counter by one unless the jump
    handler was called. *)
Lemma run_step_quiet (lines : list string) (st st' : interp) :
  run_step lines st = Stepped st' ->
  exists t,
    trace st' = (trace st ++ t)%list
    /\ (program_counter st' = (program_counter st + 1)%Z
        \/ exists cmd args, In (Call cmd "JUMP_CMD" args) t).
Proof.
  unfold run_step.
  destruct (program_counter st <? Z.of_nat (List.length lines))%Z;
    [|discriminate].
  destruct (py_index lines (program_counter st)) as [l|]; [|discriminate].
  set (st1 := print _ st).
  pose proof (execute_line_quiet l st1) as Q.
  destruct (execute_line l st1) as [st2| |]; try discriminate.
  assert (Q' : quiet st st2).
  { apply (quiet_trans st st1); [|exact Q].
    apply quiet_print, quiet_refl. }
  destruct Q' as (t & T & P).
  destruct (Z.eqb_spec (program_counter st2) (program_counter st)) as [Ep|Ep];
    intros [= <-]; exists t; (split; [exact T|]).
  - left. cbn [program_counter set_program_counter]. now rewrite Ep.
  - destruct P as [P|P]; [contradiction | now right].
Qed.

End QuietEngine.

(** X15: only the jump handler moves the program counter.  Whatever the
    line, the table and the host, the counter after [execute_line] is the
    counter before unless a call of the jump handler was made on the way;
    and a step of the loop of [run] that made no such call advances the
    counter by exactly one. *)
Theorem counter_moved_by_jump_only :
  forall (H : Host) (st : interp) (line : string),
    (forall st',
        execute_line line st = Done st'
        \/ (exists e, execute_line line st = Raised e st') ->
        exists t,
          trace st' = (trace st ++ t)%list
          /\ (program_counter st' = program_counter st
              \/ exists cmd args, In (Call cmd "JUMP_CMD" args) t))
    /\ (forall lines st',
           run_step lines st = Stepped st' ->
           exists t,
             trace st' = (trace st ++ t)%list
             /\ (program_counter st' = (program_counter st + 1)%Z
                 \/ exists cmd args, In (Call cmd "JUMP_CMD" args) t)).
Proof.
  intros H st line. split.
  - intros st' Hr. pose proof (execute_line_quiet line st) as Q.
    destruct Hr as [Hr|[e Hr]]; rewrite Hr in Q; exact Q.
  - intros lines st'. apply run_step_quiet.
Qed.

Lemma counter_moved_by_jump_only_witness :
  exists st' t,
    run_step ["ADD 1 2 X"] (fresh (Some ["ADD 1 2 X"])) = Stepped st'
    /\ trace st' = (trace (fresh (Some ["ADD 1 2 X"])) ++ t)%list
    /\ program_counter st' = 1%Z.
Proof.
  pose (st0 := fresh (Some ["ADD 1 2 X"])).
  pose (st1 := set_program_counter 1
                 (assign (VStr "X") (VNum 3%float)
                    (log (Call "ADD" "ARITH_ADD"
                            [VNum 1%float; VNum 2%float; VStr "X"])
                       (echo "ADD 1 2 X" st0)))).
  assert (E : run_step ["ADD 1 2 X"] st0 = Stepped st1) by reflexivity.
  destruct (proj2 (counter_moved_by_jump_only sample st0 "ADD 1 2 X")
              ["ADD 1 2 X"] st1 E) as (t & T & _).
  exists st1, t. split; [exact E|]. split; [exact T | reflexivity].
Defined.

(** ** Lines that raise *)

Section Raising.
Context `{Host}.

Lemma classify_missing_first_argument (st : interp) (line tok0 : string) :
  commands st = parse_SPiD_definition ->
  is_declaration line = false ->
  tokenize (strip line) = [tok0] ->
  needs_first_argument (upper tok0) = true ->
  classify line st = Leaf (Raised index_error st).
Proof.
  unfold is_declaration, needs_first_argument. intros Ht Hd Hk Hn.
  unfold classify. rewrite Hd, Hk, Ht.
  destruct (String.eqb_spec (strip line) "") as [E|_].
  { rewrite E in Hk. discriminate Hk. }
  destruct (String.eqb_spec (upper tok0) "PRINT") as [->|_]; [reflexivity|].
  destruct (String.eqb_spec (upper tok0) "INPUT") as [->|_]; [reflexivity|].
  destruct (String.eqb_spec (upper tok0) "LI") as [->|_]; [reflexivity|].
  discriminate Hn.
Qed.

End Raising.

(** X16: on the table of the interpreter, [PRINT], [INPUT] or [LI] given
    without any argument raises an index error before the argument count
    is checked, outside the [try] of [execute_line].  In a script the
    exception leaves the loop of [run]: the run is over.  In the
    interactive loop it is caught and printed, and the loop goes on. *)
Theorem missing_first_argument :
  forall (H : Host) (st : interp) (line tok0 : string),
    commands st = parse_SPiD_definition ->
    is_declaration line = false ->
    tokenize (strip line) = [tok0] ->
    needs_first_argument (upper tok0) = true ->
    execute_line line st = Raised index_error st
    /\ (forall lines,
           (0 <= program_counter st < Z.of_nat (List.length lines))%Z ->
           nth_error lines (Z.to_nat (program_counter st)) = Some line ->
           run_step lines st = Aborted index_error (echo line st))
    /\ (forall w,
           host_input "SPiD> " (host st) = (Some line, w) ->
           shell_word line = false ->
           shell_step st
           = Continue (print "Error: list index out of range"
                         (set_host w st))).
Proof.
  intros H st line tok0 Ht Hd Hk Hn.
  assert (E : forall x, commands x = parse_SPiD_definition ->
                        execute_line line x = Raised index_error x).
  { intros x Hx. unfold execute_line. rewrite execute_line_fuel_classify.
    now rewrite (classify_missing_first_argument x line tok0 Hx Hd Hk Hn). }
  split; [now apply E|]. split.
  - intros lines Hp Hl. rewrite (run_step_line lines st line Hp Hl).
    now rewrite (E (echo line st) Ht).
  - intros w Hi Hw. unfold shell_step. rewrite Hi.
    unfold shell_word in Hw.
    repeat (apply orb_false_iff in Hw as [Hw ?]).
    repeat match goal with
           | E : String.eqb _ _ = false |- _ => rewrite E; clear E
           end.
    now rewrite (E (set_host w st) Ht).
Qed.

Lemma missing_first_argument_witness :
  execute_line " print " (fresh (Some [" print "])) 
  = Raised index_error (fresh (Some [" print "]))
  /\ run_step [" print "] (fresh (Some [" print "]))
     = Aborted index_error (echo " print " (fresh (Some [" print "]))).
Proof.
  destruct (missing_first_argument sample (fresh (Some [" print "]))
              " print " "print" eq_refl eq_refl eq_refl eq_refl)
    as (E & R & _).
  split; [exact E|]. apply R; [simpl; lia | reflexivity].
Defined.

(** ** The interactive loop at the end of input *)

(** X17: the interactive loop does not stop at the end of input.  The
    error that [input] raises there is caught like any other, so on a host
    whose input stays at its end every iteration prints the same report
    and goes on; nothing but the trace changes. *)
Theorem shell_loops_at_end_of_input :
  forall (H : Host),
    (forall prompt w, host_input prompt w = (None, w)) ->
    forall (n : nat) (st : interp),
      exists st',
        shell_loop n st = Continue st'
        /\ printed (trace st')
           = (printed (trace st)
              ++ repeat "Error: EOF when reading a line" n)%list
        /\ variables st' = variables st
        /\ program_counter st' = program_counter st.
Proof.
  intros H Heof n. induction n as [|n IH]; intros st.
  - exists st. simpl. now rewrite app_nil_r.
  - cbn [shell_loop]. unfold shell_step. rewrite Heof.
    destruct (IH (print ("Error: " ++ "EOF when reading a line")
                    (set_host (host st) st))) as (st' & E & T & V & P).
    exists st'. split; [exact E|]. split; [|split; [exact V | exact P]].
    rewrite T. unfold print, log, set_host. cbn [trace]. unfold printed.
    rewrite flat_map_app. cbn [flat_map app repeat].
    rewrite <- app_assoc. reflexivity.
Qed.

Lemma shell_loops_at_end_of_input_witness :
  exists st',
    shell_loop 3 (fresh None) = Continue st'
    /\ printed (trace st')
       = ["Error: EOF when reading a line"; "Error: EOF when reading a line";
          "Error: EOF when reading a line"].
Proof.
  destruct (shell_loops_at_end_of_input sample (fun _ _ => eq_refl) 3
              (fresh None)) as (st' & E & T & _).
  exists st'. split; [exact E | exact T].
Defined.

(** ** Names of output variables *)

Lemma dict_get_text_set_number (a : string) (f : float) (v : value)
  (d : store) :
  dict_get (VStr a) (dict_set (VNum f) v d) = dict_get (VStr a) d.
Proof.
  induction d as [|[k' v'] d IH]; cbn [dict_get dict_set]; [reflexivity|].
  destruct (key_eqb k' (VNum f)) eqn:E; cbn [dict_get].
  - destruct k'; [reflexivity | discriminate E].
  - now rewrite IH.
Qed.

(** X18: an arithmetic command resolves its third token like the other
    two and stores its result under what the token resolves to.  So on the
    table of the interpreter, with numeric operands and no division by
    zero, the result goes under the name when the name is fresh, and when
    the token resolves to a number (the name is already bound to one) the
    result goes under that number as key and the name reads as before. *)
Theorem arithmetic_output_name :
  forall (H : Host) (st : interp) (c : arith_cmd)
         (line tok0 a b out : string) (x y : float),
    commands st = parse_SPiD_definition ->
    is_declaration line = false ->
    tokenize (strip line) = [tok0; a; b; out] ->
    upper tok0 = arith_name c ->
    to_float (parse_value (variables st) a) = Some x ->
    to_float (parse_value (variables st) b) = Some y ->
    divides_by_zero c y = false ->
    let args := [parse_value (variables st) a; parse_value (variables st) b;
                 parse_value (variables st) out] in
    let st' := assign (parse_value (variables st) out)
                 (VNum (arith_result c x y))
                 (log (Call (arith_name c) (arith_handler_name c) args) st) in
    execute_line line st = Done st'
    /\ (parse_value (variables st) out = VStr out ->
        dict_get (VStr out) (variables st') = Some (VNum (arith_result c x y)))
    /\ (forall f,
           parse_value (variables st) out = VNum f ->
           dict_get (VStr out) (variables st')
           = dict_get (VStr out) (variables st)).
Proof.
  intros H st c line tok0 a b out x y Ht Hd Hk Hu Ea Eb Hz args st'.
  split; [|split].
  - rewrite (execute_line_unfold line st Ht).
    rewrite (classify_command line st tok0 [a; b; out]
               (CommandDef "(VAR,VAL) (VAR,VAL) (VAR)"
                  (Some (arith_handler_name c)) 3)
               (arith_handler_name c) (arith_handler c) [] args Hd Hk);
      try reflexivity.
    + rewrite Hu. cbn [print_all fold_left]. subst args st'.
      destruct c; cbn [arith_handler call_handler arith_name
                         arith_handler_name arith_result];
        unfold handle_arith; rewrite Ea, Eb; cbn [String.eqb Ascii.eqb Bool.eqb];
        try reflexivity.
      simpl in Hz. rewrite Hz. reflexivity.
    + rewrite Hu, Ht. destruct c; reflexivity.
    + destruct c; reflexivity.
    + rewrite Hu. destruct c; reflexivity.
  - intros Eo. subst st'. cbn [variables assign set_variables log].
    rewrite Eo. apply dict_get_set_same, key_eqb_text_refl.
  - intros f Eo. subst st'. cbn [variables assign set_variables log].
    rewrite Eo. apply dict_get_text_set_number.
Qed.

Lemma arithmetic_output_name_witness :
  variables_of (execute_line "ADD X 1 X"
                  (assign (VStr "X") (VNum 0%float) (fresh None)))
  = Some [(VStr "X", VNum 0%float); (VNum 0%float, VNum 1%float)].
Proof.
  rewrite (proj1 (arithmetic_output_name sample
                    (assign (VStr "X") (VNum 0%float) (fresh None)) OpAdd
                    "ADD X 1 X" "ADD" "X" "1" "X" 0%float 1%float
                    eq_refl eq_refl eq_refl eq_refl eq_refl eq_refl eq_refl)).
  reflexivity.
Defined.

(** X19: [INPUT] is given the name as written, not what it resolves to:
    on the table of the interpreter the line read from the input is bound
    to that name, as a number when [float] accepts it and as text
    otherwise, also when the name is bound already; at the end of input
    the error is reported as an error of [INPUT] and nothing is bound. *)
Theorem input_binds_name :
  forall (H : Host) (st : interp) (line tok0 name : string)
         (rest : list string),
    commands st = parse_SPiD_definition ->
    is_declaration line = false ->
    tokenize (strip line) = tok0 :: name :: rest ->
    upper tok0 = "INPUT" ->
    let st1 := log (Call "INPUT" "INPUT_CMD" [VStr name]) st in
    (forall s w,
        host_input (input_prompt name) (host st) = (Some s, w) ->
        let v := match py_float s with
                 | Some f => VNum f
                 | None => VStr s
                 end in
        execute_line line st
        = Done (print ("'" ++ s ++ "' stored in '" ++ name ++ "'.")
                  (assign (VStr name) v (set_host w st1)))
        /\ dict_get (VStr name)
             (variables (assign (VStr name) v (set_host w st1))) = Some v)
    /\ (forall w,
           host_input (input_prompt name) (host st) = (None, w) ->
           execute_line line st
           = Done (print "Error executing INPUT: EOF when reading a line"
                     (set_host w st1))
           /\ variables (set_host w st1) = variables st).
Proof.
  intros H st line tok0 name rest Ht Hd Hk Hu st1.
  assert (E : execute_line line st = try_except "INPUT" (handle_input (VStr name) st1)).
  { rewrite (execute_line_unfold line st Ht).
    rewrite (classify_command line st tok0 (name :: rest)
               (CommandDef "(VAR)" (Some "INPUT_CMD") 1)
               "INPUT_CMD" H_INPUT_CMD [] [VStr name] Hd Hk);
      try reflexivity.
    - now rewrite Hu.
    - rewrite Hu, Ht. reflexivity.
    - now rewrite Hu. }
  split.
  - intros s w Hi v. split.
    + rewrite E. unfold handle_input, input_prompt in *.
      cbn [str host log]. subst st1. cbn [host log]. rewrite Hi. reflexivity.
    + apply dict_get_set_same, key_eqb_text_refl.
  - intros w Hi. split; [|reflexivity].
    rewrite E. unfold handle_input, input_prompt in *.
    cbn [str]. subst st1. cbn [host log]. rewrite Hi. reflexivity.
Qed.

Lemma input_binds_name_witness :
  exists st',
    @execute_line ScriptedHost.scripted "input X"
      (@init ScriptedHost.scripted ["42"] None) = Done st'
    /\ dict_get (VStr "X") (variables st') = Some (VNum 42%float).
Proof.
  destruct (proj1 (input_binds_name ScriptedHost.scripted
                     (@init ScriptedHost.scripted ["42"] None)
                     "input X" "input" "X" [] eq_refl eq_refl eq_refl eq_refl)
              "42" [] eq_refl) as [E G].
  eexists. split; [exact E | exact G].
Defined.

(** ** Scripts without jumps *)

Section StraightLine.
Context `{Host}.

Lemma run_loop_trace (k : nat) (lines : list string) :
  forall (st st' : interp),
    run_loop k lines st = Stepped st' ->
    exists t, trace st' = (trace st ++ t)%list.
Proof.
  induction k as [|k IH]; intros st st' E.
  - injection E as <-. exists []. now rewrite app_nil_r.
  - cbn [run_loop] in E.
    destruct (run_step lines st) as [|st1|e st1|] eqn:Es; try discriminate E.
    destruct (run_step_quiet _ _ _ Es) as (t1 & T1 & _).
    destruct (IH _ _ E) as (t2 & T2). exists (t1 ++ t2)%list.
    rewrite T2, T1. now rewrite app_assoc.
Qed.

End StraightLine.

(** X20: a run in which the jump handler is never called executes the
    lines one after the other: after [k] iterations of the loop the
    program counter has advanced by [k]; started at zero, the loop halts
    after as many iterations as the script has lines. *)
Theorem straight_line_run :
  forall (H : Host) (lines : list string) (k : nat) (st st' : interp),
    run_loop k lines st = Stepped st' ->
    no_jump (trace st') ->
    program_counter st' = (program_counter st + Z.of_nat k)%Z
    /\ (program_counter st = 0%Z -> k = List.length lines ->
        run_step lines st' = Halted).
Proof.
  intros H lines k st st' E Hn.
  assert (P : program_counter st' = (program_counter st + Z.of_nat k)%Z).
  { revert st E. induction k as [|k IH]; intros st E.
    - injection E as <-. lia.
    - cbn [run_loop] in E.
      destruct (run_step lines st) as [|st1|e st1|] eqn:Es;
        try discriminate E.
      rewrite (IH _ E).
      destruct (run_step_quiet _ _ _ Es) as (t1 & T1 & [P1|(cmd & args & I)]).
      + rewrite P1. lia.
      + destruct (run_loop_trace _ _ _ _ E) as (t2 & T2).
        elim (Hn cmd args). rewrite T2, T1.
        apply in_or_app. left. apply in_or_app. now right. }
  split; [exact P|].
  intros P0 Hk. unfold run_step. rewrite P, P0, Hk.
  replace (0 + Z.of_nat (List.length lines)
           <? Z.of_nat (List.length lines))%Z with false
    by (symmetry; apply Z.ltb_ge; lia).
  reflexivity.
Qed.

Lemma straight_line_run_witness :
  run_loop 2 two_lines (fresh (Some two_lines)) = Stepped two_lines_2
  /\ program_counter two_lines_2 = 2%Z
  /\ run_step two_lines two_lines_2 = Halted.
Proof.
  assert (E : run_loop 2 two_lines (fresh (Some two_lines))
              = Stepped two_lines_2) by reflexivity.
  assert (N : no_jump (trace two_lines_2)).
  { intros cmd args I. cbn in I.
    repeat (destruct I as [I|I]; [discriminate I|]). exact I. }
  destruct (straight_line_run sample two_lines 2 (fresh (Some two_lines))
              two_lines_2 E N) as (P & Hh).
  split; [exact E|]. split; [exact P|]. now apply Hh.
Defined.

(** ** The loop of [run] *)

Section RunLoop.
Context `{Host}.

(** The loop after one more iteration: the step at the state reached, or
    the way the loop was left before. *)
Lemma run_loop_last (n : nat) (lines : list string) :
  forall (st0 : interp),
    run_loop (S n) lines st0
    = match run_loop n lines st0 with
      | Stepped st => run_step lines st
      | r => r
      end.
Proof.
  induction n as [|n IH]; intros st0.
  - cbn [run_loop]. destruct (run_step lines st0); reflexivity.
  - change (run_loop (S (S n)) lines st0)
      with (match run_step lines st0 with
            | Stepped st' => run_loop (S n) lines st'
            | r => r
            end).
    change (run_loop (S n) lines st0)
      with (match run_step lines st0 with
            | Stepped st' => run_loop n lines st'
            | r => r
            end).
    destruct (run_step lines st0) as [|st'| |]; try reflexivity.
    apply IH.
Qed.

(** Once the loop is left it stays left, the same way. *)
Lemma run_loop_left (n : nat) (lines : list string) :
  forall (m : nat) (st0 : interp) (r : step_result),
    run_loop n lines st0 = r ->
    (forall st, r <> Stepped st) ->
    n <= m ->
    run_loop m lines st0 = r.
Proof.
  induction n as [|n IH]; intros m st0 r E Hr Hm.
  - cbn [run_loop] in E. subst r. now elim (Hr st0).
  - destruct m as [|m]; [lia|]. cbn [run_loop] in *.
    destruct (run_step lines st0) as [|st'| |]; try exact E.
    apply (IH m st' r E Hr). lia.
Qed.

(** The states the loop is at after its iterations are the reachable
    ones. *)
Lemma run_loop_reachable (n : nat) (lines : list string) (st0 : interp) :
  forall (st : interp),
    run_loop n lines st0 = Stepped st -> reachable lines st0 st.
Proof.
  induction n as [|n IH]; intros st E.
  - cbn [run_loop] in E. injection E as <-. constructor.
  - rewrite run_loop_last in E.
    destruct (run_loop n lines st0) as [|s| |]; try discriminate E.
    exact (reach_step lines st0 s st (IH s eq_refl) E).
Qed.

Lemma reachable_run_loop (lines : list string) (st0 st : interp) :
  reachable lines st0 st -> exists n, run_loop n lines st0 = Stepped st.
Proof.
  induction 1 as [|s st' R [n E] Hs].
  - now exists 0.
  - exists (S n). rewrite run_loop_last, E. exact Hs.
Qed.

End RunLoop.

(** C4: in script mode, at the state the loop of [run] is at after any
    number of iterations, on the table of the interpreter: the program
    counter is not negative; the next test of the loop fails exactly when
    the counter is not below the length of the script, and then the run
    stays halted; when it is below, the iteration executes the line at
    that index, after which the counter is the one before plus one if
    executing the line left it as it was, and the one the handler set
    otherwise.  Executing the line returns or raises; when it raises,
    which [execute_line] lets a line do while its arguments are shaped,
    the exception leaves [run] with the counter still inside the script
    and no further line is executed: an exit of the loop that the test of
    the counter does not account for. *)
Theorem engine_step_rule :
  forall (H : Host) (lines : list string) (st0 st : interp) (n : nat),
    script_lines st0 = Some lines ->
    commands st0 = parse_SPiD_definition ->
    run n st0 = Some (Stepped st) ->
    (0 <= program_counter st)%Z
    /\ (run (S n) st0 = Some Halted
        <-> (Z.of_nat (List.length lines) <= program_counter st)%Z)
    /\ (run (S n) st0 = Some Halted ->
        forall m, n < m -> run m st0 = Some Halted)
    /\ ((program_counter st < Z.of_nat (List.length lines))%Z ->
        exists line,
          nth_error lines (Z.to_nat (program_counter st)) = Some line
          /\ match execute_line line (echo line st) with
             | Done st2 =>
                 run (S n) st0
                 = Some (Stepped
                           (if (program_counter st2 =? program_counter st)%Z
                            then set_program_counter (program_counter st + 1)
                                   st2
                            else st2))
             | Raised e st2 =>
                 forall m, n < m -> run m st0 = Some (Aborted e st2)
             | OutOfFuel => False
             end).
Proof.
  intros H lines st0 st n Hs Ht Hr.
  unfold run in *. rewrite Hs in *.
  destruct lines as [|l ls]; [discriminate Hr|].
  set (lines := l :: ls) in *. set (s0 := set_program_counter 0 st0) in *.
  injection Hr as Hr.
  pose proof (run_loop_reachable n lines s0 st Hr) as R.
  destruct (reachable_frame lines s0 st R) as (C & _ & _ & P).
  assert (P0 : (0 <= program_counter st)%Z) by (apply P; simpl; lia).
  assert (N : run_loop (S n) lines s0 = run_step lines st)
    by (now rewrite run_loop_last, Hr).
  assert (L : (program_counter st < Z.of_nat (List.length lines))%Z ->
              exists line,
                nth_error lines (Z.to_nat (program_counter st)) = Some line
                /\ run_step lines st
                   = match execute_line line (echo line st) with
                     | Done st2 =>
                         if (program_counter st2 =? program_counter st)%Z
                         then Stepped (set_program_counter
                                         (program_counter st + 1) st2)
                         else Stepped st2
                     | Raised e st2 => Aborted e st2
                     | OutOfFuel => Stuck
                     end).
  { intros Hlt.
    destruct (py_index_nth lines (program_counter st) (conj P0 Hlt))
      as (line & _ & Hn).
    exists line. split; [exact Hn|].
    apply run_step_line; [lia | exact Hn]. }
  split; [exact P0|]. split; [|split].
  - rewrite N. split.
    + intros Hh. injection Hh as Hh.
      destruct (Z.lt_ge_cases (program_counter st)
                  (Z.of_nat (List.length lines))) as [Hlt|Hge]; [|exact Hge].
      destruct (L Hlt) as (line & _ & E). rewrite E in Hh.
      destruct (execute_line line (echo line st)) as [st2| |];
        try discriminate Hh.
      destruct (program_counter st2 =? program_counter st)%Z;
        discriminate Hh.
    + intros Hge. unfold run_step.
      replace (program_counter st <? Z.of_nat (List.length lines))%Z
        with false by (symmetry; apply Z.ltb_ge; lia).
      reflexivity.
  - intros Hh m Hm. injection Hh as Hh. f_equal.
    apply (run_loop_left (S n) lines m s0 Halted Hh); [discriminate | lia].
  - intros Hlt. destruct (L Hlt) as (line & Hn & E).
    exists line. split; [exact Hn|].
    assert (T : execute_line line (echo line st) <> OutOfFuel).
    { apply execute_line_total. simpl. rewrite C. exact Ht. }
    rewrite <- N in E.
    destruct (execute_line line (echo line st)) as [st2|e st2|];
      [| |now elim T].
    + rewrite E. destruct (program_counter st2 =? program_counter st)%Z;
        reflexivity.
    + intros m Hm. f_equal.
      apply (run_loop_left (S n) lines m s0 _ E); [discriminate | lia].
Qed.

Lemma engine_step_rule_witness :
  run 1 (fresh (Some abort_script)) = Some (Stepped abort_run_1)
  /\ (0 <= program_counter abort_run_1
      < Z.of_nat (List.length abort_script))%Z
  /\ (forall m, 1 < m ->
        run m (fresh (Some abort_script))
        = Some (Aborted index_error (echo "PRINT" abort_run_1))).
Proof.
  destruct (engine_step_rule sample abort_script (fresh (Some abort_script))
              (fresh (Some abort_script)) 0 eq_refl eq_refl eq_refl)
    as (_ & _ & _ & S0).
  destruct (S0 ltac:(simpl; lia)) as (line0 & N0 & E0).
  injection N0 as <-.
  change (execute_line "PRINT 1 go"
            (echo "PRINT 1 go" (fresh (Some abort_script))))
    with (Done (print "go"
                  (log (Call "PRINT" "PRINT_CMD" [VNum 1%float; VStr "go"])
                     (echo "PRINT 1 go" (fresh (Some abort_script))))))
    in E0.
  cbv beta iota in E0.
  change (run 1 (fresh (Some abort_script)) = Some (Stepped abort_run_1))
    in E0.
  destruct (engine_step_rule sample abort_script (fresh (Some abort_script))
              abort_run_1 1 eq_refl eq_refl E0)
    as (_ & _ & _ & S1).
  destruct (S1 ltac:(simpl; lia)) as (line1 & N1 & E1).
  injection N1 as <-.
  change (execute_line "PRINT" (echo "PRINT" abort_run_1))
    with (Raised index_error (echo "PRINT" abort_run_1)) in E1.
  split; [exact E0|]. split; [simpl; lia | exact E1].
Defined.

(** ** Comments on command lines *)

(** C6, amended: on a declaration line, one bracketed by [<] and [>], the
    text from the first [#] on is removed before the declaration is read,
    and the closing [>] is checked again: when it is gone the line is
    reported and nothing is bound; when it is still there the line is
    executed exactly as the line without the comment is, binding the
    name, or reported when it holds no [=].  A command line is not
    stripped of anything: its tokens are those of the whole line, a [#]
    in the line is in one of them, and what [execute_line] does is the
    dispatch of exactly these tokens: the first, upper-cased, is looked up
    as the command (and reported when unknown), the others are shaped
    into the arguments, and when they are as many as the command expects
    the handler is called with them.  A line that is a comment as a whole
    is dropped when the script is loaded. *)
Theorem comment_stripping :
  forall (H : Host) (st : interp) (line : string),
    (is_declaration line = true ->
       (endswith (clean_line line) ">" = false ->
          execute_line line st
          = Done (print ("Invalid variable declaration format: " ++ strip line
                         ++ " (missing closing '>')") st))
       /\ (endswith (clean_line line) ">" = true ->
             match split_once "=" (slice_1_m1 (clean_line line)) with
             | Some (var, val) =>
                 execute_line line st = execute_line (clean_line line) st
                 /\ execute_line line st
                    = Done (assign (VStr (strip var))
                              (parse_value (variables st) (strip val)) st)
             | None =>
                 execute_line line st
                 = Done (print ("Invalid variable declaration: " ++ strip line)
                           st)
             end))
    /\ (is_declaration line = false ->
        commands st = parse_SPiD_definition ->
        forall tok0 raw_args,
          tokenize (strip line) = tok0 :: raw_args ->
          (contains hash (strip line) = true ->
           existsb (contains hash) (tok0 :: raw_args) = true)
          /\ (cmd_get (upper tok0) (commands st) = None ->
              execute_line line st
              = Done (print ("Unknown command: " ++ upper tok0) st))
          /\ (forall def handler_name h warnings args,
                 cmd_get (upper tok0) (commands st) = Some def ->
                 handler def = Some handler_name ->
                 handlers_get handler_name handlers = Some h ->
                 shape (upper tok0) (arg_count def) raw_args (variables st)
                 = (warnings, inr args) ->
                 List.length args = arg_count def ->
                 execute_line line st
                 = try_except (upper tok0)
                     (call_handler execute_line handler_name h args
                        (log (Call (upper tok0) handler_name args)
                           (print_all warnings st)))))
    /\ (forall pre post,
           startswith (strip line) "#" = true ->
           load_script (pre ++ line :: post)%list
           = load_script (pre ++ post)%list).
Proof.
  intros H st line. split; [|split].
  - intros Hd. unfold execute_line.
    rewrite (execute_line_declaration _ line st Hd). split.
    + intros He. now rewrite He.
    + intros He. rewrite He. simpl negb. cbv iota.
      destruct (is_declaration_clean line Hd He) as [Hd' Hc'].
      rewrite (execute_line_declaration _ (clean_line line) st Hd').
      rewrite Hc', He. simpl negb. cbv iota.
      destruct (split_once "=" (slice_1_m1 (clean_line line))) as [[var val]|];
        [split|]; reflexivity.
  - intros Hd Ht tok0 raw_args Hk. split; [|split].
    + intros Hc. rewrite <- Hk. now apply tokenize_keeps_hash.
    + intros Ec. rewrite (execute_line_unfold line st Ht).
      unfold classify. unfold is_declaration in Hd. rewrite Hd, Hk, Ec.
      destruct (String.eqb_spec (strip line) "") as [E|_]; [|reflexivity].
      rewrite E in Hk. discriminate Hk.
    + intros def hname h warnings args Ec Eh Ehh Es El.
      rewrite (execute_line_unfold line st Ht).
      now rewrite (classify_command line st tok0 raw_args def hname h
                     warnings args Hd Hk Ec Eh Ehh Es El).
  - intros pre post Hs. rewrite !load_script_app. f_equal.
    change (line :: post) with ([line] ++ post)%list.
    rewrite load_script_app, load_script_one.
    unfold is_script_line. rewrite Hs, andb_false_r. reflexivity.
Qed.

Lemma comment_stripping_witness :
  execute_line "<X = 5 # five>" (fresh None)
  = Done (print ("Invalid variable declaration format: " ++ strip "<X = 5 # five>"
                 ++ " (missing closing '>')") (fresh None))
  /\ execute_line "<X = 5> # set>" (fresh None)
     = execute_line (clean_line "<X = 5> # set>") (fresh None)
  /\ existsb (contains hash) (tokenize (strip "PRINT 1 hi # there")) = true
  /\ execute_line "PRINT 1 hi # there" (fresh None)
     = Done (print "hi # there"
               (log (Call "PRINT" "PRINT_CMD" [VNum 1%float; VStr "hi # there"])
                  (fresh None)))
  /\ execute_line "#note 1" (fresh None)
     = Done (print "Unknown command: #NOTE" (fresh None))
  /\ load_script ["ADD 1 2 X"; " # note"; "PRINT 0 X"]
     = load_script ["ADD 1 2 X"; "PRINT 0 X"].
Proof.
  assert (D1 : is_declaration "<X = 5 # five>" = true)
    by (vm_compute; reflexivity).
  assert (E1 : endswith (clean_line "<X = 5 # five>") ">" = false)
    by (vm_compute; reflexivity).
  assert (D2 : is_declaration "<X = 5> # set>" = true)
    by (vm_compute; reflexivity).
  assert (E2 : endswith (clean_line "<X = 5> # set>") ">" = true)
    by (vm_compute; reflexivity).
  assert (D3 : is_declaration "PRINT 1 hi # there" = false)
    by (vm_compute; reflexivity).
  assert (E3 : contains hash (strip "PRINT 1 hi # there") = true)
    by (vm_compute; reflexivity).
  assert (K3 : tokenize (strip "PRINT 1 hi # there")
               = ["PRINT"; "1"; "hi"; "#"; "there"])
    by (vm_compute; reflexivity).
  assert (D4 : is_declaration "#note 1" = false) by (vm_compute; reflexivity).
  assert (K4 : tokenize (strip "#note 1") = ["#note"; "1"])
    by (vm_compute; reflexivity).
  destruct (proj1 (proj2 (comment_stripping sample (fresh None)
                            "PRINT 1 hi # there")) D3 eq_refl _ _ K3)
    as (T3 & _ & I3).
  destruct (proj1 (proj2 (comment_stripping sample (fresh None) "#note 1"))
              D4 eq_refl _ _ K4) as (_ & U4 & _).
  split; [|split; [|split; [|split; [|split]]]].
  - exact (proj1 (proj1 (comment_stripping sample (fresh None) _) D1) E1).
  - pose proof (proj2 (proj1 (comment_stripping sample (fresh None) _) D2) E2)
      as P.
    destruct (split_once "=" (slice_1_m1 (clean_line "<X = 5> # set>")))
      as [[var val]|] eqn:E.
    + exact (proj1 P).
    + vm_compute in E. discriminate E.
  - rewrite K3. exact (T3 E3).
  - exact (I3 (CommandDef "(1,0) (VAR,TXT)" (Some "PRINT_CMD") 2)
             "PRINT_CMD" H_PRINT_CMD []
             [VNum 1%float; VStr "hi # there"]
             eq_refl eq_refl eq_refl eq_refl eq_refl).
  - exact (U4 eq_refl).
  - exact (proj2 (proj2 (comment_stripping sample (fresh None) " # note"))
             ["ADD 1 2 X"] ["PRINT 0 X"] eq_refl).
Defined.

(** ** Arithmetic command lines *)

Lemma dict_get_text_set_other (name : string) (key v : value) (d : store) :
  key <> VStr name ->
  dict_get (VStr name) (dict_set key v d) = dict_get (VStr name) d.
Proof.
  intros Hk. destruct key as [f|s].
  - apply dict_get_text_set_number.
  - apply dict_get_set_other_text. congruence.
Qed.

Section ArithmeticLines.
Context `{Host}.

(** An arithmetic command line with three argument tokens calls its
    handler with the three tokens resolved. *)
Lemma arithmetic_line_call (st : interp) (c : arith_cmd)
  (line tok0 a b out : string) :
  commands st = parse_SPiD_definition ->
  is_declaration line = false ->
  tokenize (strip line) = [tok0; a; b; out] ->
  upper tok0 = arith_name c ->
  let args := [parse_value (variables st) a; parse_value (variables st) b;
               parse_value (variables st) out] in
  execute_line line st
  = try_except (arith_name c)
      (call_handler execute_line (arith_handler_name c) (arith_handler c) args
         (log (Call (arith_name c) (arith_handler_name c) args) st)).
Proof.
  intros Ht Hd Hk Hu args.
  rewrite (execute_line_unfold line st Ht).
  rewrite (classify_command line st tok0 [a; b; out]
             (CommandDef "(VAR,VAL) (VAR,VAL) (VAR)"
                (Some (arith_handler_name c)) 3)
             (arith_handler_name c) (arith_handler c) [] args Hd Hk);
    try reflexivity.
  - now rewrite Hu.
  - rewrite Hu, Ht. destruct c; reflexivity.
  - destruct c; reflexivity.
  - rewrite Hu. destruct c; reflexivity.
Qed.

End ArithmeticLines.

(** C9, on the command line: an arithmetic command ([ADD], [SUB], [MULT],
    [DIVS]) with three argument tokens resolves all three, the third like
    the two inputs, and calls its handler with what they resolve to.  With
    two numeric inputs and no division by zero the result, a float, is
    stored under what the third token resolves to: when that is the token
    itself (a fresh name) the output variable reads as the result, as the
    claim has it; when it is anything else (the name is bound already, say
    to a number) the result is stored under that value as key and the
    output variable is not written.  A divisor equal to zero prints
    [Division by zero] and an input that is not numeric prints the type
    error; both leave the store as it was. *)
Theorem arithmetic_command_lines :
  forall (H : Host) (st : interp) (c : arith_cmd)
         (line tok0 a b out : string),
    commands st = parse_SPiD_definition ->
    is_declaration line = false ->
    tokenize (strip line) = [tok0; a; b; out] ->
    upper tok0 = arith_name c ->
    let va := parse_value (variables st) a in
    let vb := parse_value (variables st) b in
    let key := parse_value (variables st) out in
    let st1 := log (Call (arith_name c) (arith_handler_name c) [va; vb; key])
                 st in
    (forall x y,
        to_float va = Some x -> to_float vb = Some y ->
        divides_by_zero c y = false ->
        let st' := assign key (VNum (arith_result c x y)) st1 in
        execute_line line st = Done st'
        /\ (key = VStr out ->
            dict_get (VStr out) (variables st')
            = Some (VNum (arith_result c x y)))
        /\ (key <> VStr out ->
            dict_get (VStr out) (variables st')
            = dict_get (VStr out) (variables st)))
    /\ (forall x y,
           to_float va = Some x -> to_float vb = Some y ->
           divides_by_zero c y = true ->
           execute_line line st = Done (print "Division by zero" st1)
           /\ variables (print "Division by zero" st1) = variables st)
    /\ (to_float va = None \/ to_float vb = None ->
        execute_line line st
        = Done (print "Arithmetic operations require numeric values" st1)
        /\ variables (print "Arithmetic operations require numeric values" st1)
           = variables st).
Proof.
  intros H st c line tok0 a b out Ht Hd Hk Hu va vb key st1.
  pose proof (arithmetic_line_call st c line tok0 a b out Ht Hd Hk Hu) as E.
  cbv zeta in E. fold va vb key in E. fold st1 in E.
  split; [|split].
  - intros x y Ea Eb Hz st'. split; [|split].
    + rewrite E. subst st'.
      destruct c; cbn [arith_handler call_handler arith_name
                         arith_handler_name arith_result];
        unfold handle_arith; rewrite Ea, Eb;
        cbn [String.eqb Ascii.eqb Bool.eqb]; try reflexivity.
      simpl in Hz. rewrite Hz. reflexivity.
    + intros Eo. subst st'. cbn [variables assign set_variables log].
      rewrite Eo. apply dict_get_set_same, key_eqb_text_refl.
    + intros Eo. subst st'. cbn [variables assign set_variables log].
      now apply dict_get_text_set_other.
  - intros x y Ea Eb Hz. split; [|reflexivity].
    rewrite E. destruct c; try discriminate Hz. simpl in Hz.
    cbn [arith_handler call_handler arith_name arith_handler_name].
    unfold handle_arith. rewrite Ea, Eb.
    cbn [String.eqb Ascii.eqb Bool.eqb]. rewrite Hz. reflexivity.
  - intros Hab. split; [|reflexivity].
    rewrite E.
    destruct c; cbn [arith_handler call_handler arith_name arith_handler_name];
      unfold handle_arith;
      destruct Hab as [Hn|Hn]; rewrite Hn; try reflexivity;
      destruct (to_float va); reflexivity.
Qed.

Lemma arithmetic_command_lines_witness :
  variables_of (execute_line "ADD 2 3 X"
                  (assign (VStr "X") (VNum 1%float) (fresh None)))
  = Some [(VStr "X", VNum 1%float); (VNum 1%float, VNum 5%float)]
  /\ variables_of (execute_line "ADD 2 3 X" (fresh None))
     = Some [(VStr "X", VNum 5%float)]
  /\ variables_of (execute_line "DIVS 4 0 X" (fresh None)) = Some []
  /\ printed_by (execute_line "DIVS 4 0 X" (fresh None))
     = Some ["Division by zero"]
  /\ printed_by (execute_line "MULT 4 four X" (fresh None))
     = Some ["Arithmetic operations require numeric values"].
Proof.
  split; [|split; [|split; [|split]]].
  - rewrite (proj1 (proj1 (arithmetic_command_lines sample
                             (assign (VStr "X") (VNum 1%float) (fresh None))
                             OpAdd "ADD 2 3 X" "ADD" "2" "3" "X"
                             eq_refl eq_refl eq_refl eq_refl)
                      2%float 3%float eq_refl eq_refl eq_refl)).
    reflexivity.
  - rewrite (proj1 (proj1 (arithmetic_command_lines sample (fresh None)
                             OpAdd "ADD 2 3 X" "ADD" "2" "3" "X"
                             eq_refl eq_refl eq_refl eq_refl)
                      2%float 3%float eq_refl eq_refl eq_refl)).
    reflexivity.
  - rewrite (proj1 (proj1 (proj2 (arithmetic_command_lines sample (fresh None)
                             OpDivs "DIVS 4 0 X" "DIVS" "4" "0" "X"
                             eq_refl eq_refl eq_refl eq_refl))
                      4%float 0%float eq_refl eq_refl eq_refl)).
    reflexivity.
  - rewrite (proj1 (proj1 (proj2 (arithmetic_command_lines sample (fresh None)
                             OpDivs "DIVS 4 0 X" "DIVS" "4" "0" "X"
                             eq_refl eq_refl eq_refl eq_refl))
                      4%float 0%float eq_refl eq_refl eq_refl)).
    reflexivity.
  - rewrite (proj1 (proj2 (proj2 (arithmetic_command_lines sample (fresh None)
                             OpMult "MULT 4 four X" "MULT" "4" "four" "X"
                             eq_refl eq_refl eq_refl eq_refl))
                      (or_intror eq_refl))).
    reflexivity.
Defined.

(** ** The table built from the grammar text *)

(** A clause with groups and no handler tag ends with the closing
    parenthesis of its last group. *)
Lemma clause_untagged_end (name : string) (groups : list string) :
  groups <> [] -> endswith (clause name groups None) ")" = true.
Proof.
  intros Hg. destruct (join_groups_shape groups Hg) as [m Hm].
  unfold clause, tag_text. rewrite Hm, append_empty_r.
  replace (name ++ " " ++ String "(" (m ++ ")"))
    with ((name ++ " " ++ String "(" m) ++ ")")
    by (rewrite !append_assoc_s; reflexivity).
  apply endswith_char.
Qed.

(** A clause with a handler tag ends with the closing bracket of the
    tag, and starts with its name up to the first blank. *)
Lemma clause_tagged_end (name : string) (groups : list string) (h : string) :
  endswith (clause name groups (Some h)) "]" = true.
Proof.
  unfold clause, tag_text.
  replace (name ++ " " ++ join " " (map group groups) ++ " [CMD=" ++ h ++ "]")
    with ((name ++ " " ++ join " " (map group groups) ++ " [CMD=" ++ h) ++ "]")
    by (rewrite !append_assoc_s; reflexivity).
  apply endswith_char.
Qed.

Lemma split_head_word (name rest : string) :
  all_chars is_word name = true ->
  split_head " " (name ++ String " " rest) = name.
Proof.
  intros Hw. unfold split_head.
  assert (E : split_once " " (name ++ String " " rest) = Some (name, rest)).
  { induction name as [|c r IH]; [reflexivity|].
    simpl in Hw. apply andb_true_iff in Hw as [Hc Hr].
    cbn [append split_once].
    destruct (Ascii.eqb_spec c " ") as [->|_]; [discriminate Hc|].
    now rewrite (IH Hr). }
  now rewrite E.
Qed.

(** C5: the table the interpreter builds from its grammar text has an
    entry for a name only where the text has a clause of that name that
    declares a handler tag: the entry holds the handler of the tag, the
    pattern made of the groups of the clause, and as argument count the
    number of these groups, each group counting once whatever it lists
    between its parentheses.  No clause of the text is without a handler
    tag, so none appears in the table; and every clause of the text, all
    of them with a tag, has an entry under its upper-cased name. *)
Theorem registry_from_grammar :
  (forall (name : string) (def : command_def),
      cmd_get name parse_SPiD_definition = Some def ->
      exists groups tag,
        In (clause name groups (Some tag)) grammar_lines
        /\ forallb group_body groups = true
        /\ pattern def = join " " (map group groups)
        /\ handler def = Some tag
        /\ arg_count def = List.length groups)
  /\ (forall (name : string) (groups : list string) (tag : option string),
         In (clause name groups tag) grammar_lines ->
         groups <> [] ->
         tag <> None)
  /\ (forall (name : string) (groups : list string) (tag : string),
         In (clause name groups (Some tag)) grammar_lines ->
         word name = true ->
         cmd_get (upper name) parse_SPiD_definition <> None).
Proof.
  split; [|split].
  - intros name def E. apply cmd_get_in in E.
    assert (F : forallb entry_from_clause parse_SPiD_definition = true)
      by (vm_compute; reflexivity).
    rewrite forallb_forall in F. specialize (F _ E).
    unfold entry_from_clause in F. cbn [fst snd] in F.
    destruct (handler def) as [tag|]; [|discriminate F].
    apply andb_true_iff in F as [F Fc].
    apply andb_true_iff in F as [F Fp].
    apply andb_true_iff in F as [Fl Fg].
    apply existsb_exists in Fl as (l & Hl & El).
    apply String.eqb_eq in El, Fp. apply Nat.eqb_eq in Fc. subst l.
    exists (groups_of (pattern def)), tag.
    repeat split; assumption.
  - intros name groups tag Hin Hg ->.
    assert (F : forallb (fun l => negb (endswith l ")")) grammar_lines = true)
      by (vm_compute; reflexivity).
    rewrite forallb_forall in F. specialize (F _ Hin).
    rewrite (clause_untagged_end name groups Hg) in F. discriminate F.
  - intros name groups tag Hin Hw.
    assert (F : forallb
                  (fun l =>
                     negb (endswith l "]")
                     || match cmd_get (upper (split_head " " l))
                                parse_SPiD_definition with
                        | Some _ => true
                        | None => false
                        end) grammar_lines = true)
      by (vm_compute; reflexivity).
    rewrite forallb_forall in F. specialize (F _ Hin).
    rewrite clause_tagged_end in F. cbn [negb orb] in F.
    apply andb_true_iff in Hw as [_ Hw].
    unfold clause in F.
    change (name ++ " " ++ join " " (map group groups) ++ tag_text (Some tag))
      with (name ++ String " " (join " " (map group groups)
                                 ++ tag_text (Some tag))) in F.
    rewrite (split_head_word _ _ Hw) in F.
    destruct (cmd_get (upper name) parse_SPiD_definition);
      [discriminate | discriminate F].
Qed.

Lemma registry_from_grammar_witness :
  (exists groups tag,
      In (clause "IF" groups (Some tag)) grammar_lines
      /\ forallb group_body groups = true
      /\ "(VAR,VAL) (VAR,VAL) (HIGH,LOW,EQUAL) (THEN,ELSE) (SCRIPT)"
         = join " " (map group groups)
      /\ Some "CMP" = Some tag
      /\ 5 = List.length groups)
  /\ Some "NETWORK_FETCH" <> None
  /\ cmd_get (upper "FETCH") parse_SPiD_definition <> None.
Proof.
  assert (I : In (clause "FETCH"
                    ["VAR,TXT"; "VAR"; "VAR,TXT"; "VAR,TXT"; "VAR,TXT"; "TXT";
                     "VAR"] (Some "NETWORK_FETCH")) grammar_lines)
    by (vm_compute; tauto).
  split; [|split].
  - exact (proj1 registry_from_grammar "IF"
             (CommandDef
                "(VAR,VAL) (VAR,VAL) (HIGH,LOW,EQUAL) (THEN,ELSE) (SCRIPT)"
                (Some "CMP") 5) eq_refl).
  - apply (proj1 (proj2 registry_from_grammar) _ _ _ I). discriminate.
  - apply (proj2 (proj2 registry_from_grammar) _ _ _ I). reflexivity.
Defined.
